(** * hack_yourself.shop: a shallow embedding of the storefront handlers

    The development follows the Flask application under [app/]:
    [utils.py] (cart helpers, password strength, admin gate, upload names),
    [blueprints/shop/routes.py] (cart, checkout, payment call-backs),
    [blueprints/auth/routes.py] (registration, login and logout, confirmation
    and reset tokens, the order page and the profile),
    [blueprints/admin/routes.py] (category, product and order management)
    and [cli.py] (the seed and create-admin commands).

    How the platform is modelled:
    - Python [str] is a Rocq [string] that holds the UTF-8 bytes of the text;
      the characters are the code points that the bytes encode.  [len],
      [str.strip], the white space and the sign that [int] reads and the
      classes of the regular expressions are defined on code points.  The
      two tables of the Unicode database that the application reaches, the
      decimal digits and [str.lower], are the fields of class [Py.Unicode].
    - Python [int] is [Z].  The conversions between [int] and [str] are
      limited to 4300 digits ([Py.MAX_STR_DIGITS]) in both directions, and
      SQLite's INTEGER is 64 bits wide ([sqlite_int]): binding a larger
      integer to a statement raises OverflowError.
    - Python [float] (prices) is an abstract arithmetic, and the third-party
      libraries (werkzeug password hashing and file names, itsdangerous
      signatures, the Stripe SDK) are interfaces: the fields of class [Env].
      The properties hold for every instance; [Demo.env] is one, with exact
      rational prices, on which the examples run.
    - A table is the list of its rows in insertion order, and a new row gets
      the key after the largest one.  The [created_at] columns are left out:
      no modelled view writes anything that depends on them.  The catalogue
      search of [index] (SQL [ILIKE]), the order list of [account] (sorted by
      [created_at]) and [order_total] (a float sum that the templates show)
      are not modelled, and a rendered page is known by the name of its
      template.
    - A view that ends in an uncaught exception or in [abort] leaves the
      database (the SQLAlchemy session is discarded) and the session cookie
      as they were, unless it called [save_cart] before. *)

From Stdlib Require Import ZArith List String Ascii Bool Lia.
From Stdlib Require Import Decimal DecimalString DecimalPos DecimalZ DecimalFacts.
From Stdlib Require QArith.
From stdpp Require Import base option gmap strings list.

Open Scope Z_scope.
Open Scope string_scope.

(** ** Python built-ins on strings and integers *)

Module Py.

(** Exceptions that the handlers can meet. *)
Inductive exn :=
| ValueError
| TypeError
| OverflowError
| AttributeError
| IntegrityError.   (* sqlalchemy.exc: a UNIQUE constraint that fails *)

(** *** Characters

    A [str] is held as its UTF-8 bytes; its characters are the code points
    that the bytes encode. *)

(** The six bits of a continuation byte [10xxxxxx]. *)
Definition cont (c : ascii) : option N :=
  let n := N_of_ascii c in
  if ((128 <=? n) && (n <? 192))%N then Some (n - 128)%N else None.

Definition is_cont (c : ascii) : bool :=
  match cont c with Some _ => true | None => false end.

(** The character that starts at the byte [c], followed by the bytes [r];
    [None] when [c] is a continuation byte (no character starts there). *)
Definition codepoint (c : ascii) (r : string) : option N :=
  let n := N_of_ascii c in
  if (n <? 128)%N then Some n
  else if (n <? 192)%N then None
  else if (n <? 224)%N then
    match r with
    | String c1 _ =>
        match cont c1 with
        | Some x1 => Some ((n - 192) * 64 + x1)%N
        | None => None
        end
    | EmptyString => None
    end
  else if (n <? 240)%N then
    match r with
    | String c1 (String c2 _) =>
        match cont c1, cont c2 with
        | Some x1, Some x2 => Some (((n - 224) * 64 + x1) * 64 + x2)%N
        | _, _ => None
        end
    | _ => None
    end
  else
    match r with
    | String c1 (String c2 (String c3 _)) =>
        match cont c1, cont c2, cont c3 with
        | Some x1, Some x2, Some x3 =>
            Some ((((n - 240) * 64 + x1) * 64 + x2) * 64 + x3)%N
        | _, _, _ => None
        end
    | _ => None
    end.

(** The characters of [s], in order. *)
Fixpoint codepoints (s : string) : list N :=
  match s with
  | EmptyString => []
  | String c r =>
      match codepoint c r with
      | Some cp => cp :: codepoints r
      | None => codepoints r
      end
  end.

(** [len(s)] *)
Definition len (s : string) : nat := length (codepoints s).

(** Iterating a [str]: every character as a string of its own. *)
Fixpoint chars (s : string) : list string :=
  match s with
  | EmptyString => []
  | String c r =>
      let rest := chars r in
      match r, rest with
      | String c1 _, x :: xs =>
          if is_cont c1 then String c x :: xs
          else String c EmptyString :: rest
      | _, _ => String c EmptyString :: rest
      end
  end.

(** [str.isspace] of one character: U+0009-000D, U+001C-0020, U+0085,
    U+00A0, U+1680, U+2000-200A, U+2028, U+2029, U+202F, U+205F, U+3000. *)
Definition is_space (cp : N) : bool :=
  ((9 <=? cp) && (cp <=? 13) || (28 <=? cp) && (cp <=? 32)
   || (cp =? 133) || (cp =? 160) || (cp =? 5760)
   || (8192 <=? cp) && (cp <=? 8202)
   || (cp =? 8232) || (cp =? 8233) || (cp =? 8239) || (cp =? 8287)
   || (cp =? 12288))%N.

(** The white space that [int] skips around a number: the one of
    [str.isspace] without the separators U+001C-001F. *)
Definition int_space (cp : N) : bool :=
  is_space cp && negb ((28 <=? cp) && (cp <=? 31))%N.

(** The classes [A-Z], [a-z] and [0-9] of the regular expressions. *)
Definition is_upper (cp : N) : bool := ((65 <=? cp) && (cp <=? 90))%N.
Definition is_lower (cp : N) : bool := ((97 <=? cp) && (cp <=? 122))%N.
Definition is_digit (cp : N) : bool := ((48 <=? cp) && (cp <=? 57))%N.
Definition is_alnum (cp : N) : bool := is_upper cp || is_lower cp || is_digit cp.

(** [s.lower()] on ASCII: A-Z go to a-z, every other byte stays. *)
Definition lower_char (c : ascii) : ascii :=
  if is_upper (N_of_ascii c) then ascii_of_N (N_of_ascii c + 32) else c.

Fixpoint ascii_lower (s : string) : string :=
  match s with
  | EmptyString => EmptyString
  | String c s' => String (lower_char c) (ascii_lower s')
  end.

Fixpoint is_ascii (s : string) : bool :=
  match s with
  | EmptyString => true
  | String c s' => (N_of_ascii c <? 128)%N && is_ascii s'
  end.

(** The part of the interpreter's Unicode database that the application
    reaches beyond ASCII: the value of a decimal digit (the characters of
    category Nd, which [int] and the class [\d] accept) and [str.lower]. *)
Class Unicode := {
  unicode_decimal : N -> option Z;
  unicode_decimal_digit : forall cp d, unicode_decimal cp = Some d -> 0 <= d <= 9;
  unicode_lower : string -> string;
  unicode_lower_ascii :
    forall s, is_ascii s = true -> unicode_lower s = ascii_lower s;
  unicode_lower_idem : forall s, unicode_lower (unicode_lower s) = unicode_lower s
}.

(** *** Strings *)

(** [s.lstrip()]: the white-space characters at the head go, each with all
    of its bytes (one to three). *)
Fixpoint lstrip (s : string) : string :=
  match s with
  | EmptyString => EmptyString
  | String c r =>
      match codepoint c r with
      | Some cp =>
          if is_space cp then
            if (cp <? 128)%N then lstrip r
            else if (cp <? 2048)%N then
              match r with
              | String _ r1 => lstrip r1
              | _ => s
              end
            else
              match r with
              | String _ (String _ r2) => lstrip r2
              | _ => s
              end
          else s
      | None => s
      end
  end.

(** Whether [s] holds white space only. *)
Definition blank (s : string) : bool :=
  match lstrip s with EmptyString => true | _ => false end.

(** [s.rstrip()]: what comes before the white space that ends [s].  No
    white-space character starts inside another character, so that white
    space is the longest blank suffix of the bytes. *)
Fixpoint rstrip (s : string) : string :=
  match s with
  | EmptyString => EmptyString
  | String c r => if blank s then EmptyString else String c (rstrip r)
  end.

(** [s.strip()] *)
Definition strip (s : string) : string := rstrip (lstrip s).

(** Truthiness of a string: [if s], [not s]. *)
Definition truthy (s : string) : bool :=
  match s with EmptyString => false | _ => true end.

(** [a or b] on strings. *)
Definition or_str (a b : string) : string := if truthy a then a else b.

(** Whether a byte of [s] satisfies [p]: [c in s] for an ASCII character
    [c]. *)
Fixpoint any_char (p : ascii -> bool) (s : string) : bool :=
  match s with
  | EmptyString => false
  | String c s' => p c || any_char p s'
  end.

(** [s.startswith(p)] *)
Fixpoint startswith (p s : string) : bool :=
  match p, s with
  | EmptyString, _ => true
  | String a p', String b s' => if Ascii.eqb a b then startswith p' s' else false
  | String _ _, EmptyString => false
  end.

(** *** Integers *)

(** [str(n)] for an integer. *)
Definition str (n : Z) : string := NilZero.string_of_int (Z.to_int n).

(** The interpreter's limit on the conversion between [int] and [str]:
    4300 decimal digits, beyond which both directions raise ValueError. *)
Definition MAX_STR_DIGITS : nat := 4300.

(** Whether [str(n)] is within the limit; the sign is not counted. *)
Definition str_fits (n : Z) : bool :=
  (String.length (str (Z.abs n)) <=? MAX_STR_DIGITS)%nat.

Fixpoint drop_while {A} (p : A -> bool) (l : list A) : list A :=
  match l with
  | [] => []
  | x :: l' => if p x then drop_while p l' else l
  end.

(** A list without the elements at its two ends that satisfy [p]. *)
Definition trim {A} (p : A -> bool) (l : list A) : list A :=
  rev (drop_while p (rev (drop_while p l))).

Section Numbers.
Context `{Unicode}.

(** [s.lower()] *)
Definition lower (s : string) : string := unicode_lower s.

(** The value of a decimal digit. *)
Definition digit_of (cp : N) : option Z :=
  if (cp <? 128)%N then
    if is_digit cp then Some (Z.of_N cp - 48) else None
  else unicode_decimal cp.

(** The class [\d]. *)
Definition is_decimal (cp : N) : bool :=
  match digit_of cp with Some _ => true | None => false end.

(** The digits of [int(s)]: decimal digits, with single underscores allowed
    between two of them.  [seen] counts the digits and [prev] tells whether
    the previous character was one. *)
Fixpoint parse_digits (s : list N) (acc : Z) (seen : nat) (prev : bool)
  : option Z :=
  match s with
  | [] => if prev && (seen <=? MAX_STR_DIGITS)%nat then Some acc else None
  | cp :: s' =>
      match digit_of cp with
      | Some d => parse_digits s' (10 * acc + d) (S seen) true
      | None =>
          if (cp =? 95)%N && prev then parse_digits s' acc seen false
          else None
      end
  end.

(** [int(s)] for a string: the white space around the number is dropped,
    then an optional sign is read, then the digits.  [None] is
    [ValueError]. *)
Definition int_of_str (s : string) : option Z :=
  match trim int_space (codepoints s) with
  | 43%N :: r => parse_digits r 0 0 false
  | 45%N :: r => Z.opp <$> parse_digits r 0 0 false
  | t => parse_digits t 0 0 false
  end.

End Numbers.

(* [max(a, b)] on integers is [Z.max]. *)

End Py.

(** SQLite's INTEGER: 64 bits, two's complement.  The driver refuses to
    bind any other [int] (OverflowError). *)
Definition sqlite_int (n : Z) : bool := Z.leb (- 2 ^ 63) n && Z.ltb n (2 ^ 63).

(** The number that a run of decimal digits denotes, after the digits [acc]
    read so far. *)
Fixpoint uint_val (d : uint) (acc : Z) : Z :=
  match d with
  | Nil => acc
  | D0 l => uint_val l (10 * acc)
  | D1 l => uint_val l (10 * acc + 1)
  | D2 l => uint_val l (10 * acc + 2)
  | D3 l => uint_val l (10 * acc + 3)
  | D4 l => uint_val l (10 * acc + 4)
  | D5 l => uint_val l (10 * acc + 5)
  | D6 l => uint_val l (10 * acc + 6)
  | D7 l => uint_val l (10 * acc + 7)
  | D8 l => uint_val l (10 * acc + 8)
  | D9 l => uint_val l (10 * acc + 9)
  end.

(** ** The platform: Python floats and the third-party libraries *)

Class Env := {
  env_unicode :: Py.Unicode;
  (** Python [float]: the prices. *)
  float : Type;
  fzero : float;                                (* [0.0] *)
  fadd : float -> float -> float;               (* [a + b] *)
  (** [a * n] with [n] an int: [n] is first converted to a float, which
      raises OverflowError when it is too large in magnitude for one
      ([float_fits n = false]); every 64-bit integer fits. *)
  float_fits : Z -> bool;
  float_fits_int64 : forall n, sqlite_int n = true -> float_fits n = true;
  fmul_int : float -> Z -> float;
  fle : float -> float -> bool;                 (* [a <= b] *)
  flt : float -> float -> bool;                 (* [a < b] *)
  fround2 : float -> float;                     (* [round(a, 2)] *)
  float_truthy : float -> bool;                 (* [bool(a)] *)
  float_of_str : string -> option float;        (* [float(s)], [None] is ValueError *)
  int_of_float : float -> Py.exn + Z;           (* [int(a)]: nan and inf raise *)
  flt_not_fle : forall a b, flt a b = true -> fle b a = false;
  (** werkzeug *)
  generate_password_hash : string -> string;
  secure_filename : string -> string;
  (** itsdangerous, under the application's secret key and the salt
      ["email-confirm-salt"]: [sign] is what [dumps] does with a payload at
      a given time; a token with a good signature yields the signed payload
      and the time stamp of its signature. *)
  sign : string -> Z -> string;
  unsign : string -> option (string * Z);
  (** extensions.py: the Stripe configuration read from the environment,
      and the SDK call.  [stripe_session_create] receives the name, price and
      quantity of every line, the order id and the customer's email; it
      answers the id and the url of the hosted session, [None] standing for
      any exception of the [try] block. *)
  STRIPE_SECRET_KEY : option string;
  STRIPE_PUBLISHABLE_KEY : option string;
  stripe_session_create : list (string * float * Z) -> Z -> string -> option (string * string)
}.

(** Truthiness of [os.environ.get(...)]. *)
Definition env_truthy (v : option string) : bool :=
  match v with Some s => Py.truthy s | None => false end.

(** ** models.py *)

Module User.
Record t := {
  id : Z;
  email : string;
  password_hash : string;
  is_admin : bool;
  full_name : string;
  default_address : string;
  avatar : option string;
  email_confirmed : bool
}.
End User.

Module Category.
Record t := { id : Z; name : string }.
End Category.

Module Product.
Section Fields.
Context `{Env}.
Record t := {
  id : Z;
  name : string;
  price : float;
  description : string;
  image : string;
  category_id : option Z
}.
End Fields.
End Product.

Module Order.
Record t := {
  id : Z;
  user_id : option Z;
  customer_name : string;
  email : string;
  address : string;
  status : string;
  user_order_no : option Z;
  stripe_session_id : option string
}.
End Order.

Module OrderItem.
Section Fields.
Context `{Env}.
Record t := {
  id : Z;
  order_id : Z;
  product_id : Z;
  quantity : Z;
  price_snapshot : float
}.
End Fields.
End OrderItem.

(** The status labels the handlers write. *)
Definition ST_PROCESSING : string := "Обработка платежа".
Definition ST_AWAITING_CHECKOUT : string := "Ожидание оплаты".
Definition ST_AWAITING_ADMIN : string := "Ожидание платежа".
Definition ST_PAID : string := "Оплачено".
Definition ST_CANCELED : string := "Платёж отменён".

(** ** The database, the session and the request *)

Section State.
Context `{Env}.

(** One list of rows per table, in insertion order. *)
Record Db := {
  users : list User.t;
  categories : list Category.t;
  products : list Product.t;
  orders : list Order.t;
  order_items : list OrderItem.t;
  uploads : list string           (* files written under static/uploads *)
}.

(** The key an INTEGER PRIMARY KEY column gets on insertion: one more
    than the largest key of the table, 1 in an empty table. *)
Definition next_id (ids : list Z) : Z := 1 + fold_right Z.max 0 ids.

(** [User.query.get(pk)] in the user loader, with the key that
    [login_user] put into the session. *)
Definition get_user (db : Db) (pk : Z) : option User.t :=
  find (fun u => Z.eqb (User.id u) pk) (users db).

(** The row that a SELECT by primary key yields for a key that came with
    the request.  SQLite stores 64-bit keys: a key beyond them names no
    row, and the views that look one up fail before the statement runs
    (see [out_of_range]). *)
Definition get_category (db : Db) (pk : Z) : option Category.t :=
  if sqlite_int pk
  then find (fun c => Z.eqb (Category.id c) pk) (categories db)
  else None.
Definition get_product (db : Db) (pk : Z) : option Product.t :=
  if sqlite_int pk
  then find (fun p => Z.eqb (Product.id p) pk) (products db)
  else None.
Definition get_order (db : Db) (pk : Z) : option Order.t :=
  if sqlite_int pk
  then find (fun o => Z.eqb (Order.id o) pk) (orders db)
  else None.

(** Whether binding [pk] to a statement raises OverflowError. *)
Definition out_of_range (pk : Z) : bool := negb (sqlite_int pk).

(** [User.query.filter_by(email=e).first()] *)
Definition user_by_email (db : Db) (e : string) : option User.t :=
  find (fun u => String.eqb (User.email u) e) (users db).

(** The Flask session: the cart slot ([session["cart"]], absent until the
    first [save_cart]) and the id Flask-Login keeps for a logged-in user. *)
Record Session := {
  cart_slot : option (gmap string Z);
  login_id : option Z
}.

(** [current_user]: the user the loader finds, or the anonymous user. *)
Definition current_user (db : Db) (s : Session) : option User.t :=
  match login_id s with
  | Some uid => get_user db uid
  | None => None
  end.

Definition is_authenticated (u : option User.t) : bool :=
  match u with Some _ => true | None => false end.

(** JSON values as [request.get_json] builds them. *)
#[warnings="-register-all"] Inductive json :=
| JNull
| JBool (b : bool)
| JInt (n : Z)
| JFloat (x : float)
| JStr (s : string)
| JArr (l : list json)
| JObj (l : list (string * json)).

Inductive Method := GET | POST.

Record Request := {
  method : Method;
  form : list (string * string);        (* request.form, in submission order *)
  args : list (string * string);        (* request.args *)
  files : list (string * string);       (* request.files: field, file name *)
  xhr : option string;                  (* the X-Requested-With header *)
  referrer : option string;
  url : string;
  body : option json;                   (* request.get_json(silent=True) *)
  now : Z                               (* the clock, in seconds *)
}.

(** [MultiDict.get(key)]: the first value of the key. *)
Fixpoint md_get (k : string) (l : list (string * string)) : option string :=
  match l with
  | [] => None
  | (k', v) :: l' => if String.eqb k k' then Some v else md_get k l'
  end.

(** [MultiDict.items()]: every key once, with its first value. *)
Fixpoint md_items_from (seen : list string) (l : list (string * string))
  : list (string * string) :=
  match l with
  | [] => []
  | (k, v) :: l' =>
      if existsb (String.eqb k) seen then md_items_from seen l'
      else (k, v) :: md_items_from (k :: seen) l'
  end.

Definition md_items (l : list (string * string)) : list (string * string) :=
  md_items_from [] l.

(** [MultiDict.get(key, type=int)]: a value that [int] refuses is [None]. *)
Definition md_get_int (k : string) (l : list (string * string)) : option Z :=
  match md_get k l with
  | Some v => Py.int_of_str v
  | None => None
  end.

(** What a view hands back. *)
Inductive Target := Endpoint (name : string) | Url (u : string).

Inductive Response :=
| Render (template : string)
| Redirect (to : Target) (code : Z)
| Jsonify (payload : list (string * json))
| Status (code : Z).

Record Reply := { response : Response; flashes : list string }.

(** How a view stops early: [abort(code)] or an uncaught exception. *)
Inductive halt := Abort (code : Z) | Raise (e : Py.exn).

Definition result (A : Type) : Type := halt + A.

#[global] Instance result_ret : MRet result := fun A x => inr x.
#[global] Instance result_bind : MBind result :=
  fun A B f m => match m with inl h => inl h | inr a => f a end.

Definition abort {A} (code : Z) : result A := inl (Abort code).
Definition raise {A} (e : Py.exn) : result A := inl (Raise e).

End State.

Arguments Db {_}.
Arguments Request {_}.
Arguments Response {_}.
Arguments Reply {_}.
Arguments json {_}.

(** What a request leaves behind: the database, the session and the reply
    (or the way the view stopped). *)
Record Outcome `{Env} := {
  out_db : Db;
  out_session : Session;
  out : result Reply
}.

(** ** utils.py *)

Module Utils.
Section Defs.
Context `{Env}.

Definition get_cart (s : Session) : gmap string Z :=
  default ∅ (cart_slot s).

Definition save_cart (cart : gmap string Z) (s : Session) : Session :=
  {| cart_slot := Some cart; login_id := login_id s |}.

(** A line of the cart as [cart_items] builds it. *)
Record Row := { product : Product.t; qty : Z; line_total : float }.

(** [ids = [int(pid) for pid in cart.keys()]] *)
Definition cart_ids (cart : gmap string Z) : result (list Z) :=
  match mapM Py.int_of_str (map_to_list cart).*1 with
  | Some ids => mret ids
  | None => raise Py.ValueError
  end.

(** [Product.query.filter(Product.id.in_(ids)).all() if ids else []]:
    every id is bound to the statement, which raises OverflowError for one
    beyond 64 bits. *)
Definition selected (db : Db) (ids : list Z) : list Product.t :=
  filter (fun p => Product.id p ∈ ids) (products db).

Definition products_in (db : Db) (ids : list Z) : result (list Product.t) :=
  match ids with
  | [] => mret []
  | _ =>
      if forallb sqlite_int ids
      then mret (selected db ids)
      else raise Py.OverflowError
  end.

(** The dict that the loop appends for product [p]; [p.price * qty] raises
    OverflowError when [qty] is too large for a float. *)
Definition line_of (cart : gmap string Z) (p : Product.t) : Row :=
  let qty := default 0 (cart !! Py.str (Product.id p)) in
  {| product := p; qty := qty; line_total := fmul_int (Product.price p) qty |}.

Definition row_of (cart : gmap string Z) (p : Product.t) : result Row :=
  if float_fits (default 0 (cart !! Py.str (Product.id p)))
  then mret (line_of cart p)
  else raise Py.OverflowError.

(** The body of the [for p in products] loop. *)
Definition cart_items_step (cart : gmap string Z)
    (acc : list Row * float) (p : Product.t) : result (list Row * float) :=
  let '(rows, total) := acc in
  row ← row_of cart p;
  mret ((rows ++ [row])%list, fadd total (line_total row)).

Fixpoint cart_items_from (cart : gmap string Z) (products : list Product.t)
    (acc : list Row * float) : result (list Row * float) :=
  match products with
  | [] => mret acc
  | p :: rest =>
      acc' ← cart_items_step cart acc p;
      cart_items_from cart rest acc'
  end.

Definition cart_items (db : Db) (s : Session) : result (list Row * float) :=
  let cart := get_cart s in
  ids ← cart_ids cart;
  products ← products_in db ids;
  cart_items_from cart products ([], fzero).

(** [admin_required]: [abort(403)] unless the user is authenticated and has
    [is_admin]. *)
Definition admin_required (u : option User.t) : result unit :=
  if negb (is_authenticated u)
     || negb (match u with Some u' => User.is_admin u' | None => false end)
  then abort 403
  else mret tt.

(** The suffix after the last dot: [filename.rsplit(".", 1)[1]] when the
    name has a dot. *)
Fixpoint after_last_dot (s : string) : option string :=
  match s with
  | EmptyString => None
  | String c s' =>
      match after_last_dot s' with
      | Some e => Some e
      | None => if Ascii.eqb c "." then Some s' else None
      end
  end.

Definition allowed_file (filename : string) : bool :=
  match after_last_dot filename with
  | Some ext =>
      bool_decide (Py.lower ext ∈ ["png"; "jpg"; "jpeg"; "gif"; "webp"])
  | None => false
  end.

(** [password_is_strong]: [len(password) >= 6] and a match of each of
    [[A-Z]], [\d] and [[^A-Za-z0-9]]. *)
Definition password_is_strong (password : string) : bool :=
  let cps := Py.codepoints password in
  (6 <=? length cps)%nat
  && existsb Py.is_upper cps
  && existsb Py.is_decimal cps
  && existsb (fun cp => negb (Py.is_alnum cp)) cps.

(** A strong password, in words: at least 6 characters, one of the
    uppercase letters A-Z, a decimal digit (0-9 or another digit of
    Unicode), and a character that is none of A-Z, a-z and 0-9. *)
Definition strong (password : string) : Prop :=
  (6 <= length (Py.codepoints password))%nat
  /\ (exists cp, cp ∈ Py.codepoints password /\ (65 <= cp <= 90)%N)
  /\ (exists cp, cp ∈ Py.codepoints password /\ is_Some (Py.digit_of cp))
  /\ (exists cp, cp ∈ Py.codepoints password
                 /\ ~ (65 <= cp <= 90)%N /\ ~ (97 <= cp <= 122)%N
                 /\ ~ (48 <= cp <= 57)%N).

(** The cart that the docstring of [get_cart] describes: every key is
    [str(product_id)], the decimal rendering of an integer. *)
Definition canonical_key (k : string) : bool :=
  match Py.int_of_str k with
  | Some n => String.eqb (Py.str n) k
  | None => false
  end.

Definition canonical (cart : gmap string Z) : bool :=
  forallb canonical_key (map_to_list cart).*1.

(** A cart whose keys, read as integers, are within SQLite's 64 bits. *)
Definition bindable (cart : gmap string Z) : bool :=
  forallb (fun k => match Py.int_of_str k with
                    | Some n => sqlite_int n
                    | None => false
                    end) (map_to_list cart).*1.




End Defs.
End Utils.

(** ** blueprints/shop/routes.py *)

Module Shop.
Section Views.
Context `{Env}.
Import Utils.

(** A view that stops early leaves the state as it found it. *)
Definition stop (db : Db) (s : Session) (h : halt) : Outcome :=
  {| out_db := db; out_session := s; out := inl h |}.

Definition reply (db : Db) (s : Session) (r : Response) (fl : list string)
  : Outcome :=
  {| out_db := db; out_session := s;
     out := inr {| response := r; flashes := fl |} |}.

(** [int(request.form.get("qty", 1))]; [None] is ValueError. *)
Definition form_qty (rq : Request) : option Z :=
  match md_get "qty" (form rq) with
  | Some v => Py.int_of_str v
  | None => Some 1
  end.

(** [cart_add]: POST /cart/add/<int:pid>.  The quantities that a session
    holds came out of its cookie, where an integer has at most
    [Py.MAX_STR_DIGITS] digits; the sum that [cart_add] stores can have one
    more, and then neither the JSON answer nor the cookie can be written (the
    encoder raises ValueError): the request fails and the browser keeps the
    cookie it had. *)
Definition cart_add (pid : Z) (db : Db) (s : Session) (rq : Request) : Outcome :=
  if out_of_range pid then stop db s (Raise Py.OverflowError) else
  match get_product db pid with
  | None => stop db s (Abort 404)
  | Some _ =>
      match form_qty rq with
      | None => stop db s (Raise Py.ValueError)
      | Some qty =>
          let cart := get_cart s in
          let key := Py.str pid in
          let cart := <[key := default 0 (cart !! key) + Z.max 1 qty]> cart in
          let s' := save_cart cart s in
          if negb (Py.str_fits (default 0 (cart !! key)))
          then stop db s (Raise Py.ValueError)   (* the answer and the cookie cannot be written *)
          else
          if bool_decide (xhr rq = Some "XMLHttpRequest")
          then reply db s'
                 (Jsonify [("ok", JBool true); ("pid", JInt pid);
                           ("qty", JInt (default 0 (cart !! key)));
                           ("cart_size", JInt (Z.of_nat (size cart)))]) []
          else reply db s'
                 (Redirect
                    (match referrer rq with
                     | Some r => if Py.truthy r then Url r else Endpoint "shop.index"
                     | None => Endpoint "shop.index"
                     end) 302)
                 ["Товар добавлен в корзину"]
      end
  end.

(** Truthiness of a JSON value, for [request.get_json(silent=True) or {}]. *)
Definition json_truthy (v : json) : bool :=
  match v with
  | JNull => false
  | JBool b => b
  | JInt n => negb (Z.eqb n 0)
  | JFloat x => float_truthy x
  | JStr s => Py.truthy s
  | JArr l => match l with [] => false | _ => true end
  | JObj l => match l with [] => false | _ => true end
  end.

(** [d.get(k)] on a decoded JSON object: the last binding of a repeated key
    is the one the decoder keeps. *)
Fixpoint obj_get (k : string) (l : list (string * json)) : option json :=
  match l with
  | [] => None
  | (k', v) :: l' =>
      match obj_get k l' with
      | Some w => Some w
      | None => if String.eqb k k' then Some v else None
      end
  end.

(** [int(v)] on a JSON value. *)
Definition int_of_json (v : json) : Py.exn + Z :=
  match v with
  | JNull => inl Py.TypeError
  | JBool b => inr (if b then 1 else 0)
  | JInt n => inr n
  | JFloat x => int_of_float x
  | JStr s =>
      match Py.int_of_str s with
      | Some n => inr n
      | None => inl Py.ValueError
      end
  | JArr _ | JObj _ => inl Py.TypeError
  end.

(** [except (TypeError, ValueError)] *)
Definition caught (e : Py.exn) : bool :=
  match e with
  | Py.TypeError | Py.ValueError => true
  | _ => false
  end.

(** [data.get("items", [])]: only a dict has [get]. *)
Definition incoming_items (data : json) : result json :=
  match data with
  | JObj fields => mret (default (JArr []) (obj_get "items" fields))
  | _ => raise Py.AttributeError
  end.

(** [for it in incoming]: a list gives its elements, a dict its keys, a
    string its characters; nothing else can be iterated. *)
Definition iterate (v : json) : result (list json) :=
  match v with
  | JArr l => mret l
  | JObj l => mret (JStr <$> remove_dups (fst <$> l))
  | JStr s => mret (JStr <$> Py.chars s)
  | _ => raise Py.TypeError
  end.

(** One turn of the loop of [cart_update_api].  [str] of an integer beyond
    the limit of the conversion raises ValueError, which the [except] clause
    catches like the errors of [int]. *)
Definition api_item (cart : gmap string Z) (it : json) : result (gmap string Z) :=
  match it with
  | JObj fields =>
      match int_of_json (default JNull (obj_get "pid" fields)) with
      | inl e => if caught e then mret cart else raise e
      | inr n =>
          if negb (Py.str_fits n) then mret cart else
          let pid := Py.str n in
          match int_of_json (default (JInt 0) (obj_get "qty" fields)) with
          | inl e => if caught e then mret cart else raise e
          | inr q =>
              let qty := Z.max 0 q in
              if (0 <? qty)%Z then mret (<[pid := qty]> cart)
              else mret (delete pid cart)
          end
      end
  | _ => raise Py.AttributeError
  end.

Fixpoint api_loop (cart : gmap string Z) (items : list json)
  : result (gmap string Z) :=
  match items with
  | [] => mret cart
  | it :: rest => cart' ← api_item cart it; api_loop cart' rest
  end.

(** [incoming], as the loop goes through it. *)
Definition api_items (rq : Request) : result (list json) :=
  let data :=
    match body rq with
    | Some v => if json_truthy v then v else JObj []
    | None => JObj []
    end in
  incoming ← incoming_items data;
  iterate incoming.

(** The cart that [cart_update_api] hands to [save_cart], when it gets
    there. *)
Definition api_cart (s : Session) (rq : Request) : result (gmap string Z) :=
  items ← api_items rq;
  api_loop (get_cart s) items.

(** What an item names when [int] reads both of its fields (and [str]
    renders the first): the key [str(int(pid))] and the quantity
    [int(qty)]. *)
Definition item_effect (it : json) : option (string * Z) :=
  match it with
  | JObj fields =>
      match int_of_json (default JNull (obj_get "pid" fields)),
            int_of_json (default (JInt 0) (obj_get "qty" fields)) with
      | inr n, inr q => if Py.str_fits n then Some (Py.str n, q) else None
      | _, _ => None
      end
  | _ => None
  end.

(** Every quantity stored in the cart is strictly positive. *)
Definition positive_cart (cart : gmap string Z) : bool :=
  forallb (fun kv => (0 <? snd kv)%Z) (map_to_list cart).

(** [cart_update_api]: POST /cart/api/update.  The cart is saved before
    [cart_items] runs, so an exception of [cart_items] comes after it. *)
Definition cart_update_api (db : Db) (s : Session) (rq : Request) : Outcome :=
  match api_cart s rq with
  | inl h => stop db s h
  | inr cart =>
      let s' := save_cart cart s in
      {| out_db := db; out_session := s';
         out :=
           '(items, total) ← cart_items db s';
           let lines :=
             (fun row => (Py.str (Product.id (product row)),
                          JFloat (fround2 (line_total row)))) <$> items in
           mret {| response :=
                     Jsonify [("ok", JBool true);
                              ("total", JFloat (fround2 total));
                              ("lines", JObj lines);
                              ("cart_size", JInt (Z.of_nat (size cart)))];
                   flashes := [] |} |}
  end.

(** [key.split("_", 1)[1]]: what follows the first underscore. *)
Fixpoint after_first_underscore (key : string) : option string :=
  match key with
  | EmptyString => None
  | String c rest =>
      if Ascii.eqb c "_" then Some rest else after_first_underscore rest
  end.

(** [try: qty = max(0, int(value))] / [except ValueError: qty = 0] *)
Definition form_quantity (value : string) : Z :=
  match Py.int_of_str value with
  | Some n => Z.max 0 n
  | None => 0
  end.

(** One turn of the loop of [cart_update]. *)
Definition form_item (cart : gmap string Z) (kv : string * string)
  : gmap string Z :=
  let '(key, value) := kv in
  if Py.startswith "qty_" key then
    match after_first_underscore key with
    | Some pid =>
        let qty := form_quantity value in
        if (0 <? qty)%Z then <[pid := qty]> cart else cart
    | None => cart   (* not met: the key starts with [qty_] *)
    end
  else cart.

Definition form_cart (rq : Request) : gmap string Z :=
  fold_left form_item (md_items (form rq)) ∅.

(** [cart_update]: POST /cart/update *)
Definition cart_update (db : Db) (s : Session) (rq : Request) : Outcome :=
  reply db (save_cart (form_cart rq) s)
    (Redirect (Endpoint "shop.cart_view") 302) ["Корзина обновлена"].

(** [cart_clear]: POST /cart/clear *)
Definition cart_clear (db : Db) (s : Session) (rq : Request) : Outcome :=
  reply db (save_cart ∅ s)
    (Redirect (Endpoint "shop.cart_view") 302) ["Корзина очищена"].

(** [(request.form.get(k) or "")] *)
Definition field (k : string) (rq : Request) : string :=
  default "" (md_get k (form rq)).

(** [func.max(Order.user_order_no)] over the selected rows: the largest
    number that is not NULL, NULL when there is none. *)
Definition max_order_no (rows : list Order.t) : option Z :=
  fold_left
    (fun acc o =>
       match Order.user_order_no o, acc with
       | Some n, Some m => Some (Z.max m n)
       | Some n, None => Some n
       | None, _ => acc
       end) rows None.

(** [... .scalar() or 0] *)
Definition or_zero (v : option Z) : Z := default 0 v.

(** The filter of the numbering query: the orders of the logged-in user
    ([Order.user_id == order.user_id]), or the guest orders under the same
    email ([Order.user_id.is_(None), Order.email == order.email]). *)
Definition same_customer (user_id : option Z) (email : string) (o : Order.t)
  : bool :=
  match user_id with
  | Some uid => bool_decide (Order.user_id o = Some uid)
  | None => bool_decide (Order.user_id o = None)
            && bool_decide (Order.email o = email)
  end.

Definition orders_of (user_id : option Z) (email : string) (rows : list Order.t)
  : list Order.t :=
  filter (fun o => same_customer user_id email o) rows.

(** What the numbering of orders reads in an order: the customer (the
    user, or the email of a guest) and the number. *)
Definition numbering (o : Order.t) : option Z * string * option Z :=
  (Order.user_id o, Order.email o, Order.user_order_no o).

(** Whatever [user_id] and [email] the numbering query is run with, the
    rows it selects carry the numbers 1, 2, 3, ... in the order of their
    creation. *)
Definition numbered (rows : list Order.t) : Prop :=
  forall user_id email i n,
    (Order.user_order_no <$> orders_of user_id email rows) !! i = Some n ->
    n = Some (Z.of_nat i + 1).

(** *** Customers, in the words of the specification

    A customer is a logged-in user, known by the key of the user, or a
    guest, known by an email.  The customer of an order is the user whose
    key it carries, and the guest under the email of the order when it
    carries none. *)
Inductive Customer := Registered (uid : Z) | Guest (email : string).

#[global] Instance Customer_eq_dec : EqDecision Customer.
Proof. solve_decision. Defined.

Definition customer (user_id : option Z) (email : string) : Customer :=
  match user_id with
  | Some uid => Registered uid
  | None => Guest email
  end.

Definition customer_of (o : Order.t) : Customer :=
  customer (Order.user_id o) (Order.email o).

(** The orders of a customer, oldest first. *)
Definition placed_by (c : Customer) (rows : list Order.t) : list Order.t :=
  filter (fun o => customer_of o = c) rows.

(** [n] is one plus the largest number that the rows carry, and 1 when none
    of them carries a number. *)
Definition next_number (rows : list Order.t) (n : Z) : Prop :=
  (forall o m, o ∈ rows -> Order.user_order_no o = Some m -> m < n)
  /\ ((n = 1 /\ forall o, o ∈ rows -> Order.user_order_no o = None)
      \/ exists o, o ∈ rows /\ Order.user_order_no o = Some (n - 1)).

(** The orders of every customer carry the numbers 1, 2, 3, ... in the
    order of their creation. *)
Definition numbered_per_customer (rows : list Order.t) : Prop :=
  forall c i o,
    placed_by c rows !! i = Some o ->
    Order.user_order_no o = Some (Z.of_nat i + 1).


(** [db.session.add(OrderItem(...))] for every row, in order. *)
Fixpoint add_order_items (oid : Z) (rows : list Row) (tbl : list OrderItem.t)
  : list OrderItem.t :=
  match rows with
  | [] => tbl
  | row :: rest =>
      add_order_items oid rest
        (tbl ++ [{| OrderItem.id := next_id (OrderItem.id <$> tbl);
                    OrderItem.order_id := oid;
                    OrderItem.product_id := Product.id (product row);
                    OrderItem.quantity := qty row;
                    OrderItem.price_snapshot := Product.price (product row) |}])%list
  end.

(** An order item of order [oid] that carries a row of the cart: the key
    of the product, the quantity of the row and the price of the product. *)
Definition item_of_row (oid : Z) (row : Row) (it : OrderItem.t) : Prop :=
  OrderItem.order_id it = oid
  /\ OrderItem.product_id it = Product.id (product row)
  /\ OrderItem.quantity it = qty row
  /\ OrderItem.price_snapshot it = Product.price (product row).

(** An UPDATE of the row with primary key [oid]. *)
Definition update_order (f : Order.t -> Order.t) (oid : Z) (db : Db) : Db :=
  {| users := users db; categories := categories db; products := products db;
     orders := (fun o => if Z.eqb (Order.id o) oid then f o else o) <$> orders db;
     order_items := order_items db; uploads := uploads db |}.

Definition set_status (st : string) (o : Order.t) : Order.t :=
  {| Order.id := Order.id o; Order.user_id := Order.user_id o;
     Order.customer_name := Order.customer_name o; Order.email := Order.email o;
     Order.address := Order.address o; Order.status := st;
     Order.user_order_no := Order.user_order_no o;
     Order.stripe_session_id := Order.stripe_session_id o |}.

Definition set_stripe_session (sid : string) (o : Order.t) : Order.t :=
  {| Order.id := Order.id o; Order.user_id := Order.user_id o;
     Order.customer_name := Order.customer_name o; Order.email := Order.email o;
     Order.address := Order.address o; Order.status := Order.status o;
     Order.user_order_no := Order.user_order_no o;
     Order.stripe_session_id := Some sid |}.

(** The order that [checkout] builds from the validated form. *)
Definition new_order (db : Db) (u : option User.t) (name email address : string)
  : Order.t :=
  let user_id := User.id <$> u in
  let last_no := or_zero (max_order_no (orders_of user_id email (orders db))) in
  {| Order.id := next_id (Order.id <$> orders db);
     Order.user_id := user_id;
     Order.customer_name := name;
     Order.email := email;
     Order.address := address;
     Order.status := ST_PROCESSING;
     Order.user_order_no := Some (last_no + 1);
     Order.stripe_session_id := None |}.

(** Whether the first commit of [checkout] can bind its integers: the
    number of the order and the quantity of every item.  One beyond 64 bits
    raises OverflowError, and nothing is stored. *)
Definition storable (order : Order.t) (items : list Row) : bool :=
  match Order.user_order_no order with
  | Some n => sqlite_int n
  | None => true
  end
  && forallb (fun row => sqlite_int (qty row)) items.

(** The three fields of the checkout form, as the view normalises them:
    [name] and [address] stripped, [email] stripped and lower-cased, and the
    default address of a logged-in user when the form gives none. *)
Definition form_name (rq : Request) : string :=
  Py.strip (field "name" rq).

Definition form_email (rq : Request) : string :=
  Py.lower (Py.strip (field "email" rq)).

Definition form_address (u : option User.t) (rq : Request) : string :=
  Py.or_str (Py.strip (field "address" rq))
    (match u with Some u' => User.default_address u' | None => "" end).

(** The customer who sends a checkout form: the logged-in user, or the
    guest under the email of the form. *)
Definition customer_at (db : Db) (s : Session) (rq : Request) : Customer :=
  match current_user db s with
  | Some u => Registered (User.id u)
  | None => Guest (form_email rq)
  end.

(** The order that [checkout] adds for a request, when it adds one. *)
Definition checkout_order (db : Db) (s : Session) (rq : Request) : Order.t :=
  new_order db (current_user db s) (form_name rq) (form_email rq)
    (form_address (current_user db s) rq).

(** [checkout]: GET and POST /checkout *)
Definition checkout (db : Db) (s : Session) (rq : Request) : Outcome :=
  match cart_items db s with
  | inl h => stop db s h
  | inr (items, total) =>
      match method rq with
      | GET => reply db s (Render "checkout.html") []
      | POST =>
          let u := current_user db s in
          let name := form_name rq in
          let email := form_email rq in
          let address := form_address u rq in
          if negb (Py.truthy name && Py.truthy email && Py.truthy address)
          then reply db s (Render "checkout.html") ["Пожалуйста, заполните все поля"]
          else if fle total fzero
          then reply db s (Redirect (Endpoint "shop.index") 302) ["Корзина пуста"]
          else
            let order := new_order db u name email address in
            if negb (storable order items)
            then stop db s (Raise Py.OverflowError)   (* the commit *)
            else
            let db1 :=
              {| users := users db; categories := categories db;
                 products := products db;
                 orders := (orders db ++ [order])%list;
                 order_items := add_order_items (Order.id order) items (order_items db);
                 uploads := uploads db |} in
            let offline (fl : list string) :=
              reply (update_order (set_status ST_AWAITING_CHECKOUT) (Order.id order) db1)
                (save_cart ∅ s) (Render "thankyou.html") fl in
            if env_truthy STRIPE_SECRET_KEY && env_truthy STRIPE_PUBLISHABLE_KEY
            then
              match stripe_session_create
                      ((fun row => (Product.name (product row),
                                    Product.price (product row), qty row)) <$> items)
                      (Order.id order) email with
              | Some (sid, pay_url) =>
                  reply (update_order (set_stripe_session sid) (Order.id order) db1)
                    (save_cart ∅ s) (Redirect (Url pay_url) 303) []
              | None =>
                  offline ["Не удалось создать платёжную сессию. Заказ без онлайн-оплаты."]
              end
            else offline []
      end
  end.

(** [payment_success]: GET /payment/success?order_id=... *)
Definition payment_success (db : Db) (s : Session) (rq : Request) : Outcome :=
  match md_get_int "order_id" (args rq) with
  | None => stop db s (Abort 404)
  | Some order_id =>
      if out_of_range order_id then stop db s (Raise Py.OverflowError) else
      match get_order db order_id with
      | None => stop db s (Abort 404)
      | Some order =>
          reply (update_order (set_status ST_PAID) (Order.id order) db) s
            (Render "thankyou.html") []
      end
  end.

(** [payment_cancel]: GET /payment/cancel?order_id=... *)
Definition payment_cancel (db : Db) (s : Session) (rq : Request) : Outcome :=
  match md_get_int "order_id" (args rq) with
  | None => stop db s (Abort 404)
  | Some order_id =>
      if out_of_range order_id then stop db s (Raise Py.OverflowError) else
      match get_order db order_id with
      | None => stop db s (Abort 404)
      | Some order =>
          reply (update_order (set_status ST_CANCELED) (Order.id order) db) s
            (Redirect (Endpoint "shop.checkout") 302) []
      end
  end.

End Views.
End Shop.

(** ** blueprints/auth/routes.py *)

Module Auth.
Section Views.
Context `{Env}.
Import Utils.

Definition stop := Shop.stop.
Definition reply := Shop.reply.

(** [login_required]: an anonymous visitor is sent to the login view. *)
Definition login_required (db : Db) (s : Session) (view : Outcome) : Outcome :=
  if is_authenticated (current_user db s) then view
  else reply db s (Redirect (Endpoint "auth.login") 302)
         ["Please log in to access this page."].

(** [URLSafeTimedSerializer.loads(token, max_age=...)] *)
Inductive loaded :=
| Loaded (payload : string)
| SignatureExpired
| BadSignature.

Definition loads (token : string) (max_age : Z) (clock : Z) : loaded :=
  match unsign token with
  | None => BadSignature
  | Some (payload, stamp) =>
      let age := clock - stamp in
      if (max_age <? age)%Z then SignatureExpired
      else if (age <? 0)%Z then SignatureExpired
      else Loaded payload
  end.

(** A token issued at most [max_age] seconds before [clock], and not after
    it, with a good signature over [payload]. *)
Definition fresh (token : string) (max_age clock : Z) (payload : string) : Prop :=
  exists stamp,
    unsign token = Some (payload, stamp) /\ 0 <= clock - stamp <= max_age.

(** A token with a good signature that is older than [max_age] seconds (or
    stamped after [clock]). *)
Definition expired (token : string) (max_age clock : Z) : Prop :=
  exists payload stamp,
    unsign token = Some (payload, stamp)
    /\ (max_age < clock - stamp \/ clock - stamp < 0).

Definition badly_signed (token : string) : Prop := unsign token = None.

(** The reply of [confirm_email] on success. *)
Definition confirmed : result Reply :=
  inr {| response := Redirect (Endpoint "auth.profile") 302;
         flashes := ["Email подтверждён!"] |}.

Definition with_users (us : list User.t) (db : Db) : Db :=
  {| users := us; categories := categories db; products := products db;
     orders := orders db; order_items := order_items db; uploads := uploads db |}.

(** An UPDATE of the row with primary key [uid]. *)
Definition update_user (f : User.t -> User.t) (uid : Z) (db : Db) : Db :=
  with_users ((fun u => if Z.eqb (User.id u) uid then f u else u) <$> users db) db.

(** [User.set_password] *)
Definition set_password (password : string) (u : User.t) : User.t :=
  {| User.id := User.id u; User.email := User.email u;
     User.password_hash := generate_password_hash password;
     User.is_admin := User.is_admin u; User.full_name := User.full_name u;
     User.default_address := User.default_address u;
     User.avatar := User.avatar u;
     User.email_confirmed := User.email_confirmed u |}.

Definition confirm (u : User.t) : User.t :=
  {| User.id := User.id u; User.email := User.email u;
     User.password_hash := User.password_hash u;
     User.is_admin := User.is_admin u; User.full_name := User.full_name u;
     User.default_address := User.default_address u;
     User.avatar := User.avatar u;
     User.email_confirmed := true |}.

(** [User(email=email)] followed by [set_password], with the key the
    insertion gives it. *)
Definition new_user (db : Db) (email password : string) : User.t :=
  set_password password
    {| User.id := next_id (User.id <$> users db); User.email := email;
       User.password_hash := ""; User.is_admin := false;
       User.full_name := ""; User.default_address := "";
       User.avatar := None; User.email_confirmed := false |}.

(** [request.form.get("email", "").strip().lower()] *)
Definition register_email (rq : Request) : string :=
  Py.lower (Py.strip (default "" (md_get "email" (form rq)))).

(** [request.form.get("password", "")] *)
Definition register_password (rq : Request) : string :=
  default "" (md_get "password" (form rq)).

(** What is asked of a registration form: email and password not empty,
    a strong password, and no user under that email. *)
Definition registrable (db : Db) (rq : Request) : Prop :=
  register_email rq <> ""
  /\ register_password rq <> ""
  /\ strong (register_password rq)
  /\ forall u, u ∈ users db -> User.email u <> register_email rq.

(** [register]: GET and POST /register.  The confirmation link is shown
    without its host part. *)
Definition register (db : Db) (s : Session) (rq : Request) : Outcome :=
  match method rq with
  | POST =>
      let email := register_email rq in
      let password := register_password rq in
      if negb (Py.truthy email) || negb (Py.truthy password)
      then reply db s (Render "register.html") ["Укажите email и пароль"]
      else if negb (password_is_strong password)
      then reply db s (Render "register.html")
             ["Пароль слишком простой: минимум 6 символов, 1 заглавная бука, 1 цифра и 1 спецсимвол"]
      else if bool_decide (is_Some (user_by_email db email))
      then reply db s (Render "register.html") ["Такой пользователь уже существует"]
      else
        let db' := with_users (users db ++ [new_user db email password])%list db in
        let token := sign email (now rq) in
        reply db' s (Redirect (Endpoint "auth.login") 302)
          ["Регистрация прошла успешно. Подтвердите email: " +:+ "/confirm/" +:+ token]
  | GET => reply db s (Render "register.html") []
  end.

(** [confirm_email]: GET /confirm/<token> *)
Definition confirm_email (token : string) (db : Db) (s : Session) (rq : Request)
  : Outcome :=
  login_required db s
    match loads token (60 * 60 * 24) (now rq) with
    | SignatureExpired =>
        reply db s (Redirect (Endpoint "auth.profile") 302) ["Ссылка устарела."]
    | BadSignature =>
        reply db s (Redirect (Endpoint "auth.profile") 302) ["Некорректная ссылка."]
    | Loaded email =>
        match current_user db s with
        | Some u =>
            if negb (String.eqb (Py.lower email) (Py.lower (User.email u)))
            then reply db s (Status 403) []
            else reply (update_user confirm (User.id u) db) s
                   (Redirect (Endpoint "auth.profile") 302) ["Email подтверждён!"]
        | None => stop db s (Raise Py.AttributeError)   (* not met under [login_required] *)
        end
    end.

(** [password_reset]: GET and POST /password/reset/<token> *)
Definition password_reset (token : string) (db : Db) (s : Session) (rq : Request)
  : Outcome :=
  match loads token (60 * 30) (now rq) with
  | SignatureExpired =>
      reply db s (Redirect (Endpoint "auth.password_forgot") 302) ["Ссылка устарела."]
  | BadSignature =>
      reply db s (Redirect (Endpoint "auth.password_forgot") 302) ["Некорректная ссылка."]
  | Loaded email =>
      match user_by_email db (Py.lower email) with
      | None =>
          reply db s (Redirect (Endpoint "auth.password_forgot") 302)
            ["Пользователь не найден."]
      | Some user =>
          match method rq with
          | POST =>
              let pwd := default "" (md_get "password" (form rq)) in
              let pwd2 := default "" (md_get "password2" (form rq)) in
              if negb (String.eqb pwd pwd2)
              then reply db s (Redirect (Url (url rq)) 302) ["Пароли не совпадают."]
              else if negb (password_is_strong pwd)
              then reply db s (Redirect (Url (url rq)) 302) ["Пароль слишком простой."]
              else reply (update_user (set_password pwd) (User.id user) db) s
                     (Redirect (Endpoint "auth.login") 302) ["Пароль изменён."]
          | GET => reply db s (Render "password_reset.html") []
          end
      end
  end.

End Views.
End Auth.

(** ** blueprints/admin/routes.py *)

Module Admin.
Section Views.
Context `{Env}.
Import Utils.

Definition stop := Shop.stop.
Definition reply := Shop.reply.

(** [request.form.get(k, "").strip()] *)
Definition stripped (k : string) (rq : Request) : string :=
  Py.strip (default "" (md_get k (form rq))).

Definition with_categories (cs : list Category.t) (db : Db) : Db :=
  {| users := users db; categories := cs; products := products db;
     orders := orders db; order_items := order_items db; uploads := uploads db |}.

Definition with_products (ps : list Product.t) (db : Db) : Db :=
  {| users := users db; categories := categories db; products := ps;
     orders := orders db; order_items := order_items db; uploads := uploads db |}.

Definition with_uploads (fs : list string) (db : Db) : Db :=
  {| users := users db; categories := categories db; products := products db;
     orders := orders db; order_items := order_items db; uploads := fs |}.

Definition index (db : Db) (s : Session) (rq : Request) : Outcome :=
  reply db s (Render "admin/index.html") [].

Definition categories_view (db : Db) (s : Session) (rq : Request) : Outcome :=
  reply db s (Render "admin/categories.html") [].

Definition category_new (db : Db) (s : Session) (rq : Request) : Outcome :=
  match method rq with
  | POST =>
      let name := stripped "name" rq in
      if negb (Py.truthy name)
      then reply db s (Render "admin/category_form.html") ["Название обязательно!"]
      else if bool_decide
                (is_Some (find (fun c => String.eqb (Category.name c) name)
                               (categories db)))
      then reply db s (Render "admin/category_form.html")
             ["Такая категория уже существует!"]
      else
        reply
          (with_categories
             (categories db
              ++ [{| Category.id := next_id (Category.id <$> categories db);
                     Category.name := name |}])%list db)
          s (Redirect (Endpoint "admin.categories") 302) []
  | GET => reply db s (Render "admin/category_form.html") []
  end.

Definition category_edit (cid : Z) (db : Db) (s : Session) (rq : Request)
  : Outcome :=
  if out_of_range cid then stop db s (Raise Py.OverflowError) else
  match get_category db cid with
  | None => stop db s (Abort 404)
  | Some cat =>
      match method rq with
      | POST =>
          let name := stripped "name" rq in
          if negb (Py.truthy name)
          then reply db s (Render "admin/category_form.html") ["Название обязательно!"]
          else if bool_decide
                    (Exists (fun c => Category.name c = name /\ Category.id c <> cid)
                       (categories db))
          then stop db s (Raise Py.IntegrityError)   (* [name] is UNIQUE *)
          else
            reply
              (with_categories
                 ((fun c => if Z.eqb (Category.id c) cid
                            then {| Category.id := Category.id c;
                                    Category.name := name |}
                            else c) <$> categories db) db)
              s (Redirect (Endpoint "admin.categories") 302) []
      | GET => reply db s (Render "admin/category_form.html") []
      end
  end.

Definition set_category (c : option Z) (p : Product.t) : Product.t :=
  {| Product.id := Product.id p; Product.name := Product.name p;
     Product.price := Product.price p;
     Product.description := Product.description p;
     Product.image := Product.image p; Product.category_id := c |}.

(** [db.session.delete(cat)]: the row goes, and the products of the
    category lose their [category_id]. *)
Definition category_delete (cid : Z) (db : Db) (s : Session) (rq : Request)
  : Outcome :=
  if out_of_range cid then stop db s (Raise Py.OverflowError) else
  match get_category db cid with
  | None => stop db s (Abort 404)
  | Some cat =>
      reply
        (with_products
           ((fun p => if bool_decide (Product.category_id p = Some cid)
                      then set_category None p else p) <$> products db)
           (with_categories
              (filter (fun c => Category.id c ≠ cid) (categories db)) db))
        s (Redirect (Endpoint "admin.categories") 302) []
  end.

Definition products_view (db : Db) (s : Session) (rq : Request) : Outcome :=
  reply db s (Render "admin/products.html") [].

(** [float(request.form.get("price", "0") or 0)] *)
Definition form_price (rq : Request) : option float :=
  let v := default "0" (md_get "price" (form rq)) in
  if Py.truthy v then float_of_str v else Some fzero.

(** The upload step shared by [product_new] and [product_edit]: the file
    name under which an accepted file is saved. *)
Definition upload (rq : Request) : option string :=
  match md_get "file" (files rq) with
  | Some filename =>
      if Py.truthy filename && allowed_file filename
      then Some (secure_filename filename)
      else None
  | None => None
  end.

(** [request.form.get("category_id", type=int) or None] *)
Definition form_category (rq : Request) : option Z :=
  match md_get_int "category_id" (form rq) with
  | Some n => if Z.eqb n 0 then None else Some n
  | None => None
  end.

(** Whether the commit can bind the category of the form: a key beyond 64
    bits raises OverflowError there. *)
Definition category_fits (rq : Request) : bool :=
  match form_category rq with
  | Some n => sqlite_int n
  | None => true
  end.

Definition product_new (db : Db) (s : Session) (rq : Request) : Outcome :=
  match method rq with
  | POST =>
      let name := stripped "name" rq in
      match form_price rq with
      | None => stop db s (Raise Py.ValueError)
      | Some price =>
          let description := stripped "description" rq in
          let image_url := stripped "image" rq in
          let db1 :=
            match upload rq with
            | Some filename => with_uploads (uploads db ++ [filename])%list db
            | None => db
            end in
          let image_url :=
            match upload rq with
            | Some filename => "uploads/" +:+ filename
            | None => image_url
            end in
          if negb (Py.truthy name)
          then reply db1 s (Render "admin/product_form.html") ["Название обязательно"]
          else if negb (category_fits rq)
          then stop db1 s (Raise Py.OverflowError)
          else
            reply
              (with_products
                 (products db1
                  ++ [{| Product.id := next_id (Product.id <$> products db1);
                         Product.name := name; Product.price := price;
                         Product.description := description;
                         Product.image := image_url;
                         Product.category_id := form_category rq |}])%list db1)
              s (Redirect (Endpoint "admin.products") 302) []
      end
  | GET => reply db s (Render "admin/product_form.html") []
  end.

Definition product_edit (pid : Z) (db : Db) (s : Session) (rq : Request)
  : Outcome :=
  if out_of_range pid then stop db s (Raise Py.OverflowError) else
  match get_product db pid with
  | None => stop db s (Abort 404)
  | Some prod =>
      match method rq with
      | POST =>
          match form_price rq with
          | None => stop db s (Raise Py.ValueError)
          | Some price =>
              let image_url := stripped "image" rq in
              let db1 :=
                match upload rq with
                | Some filename => with_uploads (uploads db ++ [filename])%list db
                | None => db
                end in
              let image_url :=
                match upload rq with
                | Some filename => "uploads/" +:+ filename
                | None => image_url
                end in
              if negb (category_fits rq)
              then stop db1 s (Raise Py.OverflowError)
              else
              reply
                (with_products
                   ((fun p =>
                       if Z.eqb (Product.id p) pid
                       then {| Product.id := Product.id p;
                               Product.name := stripped "name" rq;
                               Product.price := price;
                               Product.description := stripped "description" rq;
                               Product.image :=
                                 if Py.truthy image_url then image_url
                                 else Product.image p;
                               Product.category_id := form_category rq |}
                       else p) <$> products db1) db1)
                s (Redirect (Endpoint "admin.products") 302) []
          end
      | GET => reply db s (Render "admin/product_form.html") []
      end
  end.

Definition product_delete (pid : Z) (db : Db) (s : Session) (rq : Request)
  : Outcome :=
  if out_of_range pid then stop db s (Raise Py.OverflowError) else
  match get_product db pid with
  | None => stop db s (Abort 404)
  | Some prod =>
      reply (with_products (filter (fun p => Product.id p ≠ pid) (products db)) db)
        s (Redirect (Endpoint "admin.products") 302) []
  end.

Definition orders_view (db : Db) (s : Session) (rq : Request) : Outcome :=
  reply db s (Render "admin/orders.html") [].

(** The [if/elif] chain of [order_status]: the label a code is given.
    There is no branch for ["new"]. *)
Definition translate (new_status : string) : option string :=
  if String.eqb new_status "pending" then Some ST_PROCESSING
  else if String.eqb new_status "awaiting_payment" then Some ST_AWAITING_ADMIN
  else if String.eqb new_status "paid" then Some ST_PAID
  else if String.eqb new_status "canceled" then Some ST_CANCELED
  else None.

Definition order_status (order_id : Z) (db : Db) (s : Session) (rq : Request)
  : Outcome :=
  if out_of_range order_id then stop db s (Raise Py.OverflowError) else
  match get_order db order_id with
  | None => stop db s (Abort 404)
  | Some order =>
      let new_status := Py.strip (default "" (md_get "status" (form rq))) in
      if bool_decide
           (new_status ∈ ["new"; "pending"; "awaiting_payment"; "paid"; "canceled"])
      then
        let db' :=
          match translate new_status with
          | Some label => Shop.update_order (Shop.set_status label) order_id db
          | None => db
          end in
        let shown := default (Order.status order) (translate new_status) in
        reply db' s (Redirect (Endpoint "admin.orders") 302)
          ["Статус заказа №" +:+ Py.str (Order.id order) +:+ " обновлён → " +:+ shown]
      else
        reply db s (Redirect (Endpoint "admin.orders") 302) ["Недопустимый статус"]
  end.

(** The rules of the blueprint. *)
Inductive Route :=
| RIndex
| RCategories
| RCategoryNew
| RCategoryEdit (cid : Z)
| RCategoryDelete (cid : Z)
| RProducts
| RProductNew
| RProductEdit (pid : Z)
| RProductDelete (pid : Z)
| ROrders
| ROrderStatus (order_id : Z).

Definition view (r : Route) : Db -> Session -> Request -> Outcome :=
  match r with
  | RIndex => index
  | RCategories => categories_view
  | RCategoryNew => category_new
  | RCategoryEdit cid => category_edit cid
  | RCategoryDelete cid => category_delete cid
  | RProducts => products_view
  | RProductNew => product_new
  | RProductEdit pid => product_edit pid
  | RProductDelete pid => product_delete pid
  | ROrders => orders_view
  | ROrderStatus oid => order_status oid
  end.

(** The requester whom [admin_required] lets through. *)
Definition is_admin_session (db : Db) (s : Session) : bool :=
  match current_user db s with
  | Some u => User.is_admin u
  | None => false
  end.

(** [_check_admin], the [before_request] hook of the blueprint. *)
Definition _check_admin (db : Db) (s : Session) : result unit :=
  admin_required (current_user db s).

(** A request that the URL map resolved to rule [r]: the hook runs first,
    then the view under its [login_required] decorator. *)
Definition dispatch (r : Route) (db : Db) (s : Session) (rq : Request)
  : Outcome :=
  match _check_admin db s with
  | inl h => stop db s h
  | inr _ => Auth.login_required db s (view r db s rq)
  end.

End Views.
End Admin.

(** ** The application as a machine on the database *)

Module App.
Section Machine.
Context `{Env}.

(** The rules that are modelled, with the arguments their URLs carry. *)
Inductive Rule :=
| CartAdd (pid : Z)
| CartUpdateApi
| CartUpdate
| CartClear
| Checkout
| PaymentSuccess
| PaymentCancel
| Register
| ConfirmEmail (token : string)
| PasswordReset (token : string)
| AdminRule (r : Admin.Route).

Definition handle (e : Rule) : Db -> Session -> Request -> Outcome :=
  match e with
  | CartAdd pid => Shop.cart_add pid
  | CartUpdateApi => Shop.cart_update_api
  | CartUpdate => Shop.cart_update
  | CartClear => Shop.cart_clear
  | Checkout => Shop.checkout
  | PaymentSuccess => Shop.payment_success
  | PaymentCancel => Shop.payment_cancel
  | Register => Auth.register
  | ConfirmEmail token => Auth.confirm_email token
  | PasswordReset token => Auth.password_reset token
  | AdminRule r => Admin.dispatch r
  end.

(** The databases that requests build from one with no order yet.  Every
    request brings its own session: the session lives in the client's
    cookie. *)
Inductive reachable : Db -> Prop :=
| reach_init (db : Db) : orders db = [] -> reachable db
| reach_step (db : Db) (e : Rule) (s : Session) (rq : Request) :
    reachable db -> reachable (out_db (handle e db s rq)).

End Machine.
End App.

(** ** A concrete platform, for the examples

    Exact rational prices with the range of a double, no Stripe keys, a
    transparent password hash and tokens of the form
    [<time stamp>:<payload>].  Of Unicode it knows the Arabic-Indic digits
    U+0660-0669 beside ASCII, and it lower-cases the letters A-Z: its
    examples keep to such strings wherever digits or [str.lower] matter. *)

Module Demo.

Definition unicode : Py.Unicode := {|
  Py.unicode_decimal := fun cp =>
    if ((1632 <=? cp) && (cp <=? 1641))%N then Some (Z.of_N cp - 1632) else None;
  Py.unicode_decimal_digit := ltac:(
    intros cp d; cbv beta; destruct ((1632 <=? cp) && (cp <=? 1641))%N eqn:E;
    [ intros Hd; injection Hd as Hd; apply andb_true_iff in E;
      destruct E as [E1 E2]; apply N.leb_le in E1; apply N.leb_le in E2; lia
    | discriminate ]);
  Py.unicode_lower := Py.ascii_lower;
  Py.unicode_lower_ascii := fun s _ => eq_refl;
  Py.unicode_lower_idem := ltac:(
    intros s; induction s as [|c s IH]; [reflexivity|];
    cbn [Py.ascii_lower]; rewrite IH; f_equal;
    destruct c as [[] [] [] [] [] [] [] []]; reflexivity)
|}.

(** Whether an integer is within the range of a double:
    [|n| < 2^1024 - 2^970]. *)
Definition double_fits (n : Z) : bool :=
  Z.ltb (Z.abs n) (2 ^ 1024 - 2 ^ 970).

Definition Q_trunc (a : QArith_base.Q) : Z :=
  Z.quot (QArith_base.Qnum a) (Zpos (QArith_base.Qden a)).

Fixpoint split_colon (s : string) : option (string * string) :=
  match s with
  | EmptyString => None
  | String c rest =>
      if Ascii.eqb c ":" then Some (EmptyString, rest)
      else match split_colon rest with
           | Some (a, b) => Some (String c a, b)
           | None => None
           end
  end.

Definition demo_unsign (token : string) : option (string * Z) :=
  match split_colon token with
  | Some (stamp, payload) =>
      match @Py.int_of_str unicode stamp with
      | Some t => Some (payload, t)
      | None => None
      end
  | None => None
  end.

Definition env : Env := {|
  env_unicode := unicode;
  float := QArith_base.Q;
  fzero := QArith_base.Qmake 0 1;
  fadd := QArith_base.Qplus;
  float_fits := double_fits;
  float_fits_int64 := ltac:(
    intros n Hn; unfold sqlite_int in Hn; unfold double_fits;
    apply andb_true_iff in Hn; destruct Hn as [H1 H2];
    apply Z.leb_le in H1; apply Z.ltb_lt in H2; apply Z.ltb_lt;
    assert (2 ^ 63 < 2 ^ 1024 - 2 ^ 970) by reflexivity; lia);
  fmul_int := fun a n => QArith_base.Qmult a (QArith_base.inject_Z n);
  fle := QArith_base.Qle_bool;
  flt := fun a b => negb (QArith_base.Qle_bool b a);
  fround2 := fun a => a;
  float_truthy := fun a => negb (QArith_base.Qeq_bool a (QArith_base.Qmake 0 1));
  float_of_str := fun s => QArith_base.inject_Z <$> @Py.int_of_str unicode s;
  int_of_float := fun a => inr (Q_trunc a);
  flt_not_fle := fun a b => proj1 (negb_true_iff (QArith_base.Qle_bool b a));
  generate_password_hash := fun password => "plain:" +:+ password;
  secure_filename := fun filename => filename;
  sign := fun payload t => Py.str t +:+ ":" +:+ payload;
  unsign := demo_unsign;
  STRIPE_SECRET_KEY := None;
  STRIPE_PUBLISHABLE_KEY := None;
  stripe_session_create := fun _ _ _ => None
|}.

#[local] Existing Instance env.

Definition request (m : Method) (fields : list (string * string)) : Request :=
  {| method := m; form := fields; args := []; files := []; xhr := None;
     referrer := None; url := "/"; body := None; now := 1000 |}.

Definition json_request (v : json) : Request :=
  {| method := POST; form := []; args := []; files := []; xhr := None;
     referrer := None; url := "/cart/api/update"; body := Some v; now := 1000 |}.

Definition query (m : Method) (params : list (string * string)) (clock : Z)
  : Request :=
  {| method := m; form := []; args := params; files := []; xhr := None;
     referrer := None; url := "/"; body := None; now := clock |}.

(** Two products of the seed data, priced 350.50 and 1999.99. *)
Definition mug : Product.t :=
  {| Product.id := 1; Product.name := "mug";
     Product.price := QArith_base.Qmake 701 2;
     Product.description := ""; Product.image := "img/mug.png";
     Product.category_id := Some 1 |}.

Definition shirt : Product.t :=
  {| Product.id := 2; Product.name := "shirt";
     Product.price := QArith_base.Qmake 199999 100;
     Product.description := ""; Product.image := "img/tshirt.png";
     Product.category_id := Some 2 |}.

Definition alice : User.t :=
  {| User.id := 1; User.email := "alice@example.org";
     User.password_hash := "plain:Secret1!"; User.is_admin := false;
     User.full_name := "Alice"; User.default_address := "1 Main St";
     User.avatar := None; User.email_confirmed := false |}.

Definition root : User.t :=
  {| User.id := 2; User.email := "root@example.org";
     User.password_hash := "plain:Secret2!"; User.is_admin := true;
     User.full_name := "Root"; User.default_address := "";
     User.avatar := None; User.email_confirmed := true |}.

Definition shop : Db :=
  {| users := [alice; root];
     categories := [{| Category.id := 1; Category.name := "souvenirs" |};
                    {| Category.id := 2; Category.name := "clothes" |}];
     products := [mug; shirt];
     orders := []; order_items := []; uploads := [] |}.

(** A guest order that the gateway has not confirmed. *)
Definition pending_order : Order.t :=
  {| Order.id := 1; Order.user_id := None; Order.customer_name := "Bob";
     Order.email := "bob@example.org"; Order.address := "2 Side St";
     Order.status := ST_PROCESSING; Order.user_order_no := Some 1;
     Order.stripe_session_id := Some "cs_test_1" |}.

Definition shop_with_order : Db :=
  {| users := users shop; categories := categories shop;
     products := products shop; orders := [pending_order];
     order_items := [{| OrderItem.id := 1; OrderItem.order_id := 1;
                        OrderItem.product_id := 1; OrderItem.quantity := 2;
                        OrderItem.price_snapshot := QArith_base.Qmake 701 2 |}];
     uploads := [] |}.

(** [n] zeros. *)
Fixpoint zeros (n : nat) : string :=
  match n with
  | O => ""
  | S n' => String "0" (zeros n')
  end.

Definition guest : Session := {| cart_slot := None; login_id := None |}.

Definition guest_with (cart : gmap string Z) : Session :=
  {| cart_slot := Some cart; login_id := None |}.

Definition as_user (u : User.t) (cart : gmap string Z) : Session :=
  {| cart_slot := Some cart; login_id := Some (User.id u) |}.

End Demo.

(** ** The rest of the application

    The views of [blueprints/auth/routes.py] that the sections above leave
    out, the two commands of [cli.py] and [avatar_url_for]. *)

(** [werkzeug.security.check_password_hash], with what it promises about the
    hashes of [generate_password_hash]. *)
Class Werkzeug `{Env} := {
  check_password_hash : string -> string -> bool;      (* hash, password *)
  check_generated :
    forall password, check_password_hash (generate_password_hash password) password = true
}.

Module Account.
Section Views.
Context `{Env} `{!Werkzeug}.
Import Utils Auth.

(** [User.check_password] *)
Definition check_password (u : User.t) (password : string) : bool :=
  check_password_hash (User.password_hash u) password.

(** [login_user(user)] and [logout_user()] on the session. *)
Definition login_user (u : User.t) (s : Session) : Session :=
  {| cart_slot := cart_slot s; login_id := Some (User.id u) |}.

Definition logout_user (s : Session) : Session :=
  {| cart_slot := cart_slot s; login_id := None |}.

(** [login]: GET and POST /login.  A POST that fails falls through to the
    form. *)
Definition login (db : Db) (s : Session) (rq : Request) : Outcome :=
  match method rq with
  | POST =>
      let email := Py.lower (Py.strip (default "" (md_get "email" (form rq)))) in
      let password := default "" (md_get "password" (form rq)) in
      match user_by_email db email with
      | Some user =>
          if check_password user password
          then reply db (login_user user s)
                 (Redirect
                    (match md_get "next" (args rq) with
                     | Some n => if Py.truthy n then Url n else Endpoint "shop.index"
                     | None => Endpoint "shop.index"
                     end) 302) []
          else reply db s (Render "login.html") ["Неверный email или пароль"]
      | None => reply db s (Render "login.html") ["Неверный email или пароль"]
      end
  | GET => reply db s (Render "login.html") []
  end.

(** [logout]: GET /logout *)
Definition logout (db : Db) (s : Session) (rq : Request) : Outcome :=
  login_required db s
    (reply db (logout_user s) (Redirect (Endpoint "shop.index") 302)
       ["Вы вышли из системы"]).

(** The link that the flash messages show, without its host part. *)
Definition confirm_link (token : string) : string := "/confirm/" +:+ token.
Definition reset_link (token : string) : string := "/password/reset/" +:+ token.

(** [send_confirm_email]: GET /confirm/send *)
Definition send_confirm_email (db : Db) (s : Session) (rq : Request) : Outcome :=
  login_required db s
    match current_user db s with
    | Some u =>
        if User.email_confirmed u
        then reply db s (Redirect (Endpoint "auth.profile") 302)
               ["Email уже подтверждён"]
        else reply db s (Redirect (Endpoint "auth.profile") 302)
               ["Ссылка для подтверждения email: "
                +:+ confirm_link (sign (User.email u) (now rq))]
    | None => stop db s (Raise Py.AttributeError)   (* not met under [login_required] *)
    end.

(** [password_forgot]: GET and POST /password/forgot *)
Definition password_forgot (db : Db) (s : Session) (rq : Request) : Outcome :=
  match method rq with
  | POST =>
      let email := Py.lower (Py.strip (default "" (md_get "email" (form rq)))) in
      match user_by_email db email with
      | Some user =>
          reply db s (Redirect (Endpoint "auth.login") 302)
            ["Если такой пользователь существует, ссылка для сброса: "
             +:+ reset_link (sign email (now rq)) +:+ " (действует 30 минут)"]
      | None =>
          reply db s (Redirect (Endpoint "auth.login") 302)
            ["Если такой пользователь существует, ссылка для сброса отправлена на email."]
      end
  | GET => reply db s (Render "password_forgot.html") []
  end.

(** The test of [account_order]: the order of the user, or a guest order
    under the user's email. *)
Definition owns (u : User.t) (order : Order.t) : bool :=
  match Order.user_id order with
  | Some uid => Z.eqb uid (User.id u)
  | None => String.eqb (Order.email order) (User.email u)
  end.

(** [account_order]: GET /account/order/<int:order_id> *)
Definition account_order (order_id : Z) (db : Db) (s : Session) (rq : Request)
  : Outcome :=
  login_required db s
    (if out_of_range order_id then stop db s (Raise Py.OverflowError) else
    match get_order db order_id with
    | None => stop db s (Abort 404)
    | Some order =>
        match current_user db s with
        | Some u =>
            if negb (owns u order || User.is_admin u)
            then reply db s (Status 403) []
            else reply db s (Render "account_order.html") []
        | None => stop db s (Raise Py.AttributeError)   (* not met under [login_required] *)
        end
    end).

(** The assignments of the [save_profile] action. *)
Definition save_profile (full_name default_address : string)
    (avatar : option string) (u : User.t) : User.t :=
  {| User.id := User.id u; User.email := User.email u;
     User.password_hash := User.password_hash u;
     User.is_admin := User.is_admin u; User.full_name := full_name;
     User.default_address := default_address;
     User.avatar := match avatar with Some a => Some a | None => User.avatar u end;
     User.email_confirmed := User.email_confirmed u |}.

(** The avatar that [profile] stores: the secured name of an accepted file. *)
Definition avatar_upload (rq : Request) : option string :=
  match md_get "avatar" (files rq) with
  | Some filename =>
      if Py.truthy filename && allowed_file filename
      then Some (secure_filename filename)
      else None
  | None => None
  end.

(** [profile]: GET and POST /profile *)
Definition profile (db : Db) (s : Session) (rq : Request) : Outcome :=
  login_required db s
    match current_user db s with
    | None => stop db s (Raise Py.AttributeError)   (* not met under [login_required] *)
    | Some user =>
        match method rq with
        | GET => reply db s (Render "profile.html") []
        | POST =>
            let action := default "save_profile" (md_get "action" (form rq)) in
            if String.eqb action "save_profile" then
              let full_name := Py.strip (default "" (md_get "full_name" (form rq))) in
              let address := Py.strip (default "" (md_get "default_address" (form rq))) in
              let db1 :=
                match avatar_upload rq with
                | Some filename =>
                    Admin.with_uploads (uploads db ++ ["avatars/" +:+ filename])%list db
                | None => db
                end in
              reply
                (update_user
                   (save_profile full_name address
                      ((fun filename => "uploads/avatars/" +:+ filename)
                         <$> avatar_upload rq))
                   (User.id user) db1)
                s (Redirect (Endpoint "auth.profile") 302) ["Профиль обновлён"]
            else if String.eqb action "change_password" then
              let cur := default "" (md_get "current_password" (form rq)) in
              let pwd := default "" (md_get "new_password" (form rq)) in
              let pwd2 := default "" (md_get "new_password2" (form rq)) in
              if negb (check_password user cur)
              then reply db s (Redirect (Endpoint "auth.profile") 302)
                     ["Текущий пароль неверен"]
              else if negb (password_is_strong pwd)
              then reply db s (Redirect (Endpoint "auth.profile") 302)
                     ["Пароль слишком простой"]
              else if negb (String.eqb pwd pwd2)
              then reply db s (Redirect (Endpoint "auth.profile") 302)
                     ["Пароли не совпадают"]
              else reply (update_user (set_password pwd) (User.id user) db) s
                     (Redirect (Endpoint "auth.profile") 302) ["Пароль изменён"]
            else reply db s (Redirect (Endpoint "auth.profile") 302) []
        end
    end.

(** [utils.avatar_url_for] *)
Definition avatar_url_for (u : User.t) : string :=
  let path := Py.strip (default "" (User.avatar u)) in
  if Py.truthy path then path else "img/default_avatar.png".

End Views.
End Account.

(** *** cli.py *)

Module Cli.
Section Commands.
Context `{Env}.

(** The value of a float literal of the source, by its text. *)
Variable literal : string -> float.

(** [Category.query.filter_by(name=name).first()] *)
Definition category_by_name (db : Db) (name : string) : option Category.t :=
  find (fun c => String.eqb (Category.name c) name) (categories db).

(** [Product.query.filter_by(name=name).first()] *)
Definition product_by_name (db : Db) (name : string) : option Product.t :=
  find (fun p => String.eqb (Product.name p) name) (products db).

(** The category of that name: the row found, or a new one, flushed so
    that it has its key. *)
Definition ensure_category (name : string) (db : Db) : Db * Category.t :=
  match category_by_name db name with
  | Some c => (db, c)
  | None =>
      let c := {| Category.id := next_id (Category.id <$> categories db);
                  Category.name := name |} in
      (Admin.with_categories (categories db ++ [c])%list db, c)
  end.

(** A product of the demo data is added unless one has its name. *)
Definition ensure_product (name : string) (price : float)
    (description image : string) (category : Category.t) (db : Db) : Db :=
  match product_by_name db name with
  | Some _ => db
  | None =>
      Admin.with_products
        (products db
         ++ [{| Product.id := next_id (Product.id <$> products db);
                Product.name := name; Product.price := price;
                Product.description := description; Product.image := image;
                Product.category_id := Some (Category.id category) |}])%list db
  end.

(** [flask seed] *)
Definition seed (db : Db) : Db :=
  let '(db1, clothes) := ensure_category "Одежда" db in
  let '(db2, souvenirs) := ensure_category "Сувениры" db1 in
  let '(db3, stickers) := ensure_category "Стикеры" db2 in
  let db4 :=
    ensure_product "Футболка hack_yourself" (literal "1999.99")
      "Хлопковая футболка c принтом hack_yourself" "img/tshirt.png" clothes db3 in
  let db5 :=
    ensure_product "Кружка hack_yourself" (literal "350.50")
      "Керамическая кружка c логотипом hack_yourself" "img/mug.png" souvenirs db4 in
  ensure_product "Наклейки hack_yourself" (literal "114.90")
    "Набор наклеек hack_yourself" "img/stickers.png" stickers db5.

Definition make_admin (password : string) (u : User.t) : User.t :=
  Auth.set_password password
    {| User.id := User.id u; User.email := User.email u;
       User.password_hash := User.password_hash u;
       User.is_admin := true; User.full_name := User.full_name u;
       User.default_address := User.default_address u;
       User.avatar := User.avatar u;
       User.email_confirmed := User.email_confirmed u |}.

(** [flask create-admin]: the two options may be absent. *)
Definition create_admin (email password : option string) (db : Db) : Db :=
  match email, password with
  | Some e, Some p =>
      if negb (Py.truthy e) || negb (Py.truthy p) then db
      else
        match user_by_email db (Py.lower e) with
        | None =>
            Auth.with_users
              (users db
               ++ [make_admin p
                     {| User.id := next_id (User.id <$> users db);
                        User.email := Py.lower e; User.password_hash := "";
                        User.is_admin := true; User.full_name := "";
                        User.default_address := ""; User.avatar := None;
                        User.email_confirmed := false |}])%list db
        | Some user => Auth.update_user (make_admin p) (User.id user) db
        end
  | _, _ => db
  end.

End Commands.
End Cli.

(** *** The whole site as a machine *)

Module Site.
Section Machine.
Context `{Env} `{!Werkzeug}.

Inductive Rule :=
| Core (e : App.Rule)
| Login
| Logout
| SendConfirmEmail
| PasswordForgot
| AccountOrder (order_id : Z)
| Profile.

Definition handle (e : Rule) : Db -> Session -> Request -> Outcome :=
  match e with
  | Core e' => App.handle e'
  | Login => Account.login
  | Logout => Account.logout
  | SendConfirmEmail => Account.send_confirm_email
  | PasswordForgot => Account.password_forgot
  | AccountOrder order_id => Account.account_order order_id
  | Profile => Account.profile
  end.

(** A sequence of requests, each with the session it comes with. *)
Fixpoint run (trace : list (Rule * Session * Request)) (db : Db) : Db :=
  match trace with
  | [] => db
  | (e, s, rq) :: rest => run rest (out_db (handle e db s rq))
  end.

End Machine.
End Site.

(** *** A list of JSON items, read as one update *)

Module Replay.
Section Items.
Context `{Env}.
Import Shop.

(** What one item does to a cart, when it does not raise. *)
Definition apply_item (cart : gmap string Z) (it : json) : gmap string Z :=
  match item_effect it with
  | Some (k, q) => if (0 <? q)%Z then <[k := q]> cart else delete k cart
  | None => cart
  end.

(** The entry that a list of items leaves under [k], when one of them names
    [k]: the last one decides. *)
Fixpoint decided (k : string) (items : list json) : option (option Z) :=
  match items with
  | [] => None
  | it :: rest =>
      match decided k rest with
      | Some v => Some v
      | None =>
          match item_effect it with
          | Some (k', q) =>
              if decide (k' = k) then Some (if (0 <? q)%Z then Some q else None)
              else None
          | None => None
          end
      end
  end.

End Items.

(** What one request may do to the table of users: nothing, an UPDATE of
    the rows with one key that keeps key, email and [is_admin], or the
    INSERT of one user who is no administrator, under a new email and the
    next key. *)
Definition users_step (us us' : list User.t) : Prop :=
  us' = us
  \/ (exists f uid,
        (forall u, User.id (f u) = User.id u /\ User.email (f u) = User.email u
                   /\ User.is_admin (f u) = User.is_admin u)
        /\ us' = (fun u => if Z.eqb (User.id u) uid then f u else u) <$> us)
  \/ (exists u, us' = (us ++ [u])%list /\ User.is_admin u = false
                /\ (User.email u ∉ User.email <$> us)
                /\ User.id u = next_id (User.id <$> us)).

End Replay.

(** *** The demonstration instance of the password check *)

Module DemoAuth.

Definition werkzeug : @Werkzeug Demo.env :=
  @Build_Werkzeug Demo.env
    (fun h password => String.eqb h ("plain:" +:+ password))
    (fun password => String.eqb_refl ("plain:" +:+ password)).

End DemoAuth.

(** * Properties *)

(** *** Facts on the built-ins *)

Section PyFacts.
Context `{Py.Unicode}.
Import Py.

Lemma drop_while_id {A} (p : A -> bool) (l : list A) :
  Forall (fun x => p x = false) l -> drop_while p l = l.
Proof. destruct 1 as [|x l Hx _]; [reflexivity|]. cbn. now rewrite Hx. Qed.

Lemma trim_id {A} (p : A -> bool) (l : list A) :
  Forall (fun x => p x = false) l -> trim p l = l.
Proof.
  intros Hl. unfold trim. rewrite (drop_while_id p l Hl).
  rewrite drop_while_id by now apply Forall_rev.
  apply rev_involutive.
Qed.

(** The characters of [str(n)] are ASCII: one byte each. *)
Lemma codepoints_ascii (c : ascii) (s : string) :
  (N_of_ascii c <? 128)%N = true ->
  codepoints (String c s) = N_of_ascii c :: codepoints s.
Proof. intros Hc. cbn [codepoints]. unfold codepoint. now rewrite Hc. Qed.

Lemma codepoints_uint_no_space (d : uint) :
  Forall (fun cp => int_space cp = false) (codepoints (NilEmpty.string_of_uint d)).
Proof.
  induction d; cbn [NilEmpty.string_of_uint];
    [constructor | rewrite codepoints_ascii by reflexivity; constructor;
                   [reflexivity | exact IHd] ..].
Qed.

Lemma length_string_of_uint (d : uint) :
  String.length (NilEmpty.string_of_uint d) = nb_digits d.
Proof. induction d; cbn [NilEmpty.string_of_uint String.length nb_digits]; congruence. Qed.

Lemma parse_digits_uint (d : uint) : forall acc seen prev,
  (d <> Nil \/ prev = true) ->
  (seen + nb_digits d <= MAX_STR_DIGITS)%nat ->
  parse_digits (codepoints (NilEmpty.string_of_uint d)) acc seen prev
  = Some (uint_val d acc).
Proof.
  induction d; intros acc seen prev Hd Hlen;
    cbn [NilEmpty.string_of_uint uint_val nb_digits] in *;
    try (rewrite codepoints_ascii by reflexivity; cbn [parse_digits];
         change (digit_of (N_of_ascii ?c))
           with (Some (Z.of_N (N_of_ascii c) - 48));
         cbv iota beta;
         rewrite IHd; [do 2 f_equal; cbn; lia | right; reflexivity | lia]).
  destruct Hd as [Hd | ->]; [congruence|].
  cbn [codepoints parse_digits andb].
  now replace (seen <=? MAX_STR_DIGITS)%nat with true
    by (symmetry; apply Nat.leb_le; lia).
Qed.

Lemma uint_val_acc (d : uint) : forall p : positive,
  uint_val d (Zpos p) = Zpos (Pos.of_uint_acc d p).
Proof.
  induction d; intros p; cbn [uint_val Pos.of_uint_acc]; try reflexivity;
    try (replace (10 * Z.pos p) with (Z.pos (Pos.mul 10 p)) by lia);
    try (rewrite <- IHd; f_equal; lia).
Qed.

Lemma uint_val_of_uint (d : uint) : uint_val d 0 = Z.of_N (Pos.of_uint d).
Proof.
  induction d; cbn [uint_val Pos.of_uint]; try reflexivity;
    try (change (10 * 0 + ?k) with k; cbn [Z.of_N]; apply (uint_val_acc d)).
  exact IHd.
Qed.

Lemma uint_val_lower (d : uint) : forall acc,
  0 <= acc -> acc * 10 ^ Z.of_nat (nb_digits d) <= uint_val d acc.
Proof.
  induction d; intros acc Hacc; cbn [uint_val nb_digits];
    [cbn; lia | ..];
    (rewrite Nat2Z.inj_succ, Z.pow_succ_r by lia;
     etransitivity; [| apply IHd; lia];
     assert (0 <= 10 ^ Z.of_nat (nb_digits d)) by (apply Z.pow_nonneg; lia);
     nia).
Qed.

(** The decimal rendering of a positive number has no leading zero: a
    number below [10 ^ k] has at most [k] digits. *)
Lemma nb_digits_to_uint (p : positive) (k : nat) :
  Zpos p < 10 ^ Z.of_nat k -> (nb_digits (Pos.to_uint p) <= k)%nat.
Proof.
  intros Hp.
  pose proof (DecimalPos.Unsigned.of_to p) as Hv.
  pose proof (DecimalPos.Unsigned.to_of (Pos.to_uint p)) as Hn.
  rewrite Hv in Hn. cbn [N.to_uint] in Hn.
  pose proof (DecimalPos.Unsigned.to_uint_nonzero p) as Hz.
  assert (Pos.to_uint p = nzhead (Pos.to_uint p)) as Hh.
  { rewrite Hn at 1. apply unorm_nzhead. intros E. apply Hz.
    rewrite Hn. now apply unorm_0. }
  assert (Zpos p = uint_val (Pos.to_uint p) 0) as Hval
    by now rewrite uint_val_of_uint, Hv.
  destruct (Pos.to_uint p) as [|d|d|d|d|d|d|d|d|d|d] eqn:E;
    [cbn; lia | exfalso; exact (nzhead_nonzero _ _ (eq_sym Hh)) | ..];
    (cbn [uint_val nb_digits] in *;
     match type of Hval with
     | _ = uint_val d ?a =>
         pose proof (uint_val_lower d a ltac:(lia)) as Hlow
     end;
     assert (0 < 10 ^ Z.of_nat (nb_digits d)) as Hpos
       by (apply Z.pow_pos_nonneg; lia);
     destruct (Nat.le_gt_cases (S (nb_digits d)) k) as [Hle | Hgt]; [exact Hle|];
     exfalso;
     assert (10 ^ Z.of_nat k <= 10 ^ Z.of_nat (nb_digits d))
       by (apply Z.pow_le_mono_r; lia);
     nia).
Qed.

Lemma string_of_uint_nonempty (d : uint) :
  d <> Nil -> NilEmpty.string_of_uint d <> EmptyString.
Proof. destruct d; cbn; congruence. Qed.

Lemma str_pos (p : positive) :
  str (Zpos p) = NilEmpty.string_of_uint (Pos.to_uint p).
Proof.
  unfold str; cbn [Z.to_int NilZero.string_of_int NilZero.string_of_uint].
  pose proof (DecimalPos.Unsigned.to_uint_nonnil p) as Hnil.
  destruct (Pos.to_uint p); [congruence | reflexivity..].
Qed.

Lemma str_neg (p : positive) :
  str (Zneg p) = String "-" (NilEmpty.string_of_uint (Pos.to_uint p)).
Proof.
  unfold str; cbn [Z.to_int NilZero.string_of_int NilZero.string_of_uint].
  pose proof (DecimalPos.Unsigned.to_uint_nonnil p) as Hnil.
  destruct (Pos.to_uint p); [congruence | reflexivity..].
Qed.

Lemma str_fits_digits (p : positive) :
  str_fits (Zpos p) = true <-> (nb_digits (Pos.to_uint p) <= MAX_STR_DIGITS)%nat.
Proof.
  unfold str_fits. change (Z.abs (Z.pos p)) with (Z.pos p).
  rewrite str_pos, length_string_of_uint.
  apply Nat.leb_le.
Qed.

Lemma str_fits_opp (n : Z) : str_fits (- n) = str_fits n.
Proof. unfold str_fits. now rewrite Z.abs_opp. Qed.

(** An integer that SQLite holds is within the limit of the conversion. *)
Lemma str_fits_sqlite (n : Z) : sqlite_int n = true -> str_fits n = true.
Proof.
  unfold sqlite_int. intros Hn. apply andb_true_iff in Hn.
  destruct Hn as [Hlo Hhi]. apply Z.leb_le in Hlo. apply Z.ltb_lt in Hhi.
  assert (2 ^ 63 < 10 ^ Z.of_nat 19) as Hpow by reflexivity.
  assert (19 <= MAX_STR_DIGITS)%nat as Hmax by (apply Nat.leb_le; reflexivity).
  destruct n as [|p|p].
  - reflexivity.
  - apply str_fits_digits. etransitivity; [|exact Hmax].
    apply nb_digits_to_uint. lia.
  - change (Z.neg p) with (- Z.pos p). rewrite str_fits_opp.
    apply str_fits_digits. etransitivity; [|exact Hmax].
    apply nb_digits_to_uint. lia.
Qed.

(** [int(str(n)) == n], within the limit of the conversion. *)
Lemma int_of_str_str (n : Z) : str_fits n = true -> int_of_str (str n) = Some n.
Proof.
  destruct n as [|p|p]; intros Hfit.
  - reflexivity.
  - apply str_fits_digits in Hfit.
    rewrite str_pos. unfold int_of_str.
    rewrite trim_id by apply codepoints_uint_no_space.
    pose proof (DecimalPos.Unsigned.to_uint_nonnil p) as Hn.
    pose proof (DecimalPos.Unsigned.of_to p) as Hv.
    assert (parse_digits (codepoints (NilEmpty.string_of_uint (Pos.to_uint p)))
              0 0 false = Some (Zpos p)) as Hp.
    { rewrite parse_digits_uint; [| left; exact Hn | cbn; lia].
      now rewrite uint_val_of_uint, Hv. }
    destruct (Pos.to_uint p); exact Hp.
  - change (Z.neg p) with (- Z.pos p) in Hfit. rewrite str_fits_opp in Hfit.
    apply str_fits_digits in Hfit.
    rewrite str_neg. unfold int_of_str.
    rewrite codepoints_ascii by reflexivity.
    rewrite trim_id
      by (constructor; [reflexivity | apply codepoints_uint_no_space]).
    pose proof (DecimalPos.Unsigned.to_uint_nonnil p) as Hn.
    pose proof (DecimalPos.Unsigned.of_to p) as Hv.
    change (N_of_ascii "-") with 45%N. cbv iota beta.
    rewrite parse_digits_uint; [| left; exact Hn | cbn; lia].
    now rewrite uint_val_of_uint, Hv.
Qed.

(** The largest integer that [str] renders, and the first that it does
    not. *)
Lemma str_fits_limit :
  str_fits (10 ^ 4300 - 1) = true /\ str_fits (10 ^ 4300) = false.
Proof. split; vm_compute; reflexivity. Qed.

Lemma str_inj (a b : Z) : str a = str b -> a = b.
Proof.
  unfold str. intros E.
  assert (forall n, Z.to_int n <> Pos Nil /\ Z.to_int n <> Neg Nil) as Hnn.
  { intros [|p|p]; cbn [Z.to_int]; split; try discriminate;
      intros [= E']; exact (DecimalPos.Unsigned.to_uint_nonnil p E'). }
  apply (f_equal NilZero.int_of_string) in E.
  rewrite !NilZero.isi in E by apply Hnn.
  injection E as E.
  rewrite <- (DecimalZ.of_to a), <- (DecimalZ.of_to b). now rewrite E.
Qed.

End PyFacts.

(** ** The cart *)

Section CartFacts.
Context `{Env}.
Import Utils Shop.

Lemma get_cart_save_cart (cart : gmap string Z) (s : Session) :
  get_cart (save_cart cart s) = cart.
Proof. reflexivity. Qed.

(** A key that names a row is within SQLite's integers. *)
Lemma get_product_in_range (db : Db) (pid : Z) (p : Product.t) :
  get_product db pid = Some p -> out_of_range pid = false.
Proof.
  unfold get_product, out_of_range. now destruct (sqlite_int pid).
Qed.

Lemma get_order_in_range (db : Db) (oid : Z) (o : Order.t) :
  get_order db oid = Some o -> out_of_range oid = false.
Proof.
  unfold get_order, out_of_range. now destruct (sqlite_int oid).
Qed.

Lemma get_category_in_range (db : Db) (cid : Z) (c : Category.t) :
  get_category db cid = Some c -> out_of_range cid = false.
Proof.
  unfold get_category, out_of_range. now destruct (sqlite_int cid).
Qed.

Lemma in_range_fits (pk : Z) : out_of_range pk = false -> Py.str_fits pk = true.
Proof.
  unfold out_of_range. intros Hr. apply str_fits_sqlite.
  now destruct (sqlite_int pk).
Qed.


Lemma cart_add_beyond (pid : Z) (db : Db) (s : Session) (rq : Request)
    (p : Product.t) (qty : Z) :
  get_product db pid = Some p ->
  form_qty rq = Some qty ->
  Py.str_fits (default 0 (get_cart s !! Py.str pid) + Z.max 1 qty) = false ->
  cart_add pid db s rq = stop db s (Raise Py.ValueError).
Proof.
  intros Hp Hq Hfit. unfold cart_add.
  rewrite (get_product_in_range _ _ _ Hp), Hp, Hq.
  rewrite lookup_insert_eq. change (default 0 (Some ?x)) with x.
  now rewrite Hfit.
Qed.


(** [cart_items]: the list comprehension over the keys. *)
Lemma canonical_key_spec (k : string) :
  canonical_key k = true <-> exists n : Z, Py.int_of_str k = Some n /\ Py.str n = k.
Proof.
  unfold canonical_key. split.
  - destruct (Py.int_of_str k) as [n|]; [|discriminate].
    intros E. apply String.eqb_eq in E. eauto.
  - intros (n & -> & E). now apply String.eqb_eq.
Qed.

Lemma canonical_key_str (n : Z) :
  Py.str_fits n = true -> canonical_key (Py.str n) = true.
Proof.
  intros Hfit. apply canonical_key_spec. exists n.
  split; [now apply int_of_str_str | reflexivity].
Qed.

Lemma key_of_cart (cart : gmap string Z) (k : string) :
  k ∈ (map_to_list cart).*1 <-> is_Some (cart !! k).
Proof.
  rewrite list_elem_of_fmap. split.
  - intros ((k' & v) & -> & Hkv). apply elem_of_map_to_list in Hkv. cbn. eauto.
  - intros (v & Hv). exists (k, v). split; [reflexivity|].
    now apply elem_of_map_to_list.
Qed.

Lemma canonical_keys (cart : gmap string Z) :
  canonical cart = true <->
  forall k, is_Some (cart !! k) -> canonical_key k = true.
Proof.
  unfold canonical. rewrite forallb_forall. split.
  - intros Hall k Hk. apply Hall, list_elem_of_In, key_of_cart, Hk.
  - intros Hall k Hk. apply Hall, key_of_cart, list_elem_of_In, Hk.
Qed.

Lemma parsed_keys (keys : list string) (ids : list Z) :
  Forall2 (fun k n => Py.int_of_str k = Some n) keys ids ->
  Forall (fun k => canonical_key k = true) keys ->
  forall n, n ∈ ids <-> Py.str n ∈ keys.
Proof.
  induction 1 as [|k n keys ids Hk HF IH]; intros Hc m.
  - split; inversion 1.
  - apply Forall_cons in Hc as [Hck Hc]. rewrite !elem_of_cons, (IH Hc).
    apply canonical_key_spec in Hck as (n' & Hn' & Hstr).
    rewrite Hk in Hn'. injection Hn' as <-.
    split; intros [E|E]; auto; left; [now subst | apply str_inj; congruence].
Qed.

Lemma cart_ids_parsed (cart : gmap string Z) (ids : list Z) :
  cart_ids cart = inr ids <->
  Forall2 (fun k n => Py.int_of_str k = Some n) (map_to_list cart).*1 ids.
Proof.
  unfold cart_ids. rewrite <- mapM_Some.
  destruct (mapM Py.int_of_str (map_to_list cart).*1);
    unfold mret, result_ret, raise;
    split; intros E; try discriminate; congruence.
Qed.

Lemma cart_ids_canonical (cart : gmap string Z) :
  canonical cart = true ->
  exists ids, cart_ids cart = inr ids
              /\ forall n, n ∈ ids <-> is_Some (cart !! Py.str n).
Proof.
  intros Hc.
  assert (Forall (fun k => canonical_key k = true) (map_to_list cart).*1) as Hall.
  { apply Forall_forall. intros k Hk.
    apply (proj1 (canonical_keys cart) Hc), key_of_cart, Hk. }
  destruct (mapM Py.int_of_str (map_to_list cart).*1) as [ids|] eqn:E.
  - exists ids. apply mapM_Some in E. split; [now apply cart_ids_parsed|].
    intros n. rewrite (parsed_keys _ _ E Hall). apply key_of_cart.
  - exfalso. apply eq_None_not_Some in E. apply E, mapM_is_Some.
    eapply Forall_impl; [exact Hall|]. intros k Hk. cbn.
    apply canonical_key_spec in Hk as (n & -> & _). eauto.
Qed.

(** The ids of a cart with keys within 64 bits can be bound. *)
Lemma cart_ids_bindable (cart : gmap string Z) (ids : list Z) :
  bindable cart = true ->
  cart_ids cart = inr ids ->
  forallb sqlite_int ids = true.
Proof.
  unfold bindable. intros Hb Hids. apply cart_ids_parsed in Hids.
  induction Hids as [|k n keys ids Hk HF IH]; [reflexivity|].
  cbn [forallb] in *. apply andb_true_iff in Hb as [Hkb Hb].
  rewrite Hk in Hkb. rewrite Hkb. now apply IH.
Qed.

Lemma selected_nil (db : Db) : selected db [] = [].
Proof.
  unfold selected. induction (products db) as [|p ps IH]; [reflexivity|].
  rewrite filter_cons. destruct (decide _) as [Hin|_]; [inversion Hin | exact IH].
Qed.

Lemma products_in_filter (db : Db) (ids : list Z) :
  forallb sqlite_int ids = true -> products_in db ids = inr (selected db ids).
Proof.
  intros Hids. unfold products_in. rewrite Hids.
  destruct ids; [now rewrite selected_nil | reflexivity].
Qed.

Lemma products_in_selected (db : Db) (ids : list Z) (ps : list Product.t) :
  products_in db ids = inr ps -> ps = selected db ids.
Proof.
  unfold products_in. destruct ids as [|i ids].
  - rewrite selected_nil. now intros [= <-].
  - destruct (forallb sqlite_int (i :: ids)); [now intros [= <-] | discriminate].
Qed.


(** The carts that [cart_add] and the JSON API write keep their keys in
    that form. *)
Lemma canonical_insert (cart : gmap string Z) (n q : Z) :
  Py.str_fits n = true ->
  canonical cart = true -> canonical (<[Py.str n := q]> cart) = true.
Proof.
  rewrite !canonical_keys. intros Hfit Hc k (v & Hv).
  destruct (decide (Py.str n = k)) as [<-|Hne]; [now apply canonical_key_str|].
  rewrite lookup_insert_ne in Hv by exact Hne. eauto.
Qed.

Lemma canonical_delete (cart : gmap string Z) (k : string) :
  canonical cart = true -> canonical (delete k cart) = true.
Proof.
  rewrite !canonical_keys. intros Hc k' (v & Hv).
  destruct (decide (k = k')) as [->|Hne].
  - rewrite lookup_delete_eq in Hv. discriminate.
  - rewrite lookup_delete_ne in Hv by exact Hne. eauto.
Qed.

Lemma cart_add_canonical (pid : Z) (db : Db) (s : Session) (rq : Request) :
  canonical (get_cart s) = true ->
  canonical (get_cart (out_session (cart_add pid db s rq))) = true.
Proof.
  intros Hc. unfold cart_add.
  destruct (out_of_range pid) eqn:Hr; [exact Hc|].
  destruct (get_product db pid); [|exact Hc].
  destruct (form_qty rq); [|exact Hc].
  destruct (negb _); [exact Hc|].
  case_bool_decide; apply canonical_insert; auto using in_range_fits.
Qed.

(** [cart_items]: the loop, with its two accumulators. *)
Lemma cart_items_from_inv (cart : gmap string Z) (ps : list Product.t) :
  forall rows total rows' total',
    cart_items_from cart ps (rows, total) = inr (rows', total') ->
    rows' = (rows ++ (line_of cart <$> ps))%list
    /\ total' = fold_left
                  (fun t r => fadd t (fmul_int (Product.price (product r)) (qty r)))
                  (line_of cart <$> ps) total
    /\ Forall (fun p => float_fits (default 0 (cart !! Py.str (Product.id p))) = true) ps.
Proof.
  induction ps as [|p ps IH]; intros rows total rows' total'; cbn.
  - intros [= <- <-]. now rewrite app_nil_r.
  - unfold row_of.
    destruct (float_fits (default 0 (cart !! Py.str (Product.id p)))) eqn:Hfit;
      cbn; [|discriminate].
    intros Hrest. apply IH in Hrest as (-> & -> & Hall).
    rewrite <- app_assoc. repeat split. now constructor.
Qed.

Lemma cart_items_from_fits (cart : gmap string Z) (ps : list Product.t) :
  Forall (fun p => float_fits (default 0 (cart !! Py.str (Product.id p))) = true) ps ->
  forall rows total,
    cart_items_from cart ps (rows, total)
    = inr ((rows ++ (line_of cart <$> ps))%list,
           fold_left (fun t r => fadd t (fmul_int (Product.price (product r)) (qty r)))
             (line_of cart <$> ps) total).
Proof.
  induction 1 as [|p ps Hp _ IH]; intros rows total; cbn.
  - now rewrite app_nil_r.
  - unfold row_of. rewrite Hp. cbn. rewrite IH. now rewrite <- app_assoc.
Qed.

(** On every cart that [cart_items] accepts, the rows are built from the
    selected products and the total is their running sum. *)
Lemma cart_items_rows (db : Db) (s : Session) (rows : list Row) (total : float) :
  cart_items db s = inr (rows, total) ->
  exists ids,
    cart_ids (get_cart s) = inr ids
    /\ products_in db ids = inr (selected db ids)
    /\ rows = line_of (get_cart s) <$> selected db ids
    /\ total = fold_left
                 (fun t r => fadd t (fmul_int (Product.price (product r)) (qty r)))
                 rows fzero
    /\ Forall (fun p => float_fits (default 0 (get_cart s !! Py.str (Product.id p)))
                        = true) (selected db ids).
Proof.
  unfold cart_items. destruct (cart_ids (get_cart s)) as [h|ids]; cbn; [discriminate|].
  destruct (products_in db ids) as [h|ps] eqn:Hps; cbn; [discriminate|].
  pose proof (products_in_selected _ _ _ Hps) as ->.
  intros Hfrom. apply cart_items_from_inv in Hfrom as (-> & -> & Hall).
  exists ids. repeat split; auto.
Qed.



End CartFacts.

(** ** The two cart updates *)

Section CartUpdateFacts.
Context `{Env}.
Import Utils Shop.

Lemma positive_cart_lookup (cart : gmap string Z) :
  positive_cart cart = true <-> forall k q, cart !! k = Some q -> 0 < q.
Proof.
  unfold positive_cart. rewrite forallb_forall. split.
  - intros Hall k q Hkq. apply Z.ltb_lt.
    apply (Hall (k, q)), list_elem_of_In. now apply elem_of_map_to_list.
  - intros Hall [k q] Hin. apply Z.ltb_lt, (Hall k).
    now apply elem_of_map_to_list, list_elem_of_In.
Qed.

Lemma positive_cart_insert (cart : gmap string Z) (k : string) (q : Z) :
  0 < q -> positive_cart cart = true -> positive_cart (<[k := q]> cart) = true.
Proof.
  rewrite !positive_cart_lookup. intros Hq Hall k' q' Hk'.
  destruct (decide (k = k')) as [->|Hne].
  - rewrite lookup_insert_eq in Hk'. congruence.
  - rewrite lookup_insert_ne in Hk' by exact Hne. eauto.
Qed.


(** *** The JSON API *)

(** One turn of the loop either raises or does what [item_effect] says;
    an item without effect is skipped. *)
Lemma api_item_effect (cart cart' : gmap string Z) (it : json) :
  api_item cart it = inr cart' ->
  cart' = match item_effect it with
          | Some (pid, q) => if (0 <? q)%Z then <[pid := q]> cart else delete pid cart
          | None => cart
          end.
Proof.
  unfold api_item, item_effect. destruct it; try discriminate.
  destruct (int_of_json (default JNull (obj_get "pid" l))) as [e|n].
  - destruct (caught e); [|discriminate]. now intros [= <-].
  - destruct (Py.str_fits n); cbn [negb].
    2:{ destruct (int_of_json _); now intros [= <-]. }
    destruct (int_of_json (default (JInt 0) (obj_get "qty" l))) as [e|q].
    + destruct (caught e); [|discriminate]. now intros [= <-].
    + destruct (Z.ltb_spec 0 q) as [Hq|Hq].
      * rewrite Z.max_r by lia. destruct (Z.ltb_spec 0 q); [|lia]. now intros [= <-].
      * rewrite Z.max_l by lia. cbn. now intros [= <-].
Qed.


Lemma api_item_canonical (cart cart' : gmap string Z) (it : json) :
  api_item cart it = inr cart' ->
  canonical cart = true -> canonical cart' = true.
Proof.
  intros Hit Hc. rewrite (api_item_effect _ _ _ Hit).
  unfold item_effect. destruct it; try exact Hc.
  destruct (int_of_json _) as [e|n]; [exact Hc|].
  destruct (int_of_json _) as [e|q]; [exact Hc|].
  destruct (Py.str_fits n) eqn:Hfit; [|exact Hc].
  destruct (0 <? q)%Z; [now apply canonical_insert | now apply canonical_delete].
Qed.

Lemma api_loop_cons (cart cart' : gmap string Z) (it : json) (rest : list json) :
  api_loop cart (it :: rest) = inr cart' ->
  exists mid, api_item cart it = inr mid /\ api_loop mid rest = inr cart'.
Proof.
  cbn. destruct (api_item cart it) as [h|mid]; cbn; [discriminate|]. eauto.
Qed.


Lemma api_loop_canonical (items : list json) :
  forall cart cart',
    api_loop cart items = inr cart' ->
    canonical cart = true -> canonical cart' = true.
Proof.
  induction items as [|it rest IH]; intros cart cart' Hloop Hc.
  - cbn in Hloop. now injection Hloop as <-.
  - apply api_loop_cons in Hloop as (mid & Hit & Hrest).
    eapply IH; [exact Hrest|]. eapply api_item_canonical; eauto.
Qed.



(** *** The HTML form *)











Lemma cart_update_api_session (db : Db) (s : Session) (rq : Request) :
  out_session (cart_update_api db s rq)
  = match api_cart s rq with
    | inr cart => save_cart cart s
    | inl _ => s
    end.
Proof. unfold cart_update_api. now destruct (api_cart s rq). Qed.




End CartUpdateFacts.

(** ** Orders: payment call-back and the admin panel *)

Section OrderFacts.
Context `{Env}.
Import Utils Shop.

Lemma get_order_id (db : Db) (pk : Z) (o : Order.t) :
  get_order db pk = Some o -> Order.id o = pk.
Proof.
  unfold get_order. destruct (sqlite_int pk); [|discriminate].
  intros Hf. apply find_some in Hf as [_ E]. now apply Z.eqb_eq.
Qed.


Lemma get_order_update (f : Order.t -> Order.t) (oid pk : Z) (db : Db) :
  (forall o, Order.id (f o) = Order.id o) ->
  get_order (update_order f oid db) pk
  = (fun o => if Z.eqb (Order.id o) oid then f o else o) <$> get_order db pk.
Proof.
  intros Hid. unfold get_order, update_order. cbn [orders].
  destruct (sqlite_int pk); [|reflexivity].
  induction (orders db) as [|o os IH]; [reflexivity|]. cbn.
  destruct (Z.eqb (Order.id o) oid) eqn:Ho.
  - rewrite Hid. destruct (Z.eqb (Order.id o) pk); [|exact IH]. cbn. now rewrite Ho.
  - destruct (Z.eqb (Order.id o) pk); [|exact IH]. cbn. now rewrite Ho.
Qed.

Lemma get_order_set_status (st : string) (oid pk : Z) (db : Db) :
  get_order (update_order (set_status st) oid db) pk
  = if Z.eqb pk oid then set_status st <$> get_order db pk else get_order db pk.
Proof.
  rewrite get_order_update by reflexivity.
  destruct (get_order db pk) as [o|] eqn:Ho; [|now destruct (Z.eqb pk oid)].
  apply get_order_id in Ho as <-. cbn. now destruct (Z.eqb (Order.id o) oid).
Qed.


End OrderFacts.

Section AdminFacts.
Context `{Env}.
Import Utils Shop Admin.

Lemma check_admin_spec (db : Db) (s : Session) :
  _check_admin db s = if is_admin_session db s then inr tt else inl (Abort 403).
Proof.
  unfold _check_admin, admin_required, is_admin_session.
  destruct (current_user db s) as [u|]; cbn; [|reflexivity].
  now destruct (User.is_admin u).
Qed.

(** C6. A request that reaches a rule of the admin blueprint runs the view
    of the rule only for an authenticated user with [is_admin]; for every
    other requester [abort(403)] ends it in the [before_request] hook, and
    the database (categories, products, orders, uploads) and the session are
    what they were. *)
Theorem admin_gate (r : Route) (db : Db) (s : Session) (rq : Request) :
  (is_admin_session db s = false ->
   dispatch r db s rq = stop db s (Abort 403)
   /\ out_db (dispatch r db s rq) = db
   /\ out_session (dispatch r db s rq) = s)
  /\ (is_admin_session db s = true ->
      dispatch r db s rq = view r db s rq)
  /\ (dispatch r db s rq <> stop db s (Abort 403) ->
      exists u, current_user db s = Some u /\ User.is_admin u = true).
Proof.
  unfold dispatch. rewrite check_admin_spec.
  destruct (is_admin_session db s) eqn:Hadm; (split; [|split]); try discriminate.
  - intros _. unfold Auth.login_required.
    unfold is_admin_session in Hadm.
    destruct (current_user db s); [reflexivity | discriminate].
  - intros _. unfold is_admin_session in Hadm.
    destruct (current_user db s) as [u|]; [eauto | discriminate].
  - intros _. repeat split.
  - intros Hne. now contradiction Hne.
Qed.

(** The four codes that [order_status] translates. *)
Lemma order_status_translates (oid : Z) (db : Db) (s : Session) (rq : Request)
    (order : Order.t) (code label : string) :
  get_order db oid = Some order ->
  Py.strip (default "" (md_get "status" (form rq))) = code ->
  (code, label) ∈ [("pending", ST_PROCESSING); ("awaiting_payment", ST_AWAITING_ADMIN);
                   ("paid", ST_PAID); ("canceled", ST_CANCELED)] ->
  get_order (out_db (order_status oid db s rq)) oid = Some (set_status label order).
Proof.
  intros Hget Hcode Hin. unfold order_status.
  rewrite (get_order_in_range _ _ _ Hget), Hget, Hcode.
  assert (code ∈ ["new"; "pending"; "awaiting_payment"; "paid"; "canceled"]) as Hok.
  { repeat (apply elem_of_cons in Hin as [[= -> ->]|Hin]; [set_solver|]).
    inversion Hin. }
  rewrite (bool_decide_eq_true_2 _ Hok). unfold Admin.reply, Shop.reply. cbn [out_db].
  repeat (apply elem_of_cons in Hin as [[= -> ->]|Hin];
          [cbn [translate String.eqb Ascii.eqb Bool.eqb];
           now rewrite get_order_set_status, Z.eqb_refl, Hget|]).
  inversion Hin.
Qed.

(** A status outside the five codes changes nothing. *)
Lemma order_status_refuses (oid : Z) (db : Db) (s : Session) (rq : Request) :
  Py.strip (default "" (md_get "status" (form rq)))
    ∉ ["new"; "pending"; "awaiting_payment"; "paid"; "canceled"] ->
  out_db (order_status oid db s rq) = db.
Proof.
  intros Hout. unfold order_status. destruct (out_of_range oid); [reflexivity|].
  destruct (get_order db oid); [|reflexivity].
  now rewrite bool_decide_eq_false_2.
Qed.

(** The code ["new"] is accepted, and no branch assigns a status for it. *)
Lemma order_status_new (oid : Z) (db : Db) (s : Session) (rq : Request) :
  Py.strip (default "" (md_get "status" (form rq))) = "new" ->
  out_db (order_status oid db s rq) = db.
Proof.
  intros Hnew. unfold order_status. destruct (out_of_range oid); [reflexivity|].
  destruct (get_order db oid); [|reflexivity].
  now rewrite Hnew.
Qed.

End AdminFacts.

(** ** Checkout *)

Section CheckoutFacts.
Context `{Env}.
Import Utils Shop.

Lemma next_id_gt (ids : list Z) (x : Z) : x ∈ ids -> x < next_id ids.
Proof.
  unfold next_id. induction ids as [|i ids IH]; intros Hx; [inversion Hx|].
  cbn. apply elem_of_cons in Hx as [->|Hx]; [lia|]. specialize (IH Hx). lia.
Qed.

(** The key of the new order is not the key of an order of the table. *)
Lemma new_order_fresh (db : Db) (u : option User.t) (name email address : string)
    (o : Order.t) :
  o ∈ orders db -> Order.id o <> Order.id (new_order db u name email address).
Proof.
  intros Ho. cbn. apply Z.lt_neq, next_id_gt.
  apply list_elem_of_fmap. eauto.
Qed.

Lemma update_fresh (f : Order.t -> Order.t) (os : list Order.t) (order : Order.t) :
  (forall o, o ∈ os -> Order.id o <> Order.id order) ->
  (fun o => if Z.eqb (Order.id o) (Order.id order) then f o else o)
    <$> (os ++ [order])%list
  = (os ++ [f order])%list.
Proof.
  intros Hfresh. rewrite fmap_app. cbn. rewrite Z.eqb_refl. f_equal.
  induction os as [|o os IH]; [reflexivity|]. cbn.
  destruct (Z.eqb_spec (Order.id o) (Order.id order)) as [E|_].
  - exfalso. apply (Hfresh o); [left | exact E].
  - f_equal. apply IH. intros o' Ho'. apply Hfresh. now right.
Qed.

Lemma add_order_items_spec (oid : Z) (rows : list Row) :
  forall tbl, exists items,
    add_order_items oid rows tbl = (tbl ++ items)%list
    /\ Forall2 (item_of_row oid) rows items.
Proof.
  induction rows as [|row rows IH]; intros tbl.
  - exists []. split; [now rewrite app_nil_r | constructor].
  - cbn [add_order_items].
    match goal with
    | |- context [add_order_items oid rows ?t] =>
        destruct (IH t) as (items & -> & Hall)
    end.
    eexists (_ :: items). split; [now rewrite <- app_assoc|].
    constructor; [|exact Hall]. repeat split.
Qed.

(** Every row of [cart_items] is a product of the table with the quantity
    the cart keeps under [str(product.id)]. *)
Lemma cart_items_row (db : Db) (s : Session) (rows : list Row) (total : float) :
  cart_items db s = inr (rows, total) ->
  Forall (fun row =>
            product row ∈ products db
            /\ qty row = default 0 (get_cart s !! Py.str (Product.id (product row))))
    rows.
Proof.
  intros Hret. apply cart_items_rows in Hret as (ids & _ & _ & -> & _).
  apply Forall_fmap, Forall_forall. intros p Hp. cbn. split; [|reflexivity].
  unfold selected in Hp. now apply list_elem_of_filter in Hp as [_ Hp].
Qed.





(** [func.max(Order.user_order_no)]: no row with a number, or the largest
    of the numbers. *)
Lemma max_order_no_snoc (rows : list Order.t) (o : Order.t) :
  max_order_no (rows ++ [o])%list
  = match Order.user_order_no o, max_order_no rows with
    | Some n, Some m => Some (Z.max m n)
    | Some n, None => Some n
    | None, acc => acc
    end.
Proof. unfold max_order_no. now rewrite fold_left_app. Qed.

Lemma max_order_no_spec (rows : list Order.t) :
  match max_order_no rows with
  | None => forall o, o ∈ rows -> Order.user_order_no o = None
  | Some M =>
      (exists o, o ∈ rows /\ Order.user_order_no o = Some M)
      /\ forall o m, o ∈ rows -> Order.user_order_no o = Some m -> m <= M
  end.
Proof.
  induction rows as [|o rows IH] using rev_ind.
  - intros o Ho. inversion Ho.
  - rewrite max_order_no_snoc.
    destruct (Order.user_order_no o) as [n|] eqn:Hn;
      destruct (max_order_no rows) as [M|].
    + destruct IH as [(o' & Ho' & Hm) Hle]. split.
      * destruct (Z.max_spec M n) as [[_ ->] | [_ ->]].
        -- exists o. split; [apply elem_of_app; right; left | exact Hn].
        -- exists o'. split; [apply elem_of_app; now left | exact Hm].
      * intros x m Hx Hxm. apply elem_of_app in Hx as [Hx|Hx].
        -- specialize (Hle x m Hx Hxm). lia.
        -- apply list_elem_of_singleton in Hx as ->.
           rewrite Hn in Hxm. injection Hxm as <-. lia.
    + split.
      * exists o. split; [apply elem_of_app; right; left | exact Hn].
      * intros x m Hx Hxm. apply elem_of_app in Hx as [Hx|Hx].
        -- rewrite (IH x Hx) in Hxm. discriminate.
        -- apply list_elem_of_singleton in Hx as ->.
           rewrite Hn in Hxm. injection Hxm as <-. lia.
    + destruct IH as [(o' & Ho' & Hm) Hle]. split.
      * exists o'. split; [apply elem_of_app; now left | exact Hm].
      * intros x m Hx Hxm. apply elem_of_app in Hx as [Hx|Hx]; [eauto|].
        apply list_elem_of_singleton in Hx as ->. congruence.
    + intros x Hx. apply elem_of_app in Hx as [Hx|Hx]; [eauto|].
      now apply list_elem_of_singleton in Hx as ->.
Qed.

(** The number that [checkout] gives is the next one. *)
Lemma next_number_max (rows : list Order.t) :
  next_number rows (or_zero (max_order_no rows) + 1).
Proof.
  pose proof (max_order_no_spec rows) as Hmax. unfold next_number.
  destruct (max_order_no rows) as [M|]; cbn.
  - destruct Hmax as [(o & Ho & Hm) Hle]. split.
    + intros x m Hx Hxm. specialize (Hle x m Hx Hxm). lia.
    + right. exists o. split; [exact Ho|]. rewrite Hm. f_equal. lia.
  - split.
    + intros x m Hx Hxm. rewrite (Hmax x Hx) in Hxm. discriminate.
    + left. split; [reflexivity | exact Hmax].
Qed.

(** The filter of the numbering query selects the orders of the customer. *)
Lemma same_customer_spec (user_id : option Z) (email : string) (o : Order.t) :
  same_customer user_id email o = true <-> customer_of o = customer user_id email.
Proof.
  unfold same_customer, customer_of, customer.
  destruct user_id as [uid|]; destruct (Order.user_id o) as [uid'|];
    rewrite ?andb_true_iff, ?bool_decide_eq_true; split;
    try congruence; try (intros [E1 E2]; congruence); try (intros [= <-]; auto).
Qed.

Lemma orders_of_placed_by (user_id : option Z) (email : string)
    (rows : list Order.t) :
  orders_of user_id email rows = placed_by (customer user_id email) rows.
Proof.
  apply list_filter_iff. intros o. rewrite <- same_customer_spec.
  now destruct (same_customer user_id email o).
Qed.

Lemma customer_cases (c : Customer) :
  exists user_id email, c = customer user_id email.
Proof. destruct c as [uid|email]; [now exists (Some uid), "" | now exists None, email]. Qed.



(** *** The numbering of orders *)

Lemma orders_of_cons (user_id : option Z) (email : string) (o : Order.t)
    (os : list Order.t) :
  orders_of user_id email (o :: os)
  = if same_customer user_id email o
    then o :: orders_of user_id email os
    else orders_of user_id email os.
Proof.
  unfold orders_of. rewrite filter_cons.
  destruct (same_customer user_id email o); [now rewrite decide_True|].
  now rewrite decide_False.
Qed.

Lemma orders_of_app (user_id : option Z) (email : string) (os os' : list Order.t) :
  orders_of user_id email (os ++ os')%list
  = (orders_of user_id email os ++ orders_of user_id email os')%list.
Proof. apply filter_app. Qed.

Lemma same_customer_numbering (user_id : option Z) (email : string)
    (o o' : Order.t) :
  numbering o = numbering o' ->
  same_customer user_id email o = same_customer user_id email o'.
Proof. unfold numbering, same_customer. now intros [= -> -> _]. Qed.

(** The selection and the numbers depend on [numbering] only. *)
Lemma orders_of_numbering (user_id : option Z) (email : string) (os : list Order.t) :
  forall os',
    numbering <$> os = numbering <$> os' ->
    Order.user_order_no <$> orders_of user_id email os
    = Order.user_order_no <$> orders_of user_id email os'.
Proof.
  induction os as [|o os IH]; intros [|o' os'] E; try discriminate; [reflexivity|].
  rewrite !fmap_cons in E.
  assert (numbering o = numbering o' /\ numbering <$> os = numbering <$> os')
    as [Eo Erest] by (split; congruence).
  rewrite !orders_of_cons, (same_customer_numbering _ _ _ _ Eo).
  destruct (same_customer user_id email o'); cbn; [f_equal|]; try now apply IH.
  unfold numbering in Eo. congruence.
Qed.

Lemma numbered_numbering (os os' : list Order.t) :
  numbering <$> os = numbering <$> os' -> numbered os -> numbered os'.
Proof.
  intros E Hn user_id email i n.
  rewrite <- (orders_of_numbering user_id email os os' E). apply Hn.
Qed.

Lemma numbering_update (f : Order.t -> Order.t) (oid : Z) (os : list Order.t) :
  (forall o, numbering (f o) = numbering o) ->
  numbering <$> ((fun o => if Z.eqb (Order.id o) oid then f o else o) <$> os)
  = numbering <$> os.
Proof.
  intros Hf. rewrite <- list_fmap_compose. apply list_fmap_ext.
  intros i o _. cbn. now destruct (Z.eqb _ _).
Qed.

Lemma orders_update_order (f : Order.t -> Order.t) (oid : Z) (db : Db) :
  (forall o, numbering (f o) = numbering o) ->
  numbering <$> orders (update_order f oid db) = numbering <$> orders db.
Proof. apply numbering_update. Qed.

(** [func.max(Order.user_order_no)] over the orders of a customer whose
    numbers are 1, 2, ..., n is n. *)
Lemma max_order_no_numbered (rows : list Order.t) :
  (forall i n, (Order.user_order_no <$> rows) !! i = Some n ->
               n = Some (Z.of_nat i + 1)) ->
  or_zero (max_order_no rows) = Z.of_nat (length rows)
  /\ (rows <> [] -> max_order_no rows = Some (Z.of_nat (length rows))).
Proof.
  induction rows as [|o rows IH] using rev_ind; intros Hn.
  - split; [reflexivity | congruence].
  - assert (Order.user_order_no o = Some (Z.of_nat (length rows) + 1)) as Ho.
    { apply Hn. rewrite fmap_app, lookup_app_r by now rewrite length_fmap.
      now rewrite length_fmap, Nat.sub_diag. }
    destruct IH as [IH0 IH1].
    { intros i n Hi. apply Hn. rewrite fmap_app.
      now apply lookup_app_l_Some. }
    rewrite max_order_no_snoc, Ho, length_app. cbn [length].
    assert (max_order_no (rows ++ [o])%list = Some (Z.of_nat (length rows + 1))) as E.
    { rewrite max_order_no_snoc, Ho.
      destruct rows as [|o' rows'].
      - reflexivity.
      - rewrite IH1 by discriminate. f_equal. lia. }
    rewrite max_order_no_snoc, Ho in E. split.
    + rewrite E. reflexivity.
    + intros _. exact E.
Qed.

(** Adding the order that [checkout] builds keeps the numbers in line. *)
Lemma numbered_new_order (db : Db) (u : option User.t) (name email address : string) :
  numbered (orders db) ->
  numbered (orders db ++ [new_order db u name email address])%list.
Proof.
  intros Hn user_id email' i n. rewrite orders_of_app, fmap_app.
  set (mine := orders_of user_id email' (orders db)).
  destruct (decide (i < length mine)%nat) as [Hi|Hi].
  - rewrite lookup_app_l by now rewrite length_fmap. apply Hn.
  - rewrite lookup_app_r by (rewrite length_fmap; lia). rewrite length_fmap.
    rewrite orders_of_cons.
    change (orders_of user_id email' []) with (@nil Order.t).
    destruct (same_customer _ _ _) eqn:Hmatch; [|cbn; discriminate].
    destruct (i - length mine)%nat eqn:Hk; [|cbn; discriminate].
    cbn. intros [= <-]. f_equal.
    assert (orders_of (User.id <$> u) email (orders db) = mine) as Hsame.
    { subst mine. unfold same_customer in Hmatch. cbn in Hmatch.
      destruct user_id as [uid|].
      - apply bool_decide_eq_true in Hmatch. now rewrite Hmatch.
      - apply andb_true_iff in Hmatch as [Hu He].
        apply bool_decide_eq_true in Hu, He. now rewrite Hu, He. }
    rewrite Hsame.
    rewrite (proj1 (max_order_no_numbered mine (Hn user_id email'))). lia.
Qed.

End CheckoutFacts.

(** ** The numbering of orders along the life of the application *)

Section NumberingFacts.
Context `{Env}.
Import Utils Shop.

Ltac show_outcome :=
  unfold Admin.reply, Admin.stop, Auth.reply, Auth.stop, reply, stop;
  cbn [out_db out_session out].

Ltac same_orders :=
  repeat first
    [ reflexivity
    | apply orders_update_order; reflexivity
    | progress show_outcome
    | case_match ].

Lemma checkout_orders (db : Db) (s : Session) (rq : Request) :
  numbering <$> orders (out_db (checkout db s rq)) = numbering <$> orders db
  \/ numbering <$> orders (out_db (checkout db s rq))
     = numbering <$> (orders db ++ [checkout_order db s rq])%list.
Proof.
  unfold checkout.
  repeat case_match; show_outcome; try (left; reflexivity); right;
    match goal with
    | |- context [update_order ?f ?oid ?d] =>
        exact (orders_update_order f oid d (fun _ => eq_refl))
    end.
Qed.

Lemma admin_orders (r : Admin.Route) (db : Db) (s : Session) (rq : Request) :
  numbering <$> orders (out_db (Admin.dispatch r db s rq))
  = numbering <$> orders db.
Proof.
  unfold Admin.dispatch, Auth.login_required.
  destruct (Admin._check_admin db s); [reflexivity|].
  destruct (is_authenticated _); [|reflexivity].
  destruct r; cbn [Admin.view];
    unfold Admin.index, Admin.categories_view, Admin.category_new,
      Admin.category_edit, Admin.category_delete, Admin.products_view,
      Admin.product_new, Admin.product_edit, Admin.product_delete,
      Admin.orders_view, Admin.order_status;
    same_orders.
Qed.

Lemma handle_orders (e : App.Rule) (db : Db) (s : Session) (rq : Request) :
  numbering <$> orders (out_db (App.handle e db s rq)) = numbering <$> orders db
  \/ numbering <$> orders (out_db (App.handle e db s rq))
     = numbering <$> (orders db ++ [checkout_order db s rq])%list.
Proof.
  destruct e; cbn [App.handle];
    try apply checkout_orders; try (left; apply admin_orders); left;
    unfold cart_add, cart_update_api, cart_update, cart_clear, payment_success,
      payment_cancel, Auth.register, Auth.confirm_email, Auth.password_reset,
      Auth.login_required;
    same_orders.
Qed.

(** In every database that the application reaches, the orders of every
    customer are numbered 1, 2, 3, ... *)
Lemma reachable_numbered (db : Db) : App.reachable db -> numbered (orders db).
Proof.
  induction 1 as [db Hempty | db e s rq _ IH].
  - rewrite Hempty. intros user_id email i n. cbn. discriminate.
  - destruct (handle_orders e db s rq) as [E|E].
    + eapply numbered_numbering; [symmetry; exact E | exact IH].
    + eapply numbered_numbering; [symmetry; exact E|].
      now apply numbered_new_order.
Qed.

Lemma numbered_spec (rows : list Order.t) :
  numbered rows -> numbered_per_customer rows.
Proof.
  intros Hn c i o Ho. destruct (customer_cases c) as (user_id & email & ->).
  rewrite <- orders_of_placed_by in Ho.
  apply (Hn user_id email i). now rewrite list_lookup_fmap, Ho.
Qed.

(** C2. An order that [checkout] creates belongs to the customer who sends
    the form: the logged-in user, or the guest under the email of the form.
    Its number is one plus the largest number among the existing orders of
    that customer (the orders with the same [user_id], or the orders without
    [user_id] under the same email), and 1 when there is none: the orders of
    other customers do not count. In every database that the application
    reaches from one without orders this is one plus the count of the
    customer's orders, and after the checkout the orders of every customer
    carry the numbers 1, 2, 3, ... in the order of their creation. *)
Theorem checkout_numbers_orders (db : Db) (s : Session) (rq : Request)
    (order : Order.t) :
  orders (out_db (checkout db s rq)) = (orders db ++ [order])%list ->
  let theirs := placed_by (customer_of order) (orders db) in
  customer_of order = customer_at db s rq
  /\ (exists n, Order.user_order_no order = Some n /\ next_number theirs n)
  /\ (theirs = [] -> Order.user_order_no order = Some 1)
  /\ (App.reachable db ->
      Order.user_order_no order = Some (Z.of_nat (length theirs) + 1)
      /\ numbered_per_customer (orders (out_db (checkout db s rq)))).
Proof.
  intros Hnew theirs.
  assert (numbering order = numbering (checkout_order db s rq)) as Hkey.
  { destruct (checkout_orders db s rq) as [E|E]; rewrite Hnew in E.
    - apply (f_equal length) in E. rewrite !length_fmap, length_app in E.
      cbn in E. lia.
    - rewrite !fmap_app in E. apply app_inj_2 in E as [_ E]; [|reflexivity].
      change (numbering <$> [?x]) with [numbering x] in E. congruence. }
  unfold numbering, checkout_order in Hkey. cbn in Hkey.
  injection Hkey as Hu He Hno.
  assert (orders_of (Order.user_id order) (Order.email order) (orders db) = theirs)
    as Hmine by apply orders_of_placed_by.
  assert (Hval : Order.user_order_no order
                 = Some (or_zero (max_order_no theirs) + 1)).
  { rewrite Hno, <- Hmine. now rewrite Hu, He. }
  split; [|split; [|split]].
  - unfold customer_of, customer_at, customer. rewrite Hu, He.
    now destruct (current_user db s).
  - eexists. split; [exact Hval | apply next_number_max].
  - intros Hnil. now rewrite Hval, Hnil.
  - intros Hreach. split.
    + rewrite Hval. f_equal. f_equal. rewrite <- Hmine.
      apply max_order_no_numbered, (reachable_numbered db Hreach).
    + apply numbered_spec.
      apply (reachable_numbered _ (App.reach_step db App.Checkout s rq Hreach)).
Qed.

End NumberingFacts.

(** ** Registration and tokens *)

Section AuthFacts.
Context `{Env}.
Import Utils Auth.

Lemma existsb_elem {A} (p : A -> bool) (l : list A) :
  existsb p l = true <-> exists x, x ∈ l /\ p x = true.
Proof.
  rewrite existsb_exists. split; intros (x & Hx & Hp); exists x;
    (split; [now apply list_elem_of_In | exact Hp]).
Qed.

Lemma is_upper_range (cp : N) : Py.is_upper cp = true <-> (65 <= cp <= 90)%N.
Proof. unfold Py.is_upper. rewrite andb_true_iff, !N.leb_le. tauto. Qed.

Lemma is_lower_range (cp : N) : Py.is_lower cp = true <-> (97 <= cp <= 122)%N.
Proof. unfold Py.is_lower. rewrite andb_true_iff, !N.leb_le. tauto. Qed.

Lemma is_digit_range (cp : N) : Py.is_digit cp = true <-> (48 <= cp <= 57)%N.
Proof. unfold Py.is_digit. rewrite andb_true_iff, !N.leb_le. tauto. Qed.

Lemma is_decimal_digit (cp : N) :
  Py.is_decimal cp = true <-> is_Some (Py.digit_of cp).
Proof.
  unfold Py.is_decimal. destruct (Py.digit_of cp); split; eauto; try discriminate.
  intros [? ?]; discriminate.
Qed.

Lemma not_alnum_ranges (cp : N) :
  negb (Py.is_alnum cp) = true
  <-> ~ (65 <= cp <= 90)%N /\ ~ (97 <= cp <= 122)%N /\ ~ (48 <= cp <= 57)%N.
Proof.
  unfold Py.is_alnum.
  rewrite negb_true_iff, !orb_false_iff, <- !not_true_iff_false.
  rewrite is_upper_range, is_lower_range, is_digit_range. tauto.
Qed.

(** [password_is_strong] decides what the docstring asks for. *)
Lemma password_is_strong_spec (password : string) :
  password_is_strong password = true <-> strong password.
Proof.
  unfold password_is_strong, strong.
  rewrite !andb_true_iff, !existsb_elem, Nat.leb_le.
  split.
  - intros [[[Hlen (u & Hu & Hup)] (d & Hd & Hdig)] (c & Hc & Hsp)].
    split; [exact Hlen|]. split; [|split].
    + exists u. split; [exact Hu | now apply is_upper_range].
    + exists d. split; [exact Hd | now apply is_decimal_digit].
    + exists c. split; [exact Hc | now apply not_alnum_ranges].
  - intros (Hlen & (u & Hu & Hup) & (d & Hd & Hdig) & (c & Hc & Hsp)).
    repeat split; [exact Hlen | ..].
    + exists u. split; [exact Hu | now apply is_upper_range].
    + exists d. split; [exact Hd | now apply is_decimal_digit].
    + exists c. split; [exact Hc | now apply not_alnum_ranges].
Qed.

Lemma user_by_email_None (db : Db) (email : string) :
  user_by_email db email = None
  <-> forall u, u ∈ users db -> User.email u <> email.
Proof.
  unfold user_by_email. split.
  - intros Hnone u Hu E. apply list_elem_of_In in Hu.
    pose proof (find_none _ _ Hnone u Hu) as Hneq. cbn in Hneq.
    now rewrite E, String.eqb_refl in Hneq.
  - intros Hall. destruct (find _ _) as [u|] eqn:Hf; [|reflexivity].
    apply find_some in Hf as [Hu E]. apply String.eqb_eq in E.
    exfalso. apply (Hall u); [now apply list_elem_of_In | exact E].
Qed.

Lemma truthy_iff (x : string) : Py.truthy x = true <-> x <> "".
Proof. destruct x; cbn; split; congruence. Qed.

(** C7, as amended. A registration form that is posted creates a user if
    and only if the email, stripped of the white space around it and
    lower-cased as the view reads it, and the password are not empty, the
    password is strong (at least 6 characters, one of the letters A-Z, a
    decimal digit, 0-9 or another digit of Unicode, and a character that is
    none of A-Z, a-z and 0-9) and no user has that email. The user is added
    with that email and the hash of the password; in every other case the
    database is unchanged and the form is rendered again with one error
    message. *)
Theorem register_creates_iff (db : Db) (s : Session) (rq : Request) :
  method rq = POST ->
  let after := register db s rq in
  (users (out_db after) <> users db <-> registrable db rq)
  /\ (registrable db rq ->
      out_db after
      = with_users
          (users db ++ [new_user db (register_email rq) (register_password rq)])%list
          db
      /\ User.email (new_user db (register_email rq) (register_password rq))
         = register_email rq
      /\ exists msg,
           out after = inr {| response := Redirect (Endpoint "auth.login") 302;
                              flashes := [msg] |})
  /\ (~ registrable db rq ->
      out_db after = db
      /\ exists msg,
           out after = inr {| response := Render "register.html";
                              flashes := [msg] |}).
Proof.
  intros Hpost after. subst after. unfold register, registrable. rewrite Hpost.
  rewrite <- password_is_strong_spec, <- user_by_email_None, <- !truthy_iff.
  destruct (Py.truthy (register_email rq)) eqn:He; cbn [negb orb].
  2:{ unfold reply, Shop.reply; cbn [out_db out].
      split; [|split]; [split; [congruence | intros [? _]; discriminate]
                       | intros [? _]; discriminate | eauto]. }
  destruct (Py.truthy (register_password rq)) eqn:Hp; cbn [negb orb].
  2:{ unfold reply, Shop.reply; cbn [out_db out].
      split; [|split]; [split; [congruence | intros (_ & ? & _); discriminate]
                       | intros (_ & ? & _); discriminate | eauto]. }
  destruct (password_is_strong (register_password rq)) eqn:Hs; cbn [negb].
  2:{ unfold reply, Shop.reply; cbn [out_db out].
      split; [|split]; [split; [congruence | intros (_ & _ & ? & _); discriminate]
                       | intros (_ & _ & ? & _); discriminate | eauto]. }
  destruct (user_by_email db (register_email rq)) as [u|] eqn:Hu.
  - rewrite bool_decide_eq_true_2 by eauto.
    unfold reply, Shop.reply; cbn [out_db out].
    split; [|split]; [split; [congruence | intros (_ & _ & _ & ?); discriminate]
                     | intros (_ & _ & _ & ?); discriminate | eauto].
  - rewrite bool_decide_eq_false_2 by (intros [? ?]; discriminate).
    unfold reply, Shop.reply; cbn [out_db out with_users users].
    split; [|split].
    + split; [auto|]. intros _ E. apply (f_equal length) in E.
      rewrite length_app in E. cbn in E. lia.
    + intros _. split; [reflexivity|]. split; [reflexivity|]. eauto.
    + intros Hno. exfalso. apply Hno. auto.
Qed.

(** *** Tokens *)

Lemma loads_fresh (token : string) (max_age clock : Z) (payload : string) :
  loads token max_age clock = Loaded payload <-> fresh token max_age clock payload.
Proof.
  unfold loads, fresh. destruct (unsign token) as [[p stamp]|].
  - split.
    + destruct (Z.ltb_spec max_age (clock - stamp)); [discriminate|].
      destruct (Z.ltb_spec (clock - stamp) 0); [discriminate|].
      intros [= <-]. exists stamp. split; [reflexivity | lia].
    + intros (st & E & Hage). injection E as -> ->.
      destruct (Z.ltb_spec max_age (clock - st)); [lia|].
      destruct (Z.ltb_spec (clock - st) 0); [lia | reflexivity].
  - split; [discriminate | intros (? & ? & _); discriminate].
Qed.

Lemma loads_expired (token : string) (max_age clock : Z) :
  loads token max_age clock = SignatureExpired <-> expired token max_age clock.
Proof.
  unfold loads, expired. destruct (unsign token) as [[p stamp]|].
  - split.
    + intros Hl. exists p, stamp. split; [reflexivity|].
      destruct (Z.ltb_spec max_age (clock - stamp)); [lia|].
      destruct (Z.ltb_spec (clock - stamp) 0); [lia | discriminate].
    + intros (p' & st & E & Hage). injection E as -> ->.
      destruct (Z.ltb_spec max_age (clock - st)); [reflexivity|].
      destruct (Z.ltb_spec (clock - st) 0); [reflexivity | lia].
  - split; [discriminate | intros (? & ? & ? & _); discriminate].
Qed.

Lemma loads_bad (token : string) (max_age clock : Z) :
  loads token max_age clock = BadSignature <-> badly_signed token.
Proof.
  unfold loads, badly_signed. destruct (unsign token) as [[p stamp]|].
  - destruct (Z.ltb _ _); [|destruct (Z.ltb _ _)]; split; discriminate.
  - split; reflexivity.
Qed.

Lemma get_user_id (db : Db) (pk : Z) (u : User.t) :
  get_user db pk = Some u -> User.id u = pk.
Proof.
  unfold get_user. intros Hf. apply find_some in Hf as [_ E]. now apply Z.eqb_eq.
Qed.

Lemma get_user_update (f : User.t -> User.t) (db : Db) (u : User.t) :
  (forall v, User.id (f v) = User.id v) ->
  get_user db (User.id u) = Some u ->
  get_user (update_user f (User.id u) db) (User.id u) = Some (f u).
Proof.
  intros Hid. unfold get_user, update_user, with_users. cbn [users].
  induction (users db) as [|v vs IH]; [discriminate|]. cbn.
  destruct (Z.eqb_spec (User.id v) (User.id u)) as [E|Hne].
  - intros [= ->]. now rewrite Hid, Z.eqb_refl.
  - destruct (Z.eqb_spec (User.id v) (User.id u)); [contradiction | exact IH].
Qed.

Lemma current_user_get (db : Db) (s : Session) (u : User.t) :
  current_user db s = Some u -> get_user db (User.id u) = Some u.
Proof.
  unfold current_user. destruct (login_id s) as [uid|]; [|discriminate].
  intros Hu. now rewrite (get_user_id _ _ _ Hu).
Qed.

(** C5. [confirm_email] answers with its success message, and sets
    [email_confirmed] on the current user, exactly when the token carries a
    good signature stamped within the last 24 hours and its email is the
    email of the logged-in user (compared after lower-casing, which changes
    nothing on emails that are lower-case already, as the emails the
    application stores and signs are); in every other case the database is
    unchanged. [password_reset] changes a password, or shows its form, only on
    a token with a good signature stamped within the last 30 minutes. On an
    expired or badly signed token both views redirect with one message and
    leave the database and the session as they were. *)
Theorem tokens_time_limited (token : string) (db : Db) (s : Session) (rq : Request) :
  (out (confirm_email token db s rq) = confirmed
   <-> exists u email,
         current_user db s = Some u
         /\ fresh token (60 * 60 * 24) (now rq) email
         /\ Py.lower email = Py.lower (User.email u))
  /\ (forall u email,
        current_user db s = Some u ->
        fresh token (60 * 60 * 24) (now rq) email ->
        Py.lower email = email -> Py.lower (User.email u) = User.email u ->
        (out (confirm_email token db s rq) = confirmed <-> email = User.email u))
  /\ (out (confirm_email token db s rq) = confirmed ->
      exists u, current_user db s = Some u
                /\ out_db (confirm_email token db s rq)
                   = update_user confirm (User.id u) db
                /\ get_user (out_db (confirm_email token db s rq)) (User.id u)
                   = Some (confirm u)
                /\ User.email_confirmed (confirm u) = true)
  /\ (out (confirm_email token db s rq) <> confirmed ->
      out_db (confirm_email token db s rq) = db)
  /\ ((out_db (password_reset token db s rq) <> db
       \/ exists r, out (password_reset token db s rq)
                    = inr {| response := Render r; flashes := [] |}) ->
      exists email, fresh token (60 * 30) (now rq) email)
  /\ (expired token (60 * 60 * 24) (now rq) \/ badly_signed token ->
      out_db (confirm_email token db s rq) = db
      /\ out_session (confirm_email token db s rq) = s
      /\ exists to msg,
           out (confirm_email token db s rq)
           = inr {| response := Redirect to 302; flashes := [msg] |})
  /\ (expired token (60 * 30) (now rq) \/ badly_signed token ->
      out_db (password_reset token db s rq) = db
      /\ out_session (password_reset token db s rq) = s
      /\ exists to msg,
           out (password_reset token db s rq)
           = inr {| response := Redirect to 302; flashes := [msg] |}).
Proof.
  pose proof (loads_fresh token (60 * 60 * 24) (now rq)) as Hf24.
  pose proof (loads_expired token (60 * 60 * 24) (now rq)) as He24.
  pose proof (loads_bad token (60 * 60 * 24) (now rq)) as Hb24.
  pose proof (loads_fresh token (60 * 30) (now rq)) as Hf30.
  pose proof (loads_expired token (60 * 30) (now rq)) as He30.
  pose proof (loads_bad token (60 * 30) (now rq)) as Hb30.
  assert (Hconfirm :
    out (confirm_email token db s rq) = confirmed
    <-> exists u email,
          current_user db s = Some u
          /\ fresh token (60 * 60 * 24) (now rq) email
          /\ Py.lower email = Py.lower (User.email u)).
  { unfold confirm_email, login_required, confirmed.
    destruct (current_user db s) as [u|] eqn:Hu; cbn [is_authenticated].
    2:{ split; [discriminate | intros (? & ? & ? & _); discriminate]. }
    destruct (loads token (60 * 60 * 24) (now rq)) as [email| |] eqn:Hl.
    - destruct (String.eqb_spec (Py.lower email) (Py.lower (User.email u)))
        as [E|Hne]; cbn [negb].
      + split; [|reflexivity]. intros _. exists u, email.
        split; [reflexivity|]. split; [now apply Hf24 | exact E].
      + split; [discriminate|]. intros (u' & email' & [= <-] & Hfr & E).
        apply Hf24 in Hfr. congruence.
    - split; [discriminate|]. intros (u' & email' & _ & Hfr & _).
      apply Hf24 in Hfr. congruence.
    - split; [discriminate|]. intros (u' & email' & _ & Hfr & _).
      apply Hf24 in Hfr. congruence. }
  split; [exact Hconfirm|]. split; [|split; [|split; [|split; [|split]]]].
  - intros u email Hu Hfr Hle Hlu. rewrite Hconfirm. split.
    + intros (u' & email' & Hu' & (st' & Hs' & _) & E).
      destruct Hfr as (st & Hs & _). congruence.
    + intros ->. exists u, (User.email u). auto.
  - intros Hc. apply Hconfirm in Hc as (u & email & Hu & Hfr & E).
    exists u. split; [exact Hu|].
    assert (out_db (confirm_email token db s rq) = update_user confirm (User.id u) db)
      as Hdb.
    { unfold confirm_email, login_required. rewrite Hu. cbn [is_authenticated].
      apply Hf24 in Hfr. rewrite Hfr. apply String.eqb_eq in E. now rewrite E. }
    split; [exact Hdb|]. rewrite Hdb. split; [|reflexivity].
    apply get_user_update; [reflexivity | now apply (current_user_get db s)].
  - unfold confirm_email, login_required, confirmed.
    destruct (current_user db s) as [u|]; cbn [is_authenticated]; [|reflexivity].
    destruct (loads _ _ _); try reflexivity.
    destruct (negb _); [reflexivity|]. intros Hne. now contradiction Hne.
  - unfold password_reset. intros Hacc.
    destruct (loads token (60 * 30) (now rq)) as [email| |] eqn:Hl.
    + exists email. now apply Hf30.
    + exfalso. destruct Hacc as [Hdb | (r & Hr)]; [now apply Hdb | discriminate].
    + exfalso. destruct Hacc as [Hdb | (r & Hr)]; [now apply Hdb | discriminate].
  - intros Hrej. unfold confirm_email, login_required.
    destruct (current_user db s) as [u|]; cbn [is_authenticated];
      [|repeat split; eauto].
    destruct Hrej as [Hx|Hx]; [apply He24 in Hx | apply Hb24 in Hx]; rewrite Hx;
      repeat split; eauto.
  - intros Hrej. unfold password_reset.
    destruct Hrej as [Hx|Hx]; [apply He30 in Hx | apply Hb30 in Hx]; rewrite Hx;
      repeat split; eauto.
Qed.

End AuthFacts.

(** *** The cart on the concrete platform *)

Section CartExamples.
#[local] Existing Instance Demo.env.
Import Utils Shop.


(** A cart with the largest quantity of 4300 digits; one more mug is added.
    The sum has 4301 digits: the request fails and the cart is the one the
    session had. *)
Lemma cart_add_beyond_limit :
  let s := Demo.guest_with {["1" := 10 ^ 4300 - 1]} in
  let rq := Demo.request POST [("qty", "1")] in
  get_product Demo.shop 1 = Some Demo.mug
  /\ form_qty rq = Some 1
  /\ cart_add 1 Demo.shop s rq = stop Demo.shop s (Raise Py.ValueError)
  /\ get_cart (out_session (cart_add 1 Demo.shop s rq)) !! "1"
     <> Some (10 ^ 4300 - 1 + Z.max 1 1).
Proof.
  cbv zeta.
  assert (cart_add 1 Demo.shop (Demo.guest_with {["1" := 10 ^ 4300 - 1]})
            (Demo.request POST [("qty", "1")])
          = stop Demo.shop (Demo.guest_with {["1" := 10 ^ 4300 - 1]})
              (Raise Py.ValueError)) as Hstop.
  { apply (cart_add_beyond 1 Demo.shop _ _ Demo.mug 1); [reflexivity..|].
    change (Py.str_fits (10 ^ 4300 - 1 + 1) = false).
    replace (10 ^ 4300 - 1 + 1) with (10 ^ 4300) by lia.
    exact (proj2 str_fits_limit). }
  split; [reflexivity|]. split; [reflexivity|]. split; [exact Hstop|].
  rewrite Hstop. cbn [stop out_session]. unfold get_cart, Demo.guest_with.
  cbn [cart_slot default from_option id].
  rewrite lookup_singleton_eq. intros [= E]; lia.
Qed.


Example cart_items_stale :
  cart_items Demo.shop (Demo.guest_with (<["1" := 2]> {["9" := 1]}))
  = inr ([{| product := Demo.mug; qty := 2;
             line_total := QArith_base.Qmake 1402 2 |}],
         QArith_base.Qmake 1402 2).
Proof. reflexivity. Qed.


(** A key that [int] accepts and [str] does not produce: the product is
    selected, and the quantity looked up under [str(p.id)] is 0. *)
Example cart_items_leading_zero :
  let s := out_session (cart_update Demo.shop Demo.guest
                          (Demo.request POST [("qty_01", "3")])) in
  get_cart s = {["01" := 3]}
  /\ match cart_items Demo.shop s with
     | inr (rows, _) => (fun r => (Product.id (product r), qty r)) <$> rows
     | inl _ => []
     end = [(1, 0)].
Proof. split; reflexivity. Qed.



(** The body
    [{"items": [{"pid": 1, "qty": 0.5}, {"pid": 2, "qty": 2.5},
                {"pid": "3", "qty": true}, {"pid": 4, "qty": null}]}]
    on a cart with two mugs, a shirt and four of product 4: [int] makes 0 of
    0.5, 2 of 2.5 and 1 of [true], and raises on [null].  The mugs go, the
    shirts become two, product 3 comes once and product 4 stays. *)
Example cart_update_api_floats_and_booleans :
  let s := Demo.guest_with (<["1" := 2]> (<["2" := 1]> {["4" := 4]})) in
  let items :=
    [JObj [("pid", JInt 1); ("qty", JFloat (QArith_base.Qmake 1 2))];
     JObj [("pid", JInt 2); ("qty", JFloat (QArith_base.Qmake 5 2))];
     JObj [("pid", JStr "3"); ("qty", JBool true)];
     JObj [("pid", JInt 4); ("qty", JNull)]] in
  let rq := Demo.json_request (JObj [("items", JArr items)]) in
  item_effect <$> items = [Some ("1", 0); Some ("2", 2); Some ("3", 1); None]
  /\ get_cart (out_session (cart_update_api Demo.shop s rq))
     = <["2" := 2]> (<["3" := 1]> {["4" := 4]}).
Proof. split; reflexivity. Qed.

(** A form value that starts with the separator U+001C is no integer for
    [int]: the product is left out. *)
Example cart_update_separator :
  get_cart (out_session (cart_update Demo.shop Demo.guest
                           (Demo.request POST
                              [("qty_1", String (ascii_of_N 28) "5");
                               ("qty_2", " 7 ")])))
  = {["2" := 7]}.
Proof. reflexivity. Qed.

(** The form field [qty_abc]: the key is stored as it came. *)
Example cart_update_form_keeps_key :
  get_cart (out_session (cart_update Demo.shop Demo.guest
                           (Demo.request POST [("qty_abc", "3")]))) !! "abc"
  = Some 3.
Proof. reflexivity. Qed.

End CartExamples.

(** *** Orders and the admin panel on the concrete platform *)

Section OrderExamples.
#[local] Existing Instance Demo.env.
Import Utils Shop Admin.


Example payment_success_unknown :
  payment_success Demo.shop_with_order Demo.guest
    (Demo.query GET [("order_id", "7")] 1000)
  = stop Demo.shop_with_order Demo.guest (Abort 404).
Proof. reflexivity. Qed.

(** [?order_id=%1C1]: [int] does not skip the separator U+001C, the
    parameter is unreadable and the answer is 404. *)
Example payment_success_separator :
  payment_success Demo.shop_with_order Demo.guest
    (Demo.query GET [("order_id", String (ascii_of_N 28) "1")] 1000)
  = stop Demo.shop_with_order Demo.guest (Abort 404).
Proof. reflexivity. Qed.

(** [?order_id=9223372036854775808]: the number 2^63 names no order, and
    SQLite cannot bind it: the lookup raises OverflowError, where a 404 was
    announced for an unknown [order_id]. *)
Lemma payment_success_beyond_sqlite :
  let rq := Demo.query GET [("order_id", "9223372036854775808")] 1000 in
  md_get_int "order_id" (args rq) = Some (2 ^ 63)
  /\ (forall o, o ∈ orders Demo.shop_with_order -> Order.id o <> 2 ^ 63)
  /\ payment_success Demo.shop_with_order Demo.guest rq
     = stop Demo.shop_with_order Demo.guest (Raise Py.OverflowError)
  /\ payment_success Demo.shop_with_order Demo.guest rq
     <> stop Demo.shop_with_order Demo.guest (Abort 404).
Proof.
  cbv zeta. split; [reflexivity|]. split.
  - intros o Ho. apply list_elem_of_singleton in Ho as ->. discriminate.
  - assert (payment_success Demo.shop_with_order Demo.guest
              (Demo.query GET [("order_id", "9223372036854775808")] 1000)
            = stop Demo.shop_with_order Demo.guest (Raise Py.OverflowError))
      as Hstop by reflexivity.
    split; [exact Hstop|]. rewrite Hstop. intros E.
    apply (f_equal out) in E. cbn [out stop] in E. discriminate E.
Qed.

(** Alice is logged in and is no administrator. *)
Lemma admin_gate_witness :
  let s := Demo.as_user Demo.alice ∅ in
  let rq := Demo.request POST [] in
  is_admin_session Demo.shop s = false
  /\ dispatch (RProductDelete 1) Demo.shop s rq = stop Demo.shop s (Abort 403).
Proof.
  split; [reflexivity|].
  exact (proj1 (proj1 (admin_gate (RProductDelete 1) Demo.shop
                         (Demo.as_user Demo.alice ∅) (Demo.request POST []))
                  eq_refl)).
Defined.

(** The same request from the administrator deletes the product. *)
Example admin_deletes_product :
  products (out_db (dispatch (RProductDelete 1) Demo.shop
                      (Demo.as_user Demo.root ∅) (Demo.request POST [])))
  = [Demo.shirt].
Proof. reflexivity. Qed.

(** C4, at the failing input. The administrator posts the status [new] for
    an order: the code is accepted and the reply announces an update, but no
    branch of the handler assigns the status, which stays what it was. *)
Theorem order_status_new_unchanged :
  let s := Demo.as_user Demo.root ∅ in
  let rq := Demo.request POST [("status", "new")] in
  let after := dispatch (ROrderStatus 1) Demo.shop_with_order s rq in
  Order.status <$> get_order Demo.shop_with_order 1 = Some ST_PROCESSING
  /\ out_db after = Demo.shop_with_order
  /\ Order.status <$> get_order (out_db after) 1 = Some ST_PROCESSING
  /\ out after
     = inr {| response := Redirect (Endpoint "admin.orders") 302;
              flashes := ["Статус заказа №1 обновлён → Обработка платежа"] |}.
Proof. cbv zeta. repeat split; reflexivity. Qed.

(** The other four codes at the same order. *)
Example order_status_four_codes :
  (fun code =>
     Order.status <$>
       get_order (out_db (dispatch (ROrderStatus 1) Demo.shop_with_order
                            (Demo.as_user Demo.root ∅)
                            (Demo.request POST [("status", code)]))) 1)
    <$> ["pending"; "awaiting_payment"; "paid"; "canceled"; " paid "; "shipped"]
  = [Some ST_PROCESSING; Some ST_AWAITING_ADMIN; Some ST_PAID; Some ST_CANCELED;
     Some ST_PAID; Some ST_PROCESSING].
Proof. reflexivity. Qed.

End OrderExamples.

(** *** Checkout on the concrete platform *)

Section CheckoutExamples.
#[local] Existing Instance Demo.env.
Import Utils Shop.


(** A quantity that SQLite cannot hold: the commit raises OverflowError, no
    order is stored and the cart stays. *)
Example checkout_quantity_beyond_sqlite :
  let s := Demo.guest_with {["1" := 2 ^ 63]} in
  let rq := Demo.request POST [("name", "Bob"); ("email", "bob@example.org");
                               ("address", "2 Side St")] in
  checkout Demo.shop s rq = stop Demo.shop s (Raise Py.OverflowError).
Proof. reflexivity. Qed.

(** A cart whose key is not the one that [str] gives the product: the item
    of the mug is stored with the quantity 0. *)
Example checkout_leading_zero :
  let s := Demo.guest_with (<["01" := 3]> {["2" := 1]}) in
  let rq := Demo.request POST [("name", "Bob"); ("email", "bob@example.org");
                               ("address", "2 Side St")] in
  (fun it => (OrderItem.product_id it, OrderItem.quantity it))
    <$> order_items (out_db (checkout Demo.shop s rq))
  = [(1, 0); (2, 1)].
Proof. reflexivity. Qed.

(** Bob and Carol, two guests, and Alice, who is logged in, each place an
    order; then Bob places another one. *)
Lemma checkout_numbers_orders_witness :
  let cart := {["1" := 2]} in
  let form email :=
    Demo.request POST [("name", "N"); ("email", email); ("address", "2 Side St")] in
  let db1 := out_db (checkout Demo.shop (Demo.guest_with cart)
                       (form "bob@example.org")) in
  let db2 := out_db (checkout db1 (Demo.guest_with cart) (form "carol@example.org")) in
  let db3 := out_db (checkout db2 (Demo.as_user Demo.alice cart)
                       (form "alice@example.org")) in
  let after := out_db (checkout db3 (Demo.guest_with cart) (form "bob@example.org")) in
  let second :=
    {| Order.id := 4; Order.user_id := None; Order.customer_name := "N";
       Order.email := "bob@example.org"; Order.address := "2 Side St";
       Order.status := ST_AWAITING_CHECKOUT; Order.user_order_no := Some 2;
       Order.stripe_session_id := None |} in
  (App.reachable db3 /\ orders after = (orders db3 ++ [second])%list)
  /\ customer_of <$> orders after
     = [Guest "bob@example.org"; Guest "carol@example.org"; Registered 1;
        Guest "bob@example.org"]
  /\ Order.user_order_no <$> orders after = [Some 1; Some 1; Some 1; Some 2]
  /\ customer_of second = Guest "bob@example.org"
  /\ Order.user_order_no second
     = Some (Z.of_nat (length (placed_by (Guest "bob@example.org") (orders db3))) + 1)
  /\ numbered_per_customer (orders after).
Proof.
  cbv zeta.
  pose (cart := ({["1" := 2]} : gmap string Z)).
  pose (form := fun email =>
          Demo.request POST [("name", "N"); ("email", email);
                             ("address", "2 Side St")]).
  pose (db1 := out_db (checkout Demo.shop (Demo.guest_with cart)
                         (form "bob@example.org"))).
  pose (db2 := out_db (checkout db1 (Demo.guest_with cart) (form "carol@example.org"))).
  pose (db3 := out_db (checkout db2 (Demo.as_user Demo.alice cart)
                         (form "alice@example.org"))).
  assert (App.reachable db3) as Hreach.
  { exact (App.reach_step db2 App.Checkout (Demo.as_user Demo.alice cart)
             (form "alice@example.org")
             (App.reach_step db1 App.Checkout (Demo.guest_with cart)
                (form "carol@example.org")
                (App.reach_step Demo.shop App.Checkout (Demo.guest_with cart)
                   (form "bob@example.org")
                   (App.reach_init Demo.shop eq_refl)))). }
  pose (second :=
          {| Order.id := 4; Order.user_id := None; Order.customer_name := "N";
             Order.email := "bob@example.org"; Order.address := "2 Side St";
             Order.status := ST_AWAITING_CHECKOUT; Order.user_order_no := Some 2;
             Order.stripe_session_id := None |}).
  assert (orders (out_db (checkout db3 (Demo.guest_with cart) (form "bob@example.org")))
          = (orders db3 ++ [second])%list) as Hnew by reflexivity.
  split; [split; [exact Hreach | exact Hnew]|].
  split; [reflexivity|]. split; [reflexivity|].
  pose proof (checkout_numbers_orders db3 (Demo.guest_with cart)
                (form "bob@example.org") second Hnew) as (Hc & _ & _ & Hr).
  split; [exact Hc|]. exact (Hr Hreach).
Defined.


(** The same with a name that is one no-break space, U+00A0. *)
Example checkout_no_break_space :
  let s := Demo.guest_with {["1" := 2]} in
  let nbsp := String (ascii_of_N 194) (String (ascii_of_N 160) "") in
  let rq := Demo.request POST [("name", nbsp); ("email", "bob@example.org");
                               ("address", "2 Side St")] in
  form_name rq = ""
  /\ checkout Demo.shop s rq
     = reply Demo.shop s (Render "checkout.html") ["Пожалуйста, заполните все поля"].
Proof. split; reflexivity. Qed.

End CheckoutExamples.

(** *** Registration and tokens on the concrete platform *)

Section AuthExamples.
#[local] Existing Instance Demo.env.
Import Utils Auth.

(** Carol registers; the view strips and lower-cases her email. *)
Lemma register_creates_iff_witness :
  let rq := Demo.request POST [("email", "  Carol@Example.org ");
                               ("password", "Secret1!")] in
  (method rq = POST /\ registrable Demo.shop rq)
  /\ users (out_db (register Demo.shop Demo.guest rq)) <> users Demo.shop.
Proof.
  cbv zeta.
  pose (rq := Demo.request POST [("email", "  Carol@Example.org ");
                                 ("password", "Secret1!")]).
  assert (registrable Demo.shop rq) as Hok.
  { split; [discriminate|]. split; [discriminate|].
    split; [now apply password_is_strong_spec | now apply user_by_email_None]. }
  split; [split; [reflexivity | exact Hok]|].
  exact (proj2 (proj1 (register_creates_iff Demo.shop Demo.guest rq eq_refl)) Hok).
Defined.

Example register_stores_email :
  User.email <$> users (out_db (register Demo.shop Demo.guest
                                  (Demo.request POST
                                     [("email", "  Carol@Example.org ");
                                      ("password", "Secret1!")])))
  = ["alice@example.org"; "root@example.org"; "carol@example.org"].
Proof. reflexivity. Qed.

(** Weak passwords, a taken email and a blank email, each with the reply. *)
Example register_refusals :
  (fun fields => out (register Demo.shop Demo.guest (Demo.request POST fields)))
    <$> [[("email", "carol@example.org"); ("password", "secret1!")];
         [("email", "carol@example.org"); ("password", "Secret!!")];
         [("email", "carol@example.org"); ("password", "Secret12")];
         [("email", "carol@example.org"); ("password", "Se1!")];
         [("email", "ALICE@example.org"); ("password", "Secret1!")];
         [("email", "   "); ("password", "Secret1!")]]
  = [inr {| response := Render "register.html";
            flashes := ["Пароль слишком простой: минимум 6 символов, 1 заглавная бука, 1 цифра и 1 спецсимвол"] |};
     inr {| response := Render "register.html";
            flashes := ["Пароль слишком простой: минимум 6 символов, 1 заглавная бука, 1 цифра и 1 спецсимвол"] |};
     inr {| response := Render "register.html";
            flashes := ["Пароль слишком простой: минимум 6 символов, 1 заглавная бука, 1 цифра и 1 спецсимвол"] |};
     inr {| response := Render "register.html";
            flashes := ["Пароль слишком простой: минимум 6 символов, 1 заглавная бука, 1 цифра и 1 спецсимвол"] |};
     inr {| response := Render "register.html";
            flashes := ["Такой пользователь уже существует"] |};
     inr {| response := Render "register.html";
            flashes := ["Укажите email и пароль"] |}].
Proof. reflexivity. Qed.

(** An email of blanks only with a strong password: the submitted email is
    not empty and no user has it, yet no user is created. *)
Lemma register_blank_email :
  let rq := Demo.request POST [("email", "   "); ("password", "Secret1!")] in
  (method rq = POST
   /\ default "" (md_get "email" (form rq)) <> ""
   /\ register_password rq <> ""
   /\ strong (register_password rq)
   /\ forall u, u ∈ users Demo.shop ->
                User.email u <> Py.lower (default "" (md_get "email" (form rq))))
  /\ register Demo.shop Demo.guest rq
     = reply Demo.shop Demo.guest (Render "register.html") ["Укажите email и пароль"]
  /\ users (out_db (register Demo.shop Demo.guest rq)) = users Demo.shop.
Proof.
  cbv zeta. split; [|split; reflexivity].
  split; [reflexivity|]. split; [discriminate|]. split; [discriminate|].
  split; [now apply password_is_strong_spec|].
  intros u Hu. repeat (apply elem_of_cons in Hu as [->|Hu]; [discriminate|]).
  inversion Hu.
Qed.

(** The length of a password is counted in characters: ["Aa1!é"] has five,
    in six bytes.  A letter outside a-z and A-Z counts as the special
    character (["Aa1bcdé"]) and not as the uppercase letter (["Éa1!bc"]);
    a digit of another script counts as the digit (["Aa!bc٣"]). *)
Example password_is_strong_characters :
  password_is_strong <$> ["Aa1!é"; "Aa1!éé"; "Aa1bcdé"; "Éa1!bc"; "Aa!bc٣"; "Aa1bcd"]
  = [false; true; true; false; true; false].
Proof. reflexivity. Qed.

(** An email that is one no-break space, U+00A0, is empty once stripped. *)
Example register_no_break_space :
  let nbsp := String (ascii_of_N 194) (String (ascii_of_N 160) "") in
  let rq := Demo.request POST [("email", nbsp); ("password", "Secret1!")] in
  register_email rq = ""
  /\ users (out_db (register Demo.shop Demo.guest rq)) = users Demo.shop.
Proof. split; reflexivity. Qed.

(** Alice's token, signed at second 1000 and used an hour later. *)
Lemma tokens_time_limited_witness :
  let token := sign "alice@example.org" 1000 in
  let s := Demo.as_user Demo.alice ∅ in
  let rq := Demo.query GET [] 4600 in
  (current_user Demo.shop s = Some Demo.alice
   /\ fresh token (60 * 60 * 24) (now rq) "alice@example.org")
  /\ out (confirm_email token Demo.shop s rq) = confirmed.
Proof.
  cbv zeta.
  assert (fresh (sign "alice@example.org" 1000) (60 * 60 * 24)
            (now (Demo.query GET [] 4600)) "alice@example.org") as Hfresh.
  { exists 1000. split; [reflexivity | cbn; lia]. }
  split; [split; [reflexivity | exact Hfresh]|].
  apply (proj1 (tokens_time_limited (sign "alice@example.org" 1000) Demo.shop
                  (Demo.as_user Demo.alice ∅) (Demo.query GET [] 4600))).
  exists Demo.alice, "alice@example.org". repeat split; [exact Hfresh].
Defined.

(** The last second of the 24 hours, the first one after them, a token
    from another key, and the 30 minutes of a reset. *)
Example token_limits :
  let token := sign "alice@example.org" 1000 in
  let s := Demo.as_user Demo.alice ∅ in
  out (confirm_email token Demo.shop s (Demo.query GET [] (1000 + 86400)))
  = confirmed
  /\ confirm_email token Demo.shop s (Demo.query GET [] (1000 + 86401))
     = reply Demo.shop s (Redirect (Endpoint "auth.profile") 302) ["Ссылка устарела."]
  /\ confirm_email "forged" Demo.shop s (Demo.query GET [] 1000)
     = reply Demo.shop s (Redirect (Endpoint "auth.profile") 302)
         ["Некорректная ссылка."]
  /\ out (password_reset token Demo.shop Demo.guest (Demo.query GET [] (1000 + 1800)))
     = inr {| response := Render "password_reset.html"; flashes := [] |}
  /\ password_reset token Demo.shop Demo.guest (Demo.query GET [] (1000 + 1801))
     = reply Demo.shop Demo.guest (Redirect (Endpoint "auth.password_forgot") 302)
         ["Ссылка устарела."].
Proof. cbv zeta. repeat split; reflexivity. Qed.

End AuthExamples.

(** * Further properties *)

(** ** The cart, from one request to the next *)

Section CartFlow.
Context `{Env}.
Import Utils Shop Replay.

Lemma insert_grows (cart : gmap string Z) (k : string) (n : Z) :
  positive_cart cart = true ->
  1 <= n ->
  let cart' := <[k := default 0 (cart !! k) + n]> cart in
  positive_cart cart' = true
  /\ forall k0 q, cart !! k0 = Some q -> exists q', cart' !! k0 = Some q' /\ q <= q'.
Proof.
  intros Hpos Hn cart'. subst cart'.
  assert (forall k q, cart !! k = Some q -> 0 < q) as Hall
    by now apply positive_cart_lookup.
  assert (0 <= default 0 (cart !! k)) as Hold.
  { destruct (cart !! k) as [q0|] eqn:E; cbn; [|lia].
    specialize (Hall _ _ E). lia. }
  split.
  - apply positive_cart_insert; [lia | exact Hpos].
  - intros k0 q Hk. destruct (decide (k = k0)) as [<-|Hne].
    + rewrite lookup_insert_eq, Hk. cbn. eexists. split; [reflexivity | lia].
    + rewrite lookup_insert_ne by exact Hne. exists q. split; [exact Hk | lia].
Qed.

(** X1. [cart_add] keeps the cart well formed: keys stay decimal product
    ids, quantities stay above zero, and no entry is removed or lowered. *)
Theorem cart_add_keeps_cart (pid : Z) (db : Db) (s : Session) (rq : Request) :
  canonical (get_cart s) = true ->
  positive_cart (get_cart s) = true ->
  let cart' := get_cart (out_session (cart_add pid db s rq)) in
  canonical cart' = true
  /\ positive_cart cart' = true
  /\ forall k q, get_cart s !! k = Some q ->
                 exists q', cart' !! k = Some q' /\ q <= q'.
Proof.
  intros Hc Hpos cart'. subst cart'.
  split; [now apply cart_add_canonical|].
  assert (positive_cart (get_cart s) = true
          /\ forall k q, get_cart s !! k = Some q ->
                         exists q', get_cart s !! k = Some q' /\ q <= q') as Hsame.
  { split; [exact Hpos|]. intros k q Hk. exists q. split; [exact Hk | lia]. }
  unfold cart_add.
  destruct (out_of_range pid); [exact Hsame|].
  destruct (get_product db pid) as [p|]; [|exact Hsame].
  destruct (form_qty rq) as [qty|]; [|exact Hsame].
  destruct (negb _); [exact Hsame|].
  case_bool_decide; unfold reply; cbn [out_session];
    rewrite get_cart_save_cart; (apply insert_grows; [exact Hpos | lia]).
Qed.






(** A cart that names no product of the table has no line and no total. *)
Lemma cart_items_nothing (db : Db) (s : Session) :
  canonical (get_cart s) = true ->
  bindable (get_cart s) = true ->
  (forall p, p ∈ products db -> get_cart s !! Py.str (Product.id p) = None) ->
  cart_items db s = inr ([], fzero).
Proof.
  intros Hc Hb Hnone. destruct (cart_ids_canonical _ Hc) as (ids & Hids & Hmem).
  unfold cart_items. rewrite Hids. cbn.
  rewrite (products_in_filter db ids (cart_ids_bindable _ _ Hb Hids)). cbn.
  assert (selected db ids = []) as ->; [|reflexivity].
  unfold selected.
  induction (products db) as [|p ps IH]; [reflexivity|].
  rewrite filter_cons_False.
  - apply IH. intros p' Hp'. apply Hnone. now right.
  - intros Hin. apply Hmem in Hin as [q Hq]. rewrite (Hnone p) in Hq by left.
    discriminate.
Qed.

Lemma checkout_nothing (db : Db) (s : Session) (rq : Request) :
  fle fzero fzero = true ->
  cart_items db s = inr ([], fzero) ->
  out_db (checkout db s rq) = db /\ out_session (checkout db s rq) = s.
Proof.
  intros Hle Hitems. unfold checkout. rewrite Hitems.
  destruct (method rq); [now split|].
  destruct (negb _); [now split|]. rewrite Hle. now split.
Qed.


(** Whenever [checkout] stores an order it empties the session cart. *)
Lemma checkout_created_clears (db : Db) (s : Session) (rq : Request) :
  orders (out_db (checkout db s rq)) <> orders db ->
  get_cart (out_session (checkout db s rq)) = ∅.
Proof.
  unfold checkout. repeat case_match; cbn; try congruence; reflexivity.
Qed.

Lemma checkout_products (db : Db) (s : Session) (rq : Request) :
  products (out_db (checkout db s rq)) = products db.
Proof. unfold checkout. repeat case_match; reflexivity. Qed.

(** X4. The same checkout form sent twice stores one order: the first
    success leaves an empty cart, and the second request changes nothing. *)
Theorem checkout_not_repeated (db : Db) (s : Session) (rq rq' : Request) :
  fle fzero fzero = true ->
  orders (out_db (checkout db s rq)) <> orders db ->
  let first := checkout db s rq in
  out_db (checkout (out_db first) (out_session first) rq') = out_db first
  /\ out_session (checkout (out_db first) (out_session first) rq')
     = out_session first.
Proof.
  intros Hle Hcreated first. subst first.
  apply checkout_nothing; [exact Hle|].
  pose proof (checkout_created_clears db s rq Hcreated) as Hempty.
  apply cart_items_nothing.
  - rewrite Hempty. reflexivity.
  - rewrite Hempty. reflexivity.
  - intros p _. rewrite Hempty. apply lookup_empty.
Qed.

(** X5. [checkout] only appends: users, categories, products and uploads
    are what they were, the orders and order items that existed are kept in
    place and unchanged, and at most one order is added. *)
Theorem checkout_only_appends (db : Db) (s : Session) (rq : Request) :
  users (out_db (checkout db s rq)) = users db
  /\ categories (out_db (checkout db s rq)) = categories db
  /\ products (out_db (checkout db s rq)) = products db
  /\ uploads (out_db (checkout db s rq)) = uploads db
  /\ (exists added,
        orders (out_db (checkout db s rq)) = (orders db ++ added)%list
        /\ (length added <= 1)%nat)
  /\ (exists items,
        order_items (out_db (checkout db s rq)) = (order_items db ++ items)%list).
Proof.
  assert (forall f fl r s',
            let order := checkout_order db s rq in
            forall rows,
            let o := reply (update_order f (Order.id order)
                       {| users := users db; categories := categories db;
                          products := products db;
                          orders := (orders db ++ [order])%list;
                          order_items := add_order_items (Order.id order) rows
                                           (order_items db);
                          uploads := uploads db |}) s' r fl in
            users (out_db o) = users db
            /\ categories (out_db o) = categories db
            /\ products (out_db o) = products db
            /\ uploads (out_db o) = uploads db
            /\ (exists added, orders (out_db o) = (orders db ++ added)%list
                              /\ (length added <= 1)%nat)
            /\ (exists items, order_items (out_db o) = (order_items db ++ items)%list))
    as Hcreate.
  { intros f fl r s' order rows o. subst o. unfold reply, update_order.
    cbn [out_db users categories products uploads orders order_items].
    repeat split.
    - rewrite update_fresh by (intros o Ho; now apply new_order_fresh).
      eexists. split; [reflexivity | cbn; lia].
    - destruct (add_order_items_spec (Order.id order) rows (order_items db))
        as (items & -> & _). eauto. }
  assert (users db = users db /\ categories db = categories db
          /\ products db = products db /\ uploads db = uploads db
          /\ (exists added, orders db = (orders db ++ added)%list
                            /\ (length added <= 1)%nat)
          /\ (exists items, order_items db = (order_items db ++ items)%list))
    as Hsame.
  { repeat split; exists []; rewrite app_nil_r; [split; [reflexivity | cbn; lia]
                                                | reflexivity]. }
  unfold checkout.
  destruct (cart_items db s) as [h|[rows total]]; [exact Hsame|].
  destruct (method rq); [exact Hsame|].
  destruct (negb _); [exact Hsame|].
  destruct (fle total fzero); [exact Hsame|].
  destruct (negb (storable _ _)); [exact Hsame|].
  destruct (env_truthy STRIPE_SECRET_KEY && env_truthy STRIPE_PUBLISHABLE_KEY);
    [destruct (stripe_session_create _ _ _) as [[sid pay_url]|]|];
    apply Hcreate.
Qed.

(** *** The JSON update, sent again *)

(** Whether an item raises does not depend on the cart. *)
Lemma api_item_any_cart (cart cart0 cart' : gmap string Z) (it : json) :
  api_item cart it = inr cart' -> api_item cart0 it = inr (apply_item cart0 it).
Proof.
  unfold api_item, apply_item, item_effect. destruct it; try discriminate.
  destruct (int_of_json _) as [e|n].
  - destruct (caught e); [reflexivity | discriminate].
  - destruct (Py.str_fits n); cbn [negb].
    2:{ now destruct (int_of_json _). }
    destruct (int_of_json _) as [e|q].
    + destruct (caught e); [reflexivity | discriminate].
    + intros _. destruct (Z.ltb_spec 0 q).
      * rewrite Z.max_r by lia. now destruct (Z.ltb_spec 0 q); [|lia].
      * now rewrite Z.max_l by lia.
Qed.

Lemma api_loop_any_cart (items : list json) :
  forall cart cart0 cart',
    api_loop cart items = inr cart' ->
    api_loop cart0 items = inr (fold_left apply_item items cart0).
Proof.
  induction items as [|it rest IH]; intros cart cart0 cart' Hloop; [reflexivity|].
  apply api_loop_cons in Hloop as (mid & Hit & Hrest).
  cbn. rewrite (api_item_any_cart _ cart0 _ _ Hit). cbn. eapply IH; eauto.
Qed.

Lemma apply_items_lookup (k : string) (items : list json) :
  forall cart,
    fold_left apply_item items cart !! k
    = match decided k items with
      | Some v => v
      | None => cart !! k
      end.
Proof.
  induction items as [|it rest IH]; intros cart; [reflexivity|].
  cbn [fold_left decided]. rewrite IH.
  destruct (decided k rest); [reflexivity|].
  unfold apply_item. destruct (item_effect it) as [[k' q]|]; [|reflexivity].
  destruct (decide (k' = k)) as [->|Hne].
  - destruct (0 <? q)%Z; [apply lookup_insert_eq | apply lookup_delete_eq].
  - destruct (0 <? q)%Z; [now apply lookup_insert_ne | now apply lookup_delete_ne].
Qed.

Lemma apply_items_twice (items : list json) (cart : gmap string Z) :
  fold_left apply_item items (fold_left apply_item items cart)
  = fold_left apply_item items cart.
Proof.
  apply map_eq. intros k. rewrite !apply_items_lookup.
  now destruct (decided k items).
Qed.

(** X6. The JSON update is idempotent: the same body sent a second time
    leaves the cart that the first request saved (and a body that makes the
    view raise leaves the cart alone both times). *)
Theorem cart_update_api_idempotent (db : Db) (s : Session) (rq : Request) :
  let once := cart_update_api db s rq in
  let twice := cart_update_api (out_db once) (out_session once) rq in
  get_cart (out_session twice) = get_cart (out_session once).
Proof.
  cbv zeta. rewrite !cart_update_api_session.
  destruct (api_cart s rq) as [h|cart1] eqn:Hfirst.
  - now rewrite Hfirst.
  - unfold api_cart in *. rewrite get_cart_save_cart.
    destruct (api_items rq) as [h|items]; [discriminate|]. cbn in *.
    rewrite (api_loop_any_cart items _ cart1 _ Hfirst).
    rewrite (api_loop_any_cart items _ (get_cart s) _ Hfirst) in Hfirst.
    injection Hfirst as <-. rewrite !get_cart_save_cart.
    apply apply_items_twice.
Qed.

End CartFlow.

(** ** Payment call-backs *)

Section PaymentFlow.
Context `{Env}.
Import Utils Shop.

Lemma set_status_twice (a b : string) (o : Order.t) :
  set_status a (set_status b o) = set_status a o.
Proof. reflexivity. Qed.

Lemma update_order_twice (a b : string) (oid : Z) (db : Db) :
  update_order (set_status a) oid (update_order (set_status b) oid db)
  = update_order (set_status a) oid db.
Proof.
  unfold update_order. cbn [users categories products orders order_items uploads].
  f_equal. rewrite <- list_fmap_compose. apply list_fmap_ext.
  intros i o _. cbn. destruct (Z.eqb_spec (Order.id o) oid) as [E|Hne]; cbn.
  - now rewrite E, Z.eqb_refl.
  - now destruct (Z.eqb_spec (Order.id o) oid).
Qed.


(** X8. The success call-back after the cancel call-back for the same order
    leaves the database that the success call-back alone would leave: a
    canceled order is marked paid again. *)
Theorem payment_success_after_cancel (db : Db) (s s' : Session)
    (rq rq' : Request) (oid : Z) :
  md_get_int "order_id" (args rq) = Some oid ->
  md_get_int "order_id" (args rq') = Some oid ->
  out_db (payment_success (out_db (payment_cancel db s rq)) s' rq')
  = out_db (payment_success db s' rq').
Proof.
  intros Harg Harg'. unfold payment_cancel, payment_success. rewrite Harg, Harg'.
  destruct (out_of_range oid) eqn:Hrange.
  { reflexivity. }
  destruct (get_order db oid) as [order|] eqn:Hget.
  - unfold reply. cbn [out_db].
    rewrite (get_order_id _ _ _ Hget), get_order_set_status, Z.eqb_refl, Hget.
    cbn [fmap option_fmap option_map out_db set_status Order.id].
    rewrite ?(get_order_id _ _ _ Hget). apply update_order_twice.
  - unfold stop. cbn [out_db]. now rewrite Hget.
Qed.

End PaymentFlow.

(** ** The admin views *)

Section AdminFlow.
Context `{Env}.
Import Utils Admin.

Lemma find_name_None (name : string) (cs : list Category.t) :
  find (fun c => String.eqb (Category.name c) name) cs = None ->
  name ∉ Category.name <$> cs.
Proof.
  induction cs as [|c cs IH]; cbn; [intros _ Hin; inversion Hin|].
  destruct (String.eqb_spec (Category.name c) name) as [E|Hne]; [discriminate|].
  intros Hf Hin. apply elem_of_cons in Hin as [E|Hin]; [now subst|].
  now apply IH.
Qed.

Lemma NoDup_fmap_filter {A B : Type} (f : A -> B) (P : A -> Prop)
    `{!forall x, Decision (P x)} (l : list A) :
  NoDup (f <$> l) -> NoDup (f <$> filter P l).
Proof.
  induction l as [|x l IH]; [trivial|]. cbn [fmap list_fmap]. intros Hnd.
  apply NoDup_cons in Hnd as [Hx Hnd].
  destruct (decide (P x)) as [HP|HP].
  - rewrite filter_cons_True by exact HP. cbn [fmap list_fmap].
    apply NoDup_cons. split; [|now apply IH].
    intros Hin. apply Hx. apply list_elem_of_fmap in Hin as (y & -> & Hy).
    apply list_elem_of_filter in Hy as [_ Hy]. apply list_elem_of_fmap. eauto.
  - rewrite filter_cons_False by exact HP. now apply IH.
Qed.

Lemma rename_ids (cid : Z) (name : string) (cs : list Category.t) :
  Category.id <$> ((fun c => if Z.eqb (Category.id c) cid
                             then {| Category.id := Category.id c;
                                     Category.name := name |}
                             else c) <$> cs)
  = Category.id <$> cs.
Proof.
  rewrite <- list_fmap_compose. apply list_fmap_ext. intros i c _. cbn.
  now destruct (Z.eqb (Category.id c) cid).
Qed.

Lemma rename_names (cid : Z) (name : string) (cs : list Category.t) :
  ~ Exists (fun c => Category.name c = name /\ Category.id c <> cid) cs ->
  NoDup (Category.id <$> cs) ->
  NoDup (Category.name <$> cs) ->
  NoDup (Category.name <$>
           ((fun c => if Z.eqb (Category.id c) cid
                      then {| Category.id := Category.id c;
                              Category.name := name |}
                      else c) <$> cs)).
Proof.
  induction cs as [|c cs IH]; [trivial|]. cbn [fmap list_fmap].
  intros Hex Hids Hnames.
  apply NoDup_cons in Hids as [Hid Hids]. apply NoDup_cons in Hnames as [Hname Hnames].
  assert (~ Exists (fun c => Category.name c = name /\ Category.id c <> cid) cs)
    as Hex' by (intros He; apply Hex; now apply Exists_cons_tl).
  apply NoDup_cons. split; [|now apply IH].
  intros Hin. apply list_elem_of_fmap in Hin as (y & Hy & Hin).
  apply list_elem_of_fmap in Hin as (c' & -> & Hin).
  destruct (Z.eqb_spec (Category.id c) cid) as [Ec|Hc];
    destruct (Z.eqb_spec (Category.id c') cid) as [Ec'|Hc']; cbn in Hy.
  - apply Hid. apply list_elem_of_fmap. exists c'. split; [congruence|exact Hin].
  - apply Hex'. apply Exists_exists. exists c'. split; [exact Hin|].
    split; [congruence|exact Hc'].
  - apply Hex. apply Exists_cons_hd. split; [congruence|exact Hc].
  - apply Hname. apply list_elem_of_fmap. exists c'. split; [exact Hy|exact Hin].
Qed.

(** X9. Every view of the admin blueprint keeps the names and the primary
    keys of the categories unique. *)
Theorem admin_keeps_categories_unique (r : Route) (db : Db) (s : Session)
    (rq : Request) :
  NoDup (Category.name <$> categories db) ->
  NoDup (Category.id <$> categories db) ->
  NoDup (Category.name <$> categories (out_db (view r db s rq)))
  /\ NoDup (Category.id <$> categories (out_db (view r db s rq))).
Proof.
  intros Hnames Hids.
  destruct r; cbn [view];
    unfold index, categories_view, category_new, category_edit, category_delete,
      products_view, product_new, product_edit, product_delete, orders_view,
      order_status, Admin.reply, Admin.stop, Shop.reply, Shop.stop;
    repeat case_match; cbn [out_db categories with_categories with_products
                              with_uploads Shop.update_order];
    try (split; assumption).
  - (* category_new *)
    rewrite !fmap_app. cbn [fmap list_fmap]. split.
    + apply NoDup_app. split; [exact Hnames|]. split; [|apply NoDup_singleton].
      intros x Hx Hin. apply list_elem_of_singleton in Hin as ->.
      revert Hx. apply find_name_None.
      match goal with
      | Hf : bool_decide (is_Some ?f) = false |- _ =>
          apply bool_decide_eq_false_1 in Hf; destruct f eqn:Ef;
          [exfalso; apply Hf; eauto | exact Ef]
      end.
    + apply NoDup_app. split; [exact Hids|]. split; [|apply NoDup_singleton].
      intros x Hx Hin. apply list_elem_of_singleton in Hin as ->.
      apply next_id_gt in Hx. cbn in Hx. lia.
  - (* category_edit *)
    split; [|now rewrite rename_ids].
    apply rename_names; [|exact Hids|exact Hnames].
    match goal with
    | Hf : bool_decide _ = false |- _ => now apply bool_decide_eq_false_1 in Hf
    end.
  - (* category_delete *)
    split; now apply NoDup_fmap_filter.
Qed.

Lemma edit_ids (pid : Z) (f : Product.t -> Product.t) (ps : list Product.t) :
  (forall p, Product.id (f p) = Product.id p) ->
  Product.id <$> ((fun p => if Z.eqb (Product.id p) pid then f p else p) <$> ps)
  = Product.id <$> ps.
Proof.
  intros Hf. rewrite <- list_fmap_compose. apply list_fmap_ext. intros i p _. cbn.
  destruct (Z.eqb (Product.id p) pid); [apply Hf|reflexivity].
Qed.

Lemma detach_ids (cid : Z) (ps : list Product.t) :
  Product.id <$> ((fun p => if bool_decide (Product.category_id p = Some cid)
                            then set_category None p else p) <$> ps)
  = Product.id <$> ps.
Proof.
  rewrite <- list_fmap_compose. apply list_fmap_ext. intros i p _. cbn.
  now case_bool_decide.
Qed.

(** X10. Every view of the admin blueprint keeps the primary keys of the
    products unique: a new product gets a key above every key of the table,
    an edit and the deletion of a category keep the keys, a deletion removes
    one. *)
Theorem admin_keeps_product_ids_unique (r : Route) (db : Db) (s : Session)
    (rq : Request) :
  NoDup (Product.id <$> products db) ->
  NoDup (Product.id <$> products (out_db (view r db s rq))).
Proof.
  intros Hids.
  destruct r; cbn [view];
    unfold index, categories_view, category_new, category_edit, category_delete,
      products_view, product_new, product_edit, product_delete, orders_view,
      order_status, Admin.reply, Admin.stop, Shop.reply, Shop.stop;
    repeat case_match; cbn [out_db products with_categories with_products
                              with_uploads Shop.update_order];
    try assumption;
    try (rewrite detach_ids; assumption);
    try (rewrite edit_ids by reflexivity; assumption);
    try (now apply NoDup_fmap_filter).
  all: rewrite fmap_app; cbn [fmap list_fmap]; apply NoDup_app;
    (split; [exact Hids|]); (split; [|apply NoDup_singleton]);
    intros x Hx Hin; apply list_elem_of_singleton in Hin as ->;
    apply next_id_gt in Hx; cbn in Hx; lia.
Qed.

Lemma get_category_filter (cid k : Z) (cs : list Category.t) :
  find (fun c => Z.eqb (Category.id c) k) (filter (fun c => Category.id c ≠ cid) cs)
  = if Z.eqb k cid then None else find (fun c => Z.eqb (Category.id c) k) cs.
Proof.
  induction cs as [|c cs IH]; [now destruct (Z.eqb k cid)|].
  destruct (decide (Category.id c ≠ cid)) as [Hc|Hc].
  - rewrite filter_cons_True by exact Hc. cbn. rewrite IH.
    destruct (Z.eqb_spec (Category.id c) k) as [E|Hk]; [|reflexivity].
    destruct (Z.eqb_spec k cid); [congruence|reflexivity].
  - rewrite filter_cons_False by exact Hc. rewrite IH. cbn.
    destruct (Z.eqb_spec k cid) as [E|Hk]; [reflexivity|].
    destruct (Z.eqb_spec (Category.id c) k) as [E|Hk']; [|reflexivity].
    exfalso. apply Hc. intros Hcid. congruence.
Qed.

(** X11. Deleting a category removes its row and clears the
    [category_id] of the products that had it: afterwards the key finds no
    category, every other key finds what it found, no product refers to the
    deleted category, the products keep their keys, and a product of another
    category is still in the table as it was. *)
Theorem category_delete_detaches (cid : Z) (db : Db) (s : Session) (rq : Request) :
  is_Some (get_category db cid) ->
  get_category (out_db (category_delete cid db s rq)) cid = None
  /\ (forall k, k <> cid ->
        get_category (out_db (category_delete cid db s rq)) k = get_category db k)
  /\ (forall p, p ∈ products (out_db (category_delete cid db s rq)) ->
        Product.category_id p <> Some cid)
  /\ Product.id <$> products (out_db (category_delete cid db s rq))
     = Product.id <$> products db
  /\ (forall p, p ∈ products db -> Product.category_id p <> Some cid ->
        p ∈ products (out_db (category_delete cid db s rq))).
Proof.
  intros [c Hc]. unfold category_delete.
  rewrite (get_category_in_range _ _ _ Hc), Hc.
  unfold Admin.reply, Shop.reply, get_category.
  cbn [out_db products categories with_products with_categories].
  repeat split.
  - destruct (sqlite_int cid); [|reflexivity].
    now rewrite get_category_filter, Z.eqb_refl.
  - intros k Hk. destruct (sqlite_int k); [|reflexivity].
    rewrite get_category_filter. now destruct (Z.eqb_spec k cid).
  - intros p Hp. apply list_elem_of_fmap in Hp as (q & -> & Hq).
    case_bool_decide as Hcat; [discriminate|exact Hcat].
  - apply detach_ids.
  - intros p Hp Hcat. apply list_elem_of_fmap. exists p. split; [|exact Hp].
    now rewrite bool_decide_eq_false_2.
Qed.

Lemma rows_filter (cart : gmap string Z) (pid : Z) (ps : list Product.t) :
  filter (fun r => Product.id (product r) ≠ pid) (line_of cart <$> ps)
  = line_of cart <$> filter (fun p => Product.id p ≠ pid) ps.
Proof.
  induction ps as [|p ps IH]; [reflexivity|]. cbn [fmap list_fmap].
  destruct (decide (Product.id p ≠ pid)) as [Hp|Hp].
  - rewrite !filter_cons_True by exact Hp. cbn [fmap list_fmap]. now rewrite <- IH.
  - rewrite !filter_cons_False by exact Hp. exact IH.
Qed.

Lemma selected_delete (pid : Z) (db : Db) (ids : list Z) :
  selected
    (with_products (filter (fun p => Product.id p ≠ pid) (products db)) db) ids
  = filter (fun p => Product.id p ≠ pid) (selected db ids).
Proof.
  unfold selected. cbn [products with_products].
  rewrite !list_filter_filter. apply list_filter_iff. intros p. tauto.
Qed.

Lemma products_in_delete (pid : Z) (db : Db) (ids : list Z) :
  products_in db ids = inr (selected db ids) ->
  products_in
    (with_products (filter (fun p => Product.id p ≠ pid) (products db)) db) ids
  = inr (filter (fun p => Product.id p ≠ pid) (selected db ids)).
Proof.
  unfold products_in. destruct ids as [|i ids].
  - intros _. now rewrite selected_nil.
  - destruct (forallb sqlite_int (i :: ids)); [|discriminate].
    intros _. unfold mret, result_ret. f_equal. apply selected_delete.
Qed.

(** X12. After an administrator deleted a product, [cart_items] on a cart
    that it accepted before returns the rows it returned before without the
    row of that product, and the total is the sum over the rows that are
    left: a cart that still names the product shows no line for it. *)
Theorem product_delete_drops_line (pid : Z) (db : Db) (s0 s : Session)
    (rq : Request) (rows : list Row) (total : float) :
  is_Some (get_product db pid) ->
  cart_items db s = inr (rows, total) ->
  let left := filter (fun r => Product.id (product r) ≠ pid) rows in
  cart_items (out_db (product_delete pid db s0 rq)) s
  = inr (left,
         fold_left (fun t r => fadd t (fmul_int (Product.price (product r)) (qty r)))
           left fzero).
Proof.
  intros [p Hp] Hrows left. subst left.
  apply cart_items_rows in Hrows as (ids & Hids & Hsel & -> & _ & Hfits).
  unfold product_delete. rewrite (get_product_in_range _ _ _ Hp), Hp.
  unfold Admin.reply, Shop.reply. cbn [out_db].
  unfold cart_items. rewrite Hids. cbn.
  rewrite (products_in_delete pid db ids Hsel). cbn.
  rewrite cart_items_from_fits.
  - cbn [app]. now rewrite rows_filter.
  - apply Forall_forall. intros q Hq. apply list_elem_of_filter in Hq as [_ Hq].
    revert q Hq. now apply Forall_forall.
Qed.

Lemma set_status_same (o : Order.t) : Shop.set_status (Order.status o) o = o.
Proof. now destruct o. Qed.

Lemma translate_label (code label : string) :
  translate code = Some label ->
  label ∈ [ST_PROCESSING; ST_AWAITING_ADMIN; ST_PAID; ST_CANCELED].
Proof.
  unfold translate. intros Ht.
  repeat case_match; try discriminate; injection Ht as <-.
  - apply list_elem_of_here.
  - do 1 apply list_elem_of_further. apply list_elem_of_here.
  - do 2 apply list_elem_of_further. apply list_elem_of_here.
  - do 3 apply list_elem_of_further. apply list_elem_of_here.
Qed.

(** X13. [order_status] touches nothing but the status of the order of its
    URL: users, categories, products, order items, uploads and the session
    stay, every other order stays, and the order itself keeps its key, its
    customer, its address and its number, with a status that is the one it
    had or one of the four labels of the view. *)
Theorem order_status_frame (oid : Z) (db : Db) (s : Session) (rq : Request) :
  users (out_db (order_status oid db s rq)) = users db
  /\ categories (out_db (order_status oid db s rq)) = categories db
  /\ products (out_db (order_status oid db s rq)) = products db
  /\ order_items (out_db (order_status oid db s rq)) = order_items db
  /\ uploads (out_db (order_status oid db s rq)) = uploads db
  /\ out_session (order_status oid db s rq) = s
  /\ (forall pk, pk <> oid ->
        get_order (out_db (order_status oid db s rq)) pk = get_order db pk)
  /\ (forall o, get_order db oid = Some o ->
        exists st,
          st ∈ Order.status o
               :: [ST_PROCESSING; ST_AWAITING_ADMIN; ST_PAID; ST_CANCELED]
          /\ get_order (out_db (order_status oid db s rq)) oid
             = Some (Shop.set_status st o)).
Proof.
  unfold order_status.
  destruct (get_order db oid) as [order|] eqn:Hget;
    [rewrite (get_order_in_range _ _ _ Hget)
    |destruct (out_of_range oid);
      unfold Admin.stop, Shop.stop; cbn [out_db out_session];
      repeat split; intros; discriminate].
  assert (exists st,
             st ∈ Order.status order
                  :: [ST_PROCESSING; ST_AWAITING_ADMIN; ST_PAID; ST_CANCELED]
             /\ Some order = Some (Shop.set_status st order)) as Hsame.
  { exists (Order.status order). split; [apply list_elem_of_here|].
    now rewrite set_status_same. }
  unfold Admin.reply, Shop.reply.
  case_bool_decide as Hcode; cbn [out_db out_session];
    [|repeat split; intros o [= <-]; rewrite ?Hget; exact Hsame].
  destruct (translate _) as [label|] eqn:Ht;
    [|repeat split; intros o [= <-]; rewrite ?Hget; exact Hsame].
  cbn [users categories products order_items uploads Shop.update_order].
  repeat split.
  - intros pk Hpk. rewrite get_order_set_status. now destruct (Z.eqb_spec pk oid).
  - intros o [= <-]. exists label. split.
    + apply list_elem_of_further. exact (translate_label _ _ Ht).
    + now rewrite get_order_set_status, Z.eqb_refl, Hget.
Qed.

Lemma after_last_dot_None (s : string) :
  Py.any_char (Ascii.eqb ".") s = false -> after_last_dot s = None.
Proof.
  induction s as [|c s IH]; cbn [Py.any_char after_last_dot]; [reflexivity|].
  intros Hs. apply orb_false_iff in Hs as [Hc Hs]. rewrite (IH Hs).
  now rewrite Ascii.eqb_sym, Hc.
Qed.

Lemma after_last_dot_app (base ext : string) :
  Py.any_char (Ascii.eqb ".") ext = false ->
  after_last_dot (base +:+ "." +:+ ext) = Some ext.
Proof.
  intros Hext. induction base as [|c base IH].
  - change (after_last_dot (String "." ext) = Some ext).
    cbn [after_last_dot]. now rewrite (after_last_dot_None _ Hext).
  - change (after_last_dot (String c (base +:+ "." +:+ ext)) = Some ext).
    cbn [after_last_dot]. now rewrite IH.
Qed.

(** X14. [allowed_file] looks only at what follows the last dot, whatever
    its case: a name [base.ext] whose [ext] has no dot is allowed exactly
    when [ext] in lower case is one of png, jpg, jpeg, gif and webp, whatever
    [base] holds (dots, slashes, another extension); a name without a dot
    is refused. *)
Theorem allowed_file_by_extension (base ext : string) :
  (Py.any_char (Ascii.eqb ".") ext = false ->
   allowed_file (base +:+ "." +:+ ext)
   = bool_decide (Py.lower ext ∈ ["png"; "jpg"; "jpeg"; "gif"; "webp"]))
  /\ (Py.any_char (Ascii.eqb ".") base = false -> allowed_file base = false).
Proof.
  unfold allowed_file. split; intros Hdot.
  - now rewrite after_last_dot_app.
  - now rewrite after_last_dot_None.
Qed.

End AdminFlow.

(** ** The site as a whole *)

Section SiteFlow.
Context `{Env} `{!Werkzeug}.
Import Utils Auth Account Replay.

Ltac outcome :=
  unfold Admin.reply, Admin.stop, Auth.reply, Auth.stop, Shop.reply, Shop.stop;
  cbn [out_db out_session out].

Ltac users_kept := left; reflexivity.

Ltac users_updated :=
  right; left; unfold update_user, with_users; cbn [users];
  eexists _, _; split; [|reflexivity]; intros u; repeat split.

Lemma admin_users (r : Admin.Route) (db : Db) (s : Session) (rq : Request) :
  users (out_db (Admin.dispatch r db s rq)) = users db.
Proof.
  unfold Admin.dispatch, login_required.
  destruct (Admin._check_admin db s); [reflexivity|].
  destruct (is_authenticated _); [|reflexivity].
  destruct r; cbn [Admin.view];
    unfold Admin.index, Admin.categories_view, Admin.category_new,
      Admin.category_edit, Admin.category_delete, Admin.products_view,
      Admin.product_new, Admin.product_edit, Admin.product_delete,
      Admin.orders_view, Admin.order_status;
    repeat first [reflexivity | progress outcome | case_match].
Qed.

Lemma checkout_users (db : Db) (s : Session) (rq : Request) :
  users (out_db (Shop.checkout db s rq)) = users db.
Proof.
  unfold Shop.checkout.
  repeat first [reflexivity | progress outcome | case_match].
Qed.

Lemma register_users (db : Db) (s : Session) (rq : Request) :
  users_step (users db) (users (out_db (register db s rq))).
Proof.
  unfold register. repeat case_match; outcome; try users_kept.
  right; right. eexists. split; [reflexivity|]. cbn. repeat split.
  match goal with
  | Hf : bool_decide (is_Some (user_by_email _ _)) = false |- _ =>
      apply bool_decide_eq_false_1 in Hf; intros Hin;
      apply list_elem_of_fmap in Hin as (u & E & Hu); apply Hf;
      destruct (user_by_email db (register_email rq)) as [v|] eqn:Hv; [eauto|];
      exfalso; revert Hv; rewrite user_by_email_None; intros Hv;
      now apply (Hv u Hu)
  end.
Qed.

Lemma site_users (e : Site.Rule) (db : Db) (s : Session) (rq : Request) :
  users_step (users db) (users (out_db (Site.handle e db s rq))).
Proof.
  destruct e as [e| | | | | |]; cbn [Site.handle].
  - destruct e; cbn [App.handle];
      try (left; apply admin_users); try (left; apply checkout_users);
      try apply register_users;
      unfold Shop.cart_add, Shop.cart_update_api, Shop.cart_update,
        Shop.cart_clear, Shop.payment_success, Shop.payment_cancel,
        confirm_email, password_reset, login_required;
      repeat case_match; outcome; try users_kept; users_updated.
  - unfold login. repeat case_match; outcome; users_kept.
  - unfold logout, login_required. repeat case_match; outcome; users_kept.
  - unfold send_confirm_email, login_required.
    repeat case_match; outcome; users_kept.
  - unfold password_forgot. repeat case_match; outcome; users_kept.
  - unfold account_order, login_required. repeat case_match; outcome; users_kept.
  - unfold profile, login_required.
    repeat case_match; outcome; try users_kept; users_updated.
Qed.

Lemma users_step_unique (us us' : list User.t) :
  users_step us us' ->
  NoDup (User.email <$> us) -> NoDup (User.id <$> us) ->
  NoDup (User.email <$> us') /\ NoDup (User.id <$> us').
Proof.
  intros [->|[(f & uid & Hf & ->)|(u & -> & _ & Hemail & Hid)]] Hemails Hids.
  - now split.
  - assert (forall g : User.t -> User.t,
               (forall u, User.id (g u) = User.id u /\ User.email (g u) = User.email u) ->
               User.email <$> (g <$> us) = User.email <$> us
               /\ User.id <$> (g <$> us) = User.id <$> us) as Hmap.
    { intros g Hg. rewrite <- !list_fmap_compose.
      split; apply list_fmap_ext; intros i u _; cbn; apply Hg. }
    destruct (Hmap (fun u => if Z.eqb (User.id u) uid then f u else u)) as [-> ->];
      [|now split].
    intros u. destruct (Z.eqb (User.id u) uid); [|now split].
    destruct (Hf u) as (? & ? & _). now split.
  - rewrite !fmap_app. cbn [fmap list_fmap]. split.
    + apply NoDup_app. split; [exact Hemails|]. split; [|apply NoDup_singleton].
      intros x Hx Hin. apply list_elem_of_singleton in Hin as ->. now apply Hemail.
    + apply NoDup_app. split; [exact Hids|]. split; [|apply NoDup_singleton].
      intros x Hx Hin. apply list_elem_of_singleton in Hin as ->.
      apply next_id_gt in Hx. lia.
Qed.

Lemma users_step_admins (us us' : list User.t) :
  users_step us us' ->
  User.id <$> filter (fun u => User.is_admin u = true) us'
  = User.id <$> filter (fun u => User.is_admin u = true) us.
Proof.
  intros [->|[(f & uid & Hf & ->)|(u & -> & Hadmin & _)]].
  - reflexivity.
  - induction us as [|u us IH]; [reflexivity|]. cbn [fmap list_fmap].
    assert (User.id (if Z.eqb (User.id u) uid then f u else u) = User.id u
            /\ User.is_admin (if Z.eqb (User.id u) uid then f u else u)
               = User.is_admin u) as [Hid Hadm].
    { destruct (Z.eqb (User.id u) uid); [|now split].
      destruct (Hf u) as (? & _ & ?). now split. }
    destruct (User.is_admin u) eqn:Hu.
    + rewrite !filter_cons_True by congruence. cbn [fmap list_fmap].
      now rewrite Hid, IH.
    + rewrite !filter_cons_False by congruence. exact IH.
  - rewrite filter_app, filter_cons_False by congruence.
    now rewrite filter_nil, app_nil_r.
Qed.

(** X15. Whatever requests the site serves, to whatever sessions, the
    emails and the primary keys of the users stay unique. *)
Theorem site_keeps_users_unique (trace : list (Site.Rule * Session * Request))
    (db : Db) :
  NoDup (User.email <$> users db) ->
  NoDup (User.id <$> users db) ->
  NoDup (User.email <$> users (Site.run trace db))
  /\ NoDup (User.id <$> users (Site.run trace db)).
Proof.
  revert db. induction trace as [|[[e s] rq] trace IH]; intros db Hemails Hids.
  - now split.
  - cbn [Site.run].
    destruct (users_step_unique _ _ (site_users e db s rq) Hemails Hids).
    now apply IH.
Qed.

(** X16. No request grants or withdraws the administrator flag: after any
    sequence of requests the administrators are the users who were
    administrators before, in the same order. *)
Theorem site_never_grants_admin (trace : list (Site.Rule * Session * Request))
    (db : Db) :
  User.id <$> filter (fun u => User.is_admin u = true) (users (Site.run trace db))
  = User.id <$> filter (fun u => User.is_admin u = true) (users db).
Proof.
  revert db. induction trace as [|[[e s] rq] trace IH]; intros db; [reflexivity|].
  cbn [Site.run]. rewrite IH. apply users_step_admins, site_users.
Qed.

(** *** Registration, login and the links *)

Lemma find_app_new {A : Type} (p : A -> bool) (l : list A) (x : A) :
  find p l = None -> p x = true -> find p (l ++ [x])%list = Some x.
Proof.
  intros Hl Hx. induction l as [|a l IH]; cbn in *; [now rewrite Hx|].
  destruct (p a); [discriminate|]. now apply IH.
Qed.

Lemma get_user_fresh (db : Db) : get_user db (next_id (User.id <$> users db)) = None.
Proof.
  unfold get_user. destruct (find _ _) as [u|] eqn:Hf; [|reflexivity].
  apply find_some in Hf as [Hu E]. apply Z.eqb_eq in E.
  apply list_elem_of_In in Hu.
  assert (User.id u ∈ User.id <$> users db) as Hin
      by (apply list_elem_of_fmap; eauto).
  apply next_id_gt in Hin. lia.
Qed.

(** What a registration that passes the tests of the view does. *)
Lemma register_creates (db : Db) (s : Session) (rq : Request) :
  method rq = POST -> registrable db rq ->
  register db s rq
  = reply
      (with_users
         (users db ++ [new_user db (register_email rq) (register_password rq)])%list db)
      s (Redirect (Endpoint "auth.login") 302)
      ["Регистрация прошла успешно. Подтвердите email: "
       +:+ confirm_link (sign (register_email rq) (now rq))].
Proof.
  intros Hpost (He & Hp & Hs & Hu). unfold register. rewrite Hpost.
  apply truthy_iff in He. apply truthy_iff in Hp.
  apply password_is_strong_spec in Hs. apply user_by_email_None in Hu.
  rewrite He, Hp, Hs, Hu. cbn [negb orb].
  rewrite bool_decide_eq_false_2 by (intros [? ?]; discriminate). reflexivity.
Qed.

Lemma registered_by_email (db : Db) (email password : string) :
  (forall u, u ∈ users db -> User.email u <> email) ->
  user_by_email (with_users (users db ++ [new_user db email password])%list db) email
  = Some (new_user db email password).
Proof.
  intros Hu. apply user_by_email_None in Hu. unfold user_by_email in *.
  cbn [users with_users]. apply find_app_new; [exact Hu|]. cbn.
  apply String.eqb_refl.
Qed.

Lemma registered_by_id (db : Db) (email password : string) :
  get_user (with_users (users db ++ [new_user db email password])%list db)
    (User.id (new_user db email password))
  = Some (new_user db email password).
Proof.
  unfold get_user. cbn [users with_users].
  apply find_app_new; [apply (get_user_fresh db)|]. apply Z.eqb_refl.
Qed.

(** What [login] does with the right password. *)
Lemma login_accepts (db : Db) (s : Session) (rq : Request) (u : User.t)
    (password : string) :
  method rq = POST ->
  user_by_email db (Py.lower (Py.strip (default "" (md_get "email" (form rq)))))
  = Some u ->
  default "" (md_get "password" (form rq)) = password ->
  check_password u password = true ->
  out_db (login db s rq) = db
  /\ out_session (login db s rq) = login_user u s.
Proof.
  intros Hpost Hu Hp Hcheck. unfold login. rewrite Hpost, Hu, Hp, Hcheck.
  now split.
Qed.

(** X17. A visitor who registered can log in: after a registration that
    the view accepts, a login form with the same email and password opens a
    session for the new user, and changes neither the database nor the cart
    of the session. *)
Theorem register_then_login (db : Db) (s s' : Session) (rq rq' : Request) :
  method rq = POST ->
  registrable db rq ->
  method rq' = POST ->
  Py.lower (Py.strip (default "" (md_get "email" (form rq')))) = register_email rq ->
  default "" (md_get "password" (form rq')) = register_password rq ->
  let db' := out_db (register db s rq) in
  let s'' := out_session (login db' s' rq') in
  current_user db' s''
  = Some (new_user db (register_email rq) (register_password rq))
  /\ out_db (login db' s' rq') = db'
  /\ cart_slot s'' = cart_slot s'.
Proof.
  intros Hpost Hreg Hpost' Hemail Hpwd db' s''. subst db' s''.
  rewrite (register_creates db s rq Hpost Hreg). unfold Auth.reply, Shop.reply.
  cbn [out_db].
  destruct Hreg as (_ & _ & _ & Hu).
  edestruct (login_accepts
               (with_users
                  (users db ++ [new_user db (register_email rq) (register_password rq)])%list
                  db) s' rq') as [Hdb Hs]; [exact Hpost'| | exact Hpwd | |].
  - rewrite Hemail. now apply registered_by_email.
  - apply check_generated.
  - rewrite Hdb, Hs. repeat split.
    unfold current_user. cbn [login_id login_user]. apply registered_by_id.
Qed.

(** X18. The link that [send_confirm_email] shows confirms the email: for
    a logged-in user whose email is not confirmed the view shows a link with
    a token over the user's email and changes nothing, and when the
    serializer reads that token back, [confirm_email] with it, within 24
    hours, sets [email_confirmed] on that user. *)
Theorem confirm_link_confirms (db : Db) (s : Session) (rq rq' : Request)
    (u : User.t) :
  current_user db s = Some u ->
  User.email_confirmed u = false ->
  unsign (sign (User.email u) (now rq)) = Some (User.email u, now rq) ->
  0 <= now rq' - now rq <= 60 * 60 * 24 ->
  send_confirm_email db s rq
  = reply db s (Redirect (Endpoint "auth.profile") 302)
      ["Ссылка для подтверждения email: "
       +:+ confirm_link (sign (User.email u) (now rq))]
  /\ out (confirm_email (sign (User.email u) (now rq)) db s rq') = confirmed
  /\ get_user (out_db (confirm_email (sign (User.email u) (now rq)) db s rq'))
       (User.id u)
     = Some (confirm u).
Proof.
  intros Hu Hconf Hback Hage.
  assert (loads (sign (User.email u) (now rq)) (60 * 60 * 24) (now rq')
          = Loaded (User.email u)) as Hl.
  { apply loads_fresh. exists (now rq). now split. }
  unfold send_confirm_email, confirm_email, login_required.
  rewrite Hu, Hconf, Hl. cbn [is_authenticated]. rewrite String.eqb_refl.
  cbn [negb]. unfold Auth.reply, Shop.reply. cbn [out out_db].
  repeat split. apply get_user_update; [reflexivity|].
  exact (current_user_get db s u Hu).
Qed.

(** [str.lower] changes nothing in a string that it produced. *)
Lemma lower_lower (x : string) : Py.lower (Py.lower x) = Py.lower x.
Proof. apply Py.unicode_lower_idem. Qed.

(** What [password_reset] does with a good token and a good form. *)
Lemma password_reset_sets (token email pwd : string) (t : Z) (db : Db)
    (s : Session) (rq : Request) (u : User.t) :
  unsign token = Some (email, t) ->
  0 <= now rq - t <= 60 * 30 ->
  user_by_email db (Py.lower email) = Some u ->
  method rq = POST ->
  md_get "password" (form rq) = Some pwd ->
  md_get "password2" (form rq) = Some pwd ->
  password_is_strong pwd = true ->
  password_reset token db s rq
  = reply (update_user (set_password pwd) (User.id u) db) s
      (Redirect (Endpoint "auth.login") 302) ["Пароль изменён."].
Proof.
  intros Hback Hage Hu Hpost Hp Hp2 Hstrong.
  assert (loads token (60 * 30) (now rq) = Loaded email) as Hl.
  { apply loads_fresh. exists t. now split. }
  unfold password_reset. rewrite Hl, Hu, Hpost, Hp, Hp2.
  change (default "" (Some pwd)) with pwd.
  now rewrite String.eqb_refl, Hstrong.
Qed.

Lemma user_by_email_update (f : User.t -> User.t) (db : Db) (email : string)
    (u : User.t) :
  (forall v, User.email (f v) = User.email v) ->
  user_by_email db email = Some u ->
  user_by_email (update_user f (User.id u) db) email = Some (f u).
Proof.
  intros Hf. unfold user_by_email, update_user, with_users. cbn [users].
  induction (users db) as [|v vs IH]; [discriminate|]. cbn.
  destruct (String.eqb (User.email v) email) eqn:Hv.
  - intros [= ->]. now rewrite Z.eqb_refl, Hf, Hv.
  - intros Hfind.
    assert (User.email (if Z.eqb (User.id v) (User.id u) then f v else v)
            = User.email v) as ->
        by (destruct (Z.eqb _ _); [apply Hf|reflexivity]).
    rewrite Hv. now apply IH.
Qed.

(** X19. The confirmation token that [register] shows also resets the
    password: when the serializer reads it back, [password_reset] with that
    token, within 30 minutes and without any session, replaces the password
    of the new user by the one of the form. *)
Theorem confirmation_token_resets_password (db : Db) (s s' : Session)
    (rq rq' : Request) (pwd : string) :
  method rq = POST ->
  registrable db rq ->
  unsign (sign (register_email rq) (now rq)) = Some (register_email rq, now rq) ->
  0 <= now rq' - now rq <= 60 * 30 ->
  method rq' = POST ->
  md_get "password" (form rq') = Some pwd ->
  md_get "password2" (form rq') = Some pwd ->
  password_is_strong pwd = true ->
  let db1 := out_db (register db s rq) in
  let db2 :=
    out_db (password_reset (sign (register_email rq) (now rq)) db1 s' rq') in
  out (register db s rq)
  = inr {| response := Redirect (Endpoint "auth.login") 302;
           flashes := ["Регистрация прошла успешно. Подтвердите email: "
                       +:+ confirm_link (sign (register_email rq) (now rq))] |}
  /\ user_by_email db2 (register_email rq)
     = Some (set_password pwd
               (new_user db (register_email rq) (register_password rq))).
Proof.
  intros Hpost Hreg Hback Hage Hpost' Hp Hp2 Hstrong db1 db2. subst db1 db2.
  rewrite (register_creates db s rq Hpost Hreg). unfold Auth.reply at 1 2, Shop.reply.
  cbn [out out_db]. split; [reflexivity|].
  destruct Hreg as (_ & _ & _ & Hu).
  assert (Py.lower (register_email rq) = register_email rq) as Hlow
      by apply lower_lower.
  pose proof (registered_by_email db (register_email rq) (register_password rq) Hu)
    as Hnew.
  rewrite <- Hlow in Hnew at 2.
  rewrite (password_reset_sets _ _ pwd _ _ s' rq' _ Hback Hage Hnew Hpost' Hp Hp2
             Hstrong).
  unfold Auth.reply, Shop.reply. cbn [out_db].
  rewrite Hlow in Hnew. now apply user_by_email_update.
Qed.

(** X20. Forgotten password, from the form to the login: for a known
    email [password_forgot] shows a reset link and changes nothing; when the
    serializer reads its token back, [password_reset] with it, within 30
    minutes, with two equal strong passwords, stores the hash of the new
    password for that user; and a login with the new password opens a
    session for the user. *)
Theorem forgot_reset_login (db : Db) (s0 s1 s2 : Session) (rq0 rq1 rq2 : Request)
    (u : User.t) (pwd : string) :
  let email := Py.lower (Py.strip (default "" (md_get "email" (form rq0)))) in
  let token := sign email (now rq0) in
  method rq0 = POST ->
  user_by_email db email = Some u ->
  unsign token = Some (email, now rq0) ->
  0 <= now rq1 - now rq0 <= 60 * 30 ->
  method rq1 = POST ->
  md_get "password" (form rq1) = Some pwd ->
  md_get "password2" (form rq1) = Some pwd ->
  password_is_strong pwd = true ->
  method rq2 = POST ->
  Py.lower (Py.strip (default "" (md_get "email" (form rq2)))) = email ->
  md_get "password" (form rq2) = Some pwd ->
  let db1 := out_db (password_reset token db s1 rq1) in
  password_forgot db s0 rq0
  = reply db s0 (Redirect (Endpoint "auth.login") 302)
      ["Если такой пользователь существует, ссылка для сброса: "
       +:+ reset_link token +:+ " (действует 30 минут)"]
  /\ user_by_email db1 email = Some (set_password pwd u)
  /\ out_session (login db1 s2 rq2) = login_user u s2.
Proof.
  intros email token Hpost0 Hu Hback Hage Hpost1 Hp Hp2 Hstrong Hpost2 Hemail2 Hpwd2
    db1. subst db1.
  assert (Py.lower email = email) as Hlow by apply lower_lower.
  split; [unfold password_forgot; fold email; now rewrite Hpost0, Hu|].
  assert (user_by_email db (Py.lower email) = Some u) as Hu' by now rewrite Hlow.
  rewrite (password_reset_sets _ _ pwd _ _ s1 rq1 _ Hback Hage Hu' Hpost1 Hp Hp2
             Hstrong).
  unfold Auth.reply, Shop.reply. cbn [out_db].
  pose proof (user_by_email_update (set_password pwd) db email u
                (fun _ => eq_refl) Hu) as Hnew.
  split; [exact Hnew|].
  edestruct (login_accepts (update_user (set_password pwd) (User.id u) db) s2 rq2)
    as [_ Hs]; [exact Hpost2| | | |].
  - rewrite Hemail2. exact Hnew.
  - rewrite Hpwd2. reflexivity.
  - apply check_generated.
  - exact Hs.
Qed.

(** X21. [login] changes neither the database nor the cart, and it opens
    a session only for a user of the table who has the email of the form,
    stripped and in lower case, and whose password check accepts the
    password of the form; otherwise the session is what it was. *)
Theorem login_only_with_password (db : Db) (s : Session) (rq : Request) :
  out_db (login db s rq) = db
  /\ cart_slot (out_session (login db s rq)) = cart_slot s
  /\ (out_session (login db s rq) = s
      \/ exists u,
           method rq = POST
           /\ u ∈ users db
           /\ User.email u
              = Py.lower (Py.strip (default "" (md_get "email" (form rq))))
           /\ check_password u (default "" (md_get "password" (form rq))) = true
           /\ login_id (out_session (login db s rq)) = Some (User.id u)).
Proof.
  unfold login. destruct (method rq); [repeat split; now left|].
  destruct (user_by_email db _) as [u|] eqn:Hu; [|repeat split; now left].
  destruct (check_password u _) eqn:Hcheck; [|repeat split; now left].
  unfold Auth.reply, Shop.reply. cbn [out_db out_session].
  repeat split. right. exists u.
  unfold user_by_email in Hu. apply find_some in Hu as [Hin E].
  apply String.eqb_eq in E. apply list_elem_of_In in Hin. auto.
Qed.

(** X22. [logout] ends the session and keeps the cart and the database:
    whoever sent the request, the session it leaves has no user, and every
    rule of the admin blueprint answers 403 to it. *)
Theorem logout_ends_session (db : Db) (s : Session) (rq : Request) :
  out_db (logout db s rq) = db
  /\ cart_slot (out_session (logout db s rq)) = cart_slot s
  /\ current_user db (out_session (logout db s rq)) = None
  /\ forall r rq',
       Admin.dispatch r db (out_session (logout db s rq)) rq'
       = Admin.stop db (out_session (logout db s rq)) (Abort 403).
Proof.
  assert (current_user db (out_session (logout db s rq)) = None) as Hnone.
  { unfold logout, login_required.
    destruct (current_user db s) as [u|] eqn:Hu; cbn [is_authenticated];
      unfold Auth.reply, Shop.reply; cbn [out_session]; [reflexivity|exact Hu]. }
  repeat split.
  - unfold logout, login_required. now destruct (is_authenticated _).
  - unfold logout, login_required. now destruct (is_authenticated _).
  - exact Hnone.
  - intros r rq'. unfold Admin.dispatch, Admin._check_admin. now rewrite Hnone.
Qed.

(** X23. [account_order] shows an order only to a logged-in user who owns
    it (the order carries the user's key, or carries no key and the user's
    email) or who is an administrator; it never changes the database or the
    session. *)
Theorem account_order_access (oid : Z) (db : Db) (s : Session) (rq : Request) :
  out_db (account_order oid db s rq) = db
  /\ out_session (account_order oid db s rq) = s
  /\ (out (account_order oid db s rq)
      = inr {| response := Render "account_order.html"; flashes := [] |}
      <-> exists u order,
            current_user db s = Some u
            /\ get_order db oid = Some order
            /\ (Order.user_id order = Some (User.id u)
                \/ (Order.user_id order = None /\ Order.email order = User.email u)
                \/ User.is_admin u = true)).
Proof.
  assert (forall u order,
             owns u order || User.is_admin u = true
             <-> (Order.user_id order = Some (User.id u)
                  \/ (Order.user_id order = None /\ Order.email order = User.email u)
                  \/ User.is_admin u = true)) as Howns.
  { intros u order. rewrite orb_true_iff. unfold owns.
    destruct (Order.user_id order) as [uid|].
    - rewrite Z.eqb_eq. split.
      + intros [->|?]; auto.
      + intros [[= ->]|[[? _]|?]]; auto; discriminate.
    - rewrite String.eqb_eq. split.
      + intros [?|?]; auto.
      + intros [?|[[_ ?]|?]]; auto; discriminate. }
  unfold account_order, login_required.
  destruct (current_user db s) as [u|] eqn:Hu; cbn [is_authenticated].
  2:{ unfold Auth.reply, Shop.reply. cbn [out_db out_session out].
      repeat split; [discriminate|]. intros (? & ? & ? & _). discriminate. }
  destruct (get_order db oid) as [order|] eqn:Ho.
  2:{ destruct (out_of_range oid);
        unfold Auth.stop, Shop.stop; cbn [out_db out_session out];
        (repeat split; [discriminate|]);
        intros (? & ? & _ & ? & _); discriminate. }
  rewrite (get_order_in_range _ _ _ Ho).
  specialize (Howns u order).
  destruct (owns u order || User.is_admin u) eqn:Hallowed; cbn [negb];
    unfold Auth.reply, Shop.reply; cbn [out_db out_session out]; repeat split.
  - intros _. exists u, order. repeat split. now apply Howns.
  - discriminate.
  - intros (u' & order' & [= <-] & [= <-] & Hown). apply Howns in Hown. discriminate.
Qed.

Lemma get_user_update_other (f : User.t -> User.t) (uid pk : Z) (db : Db) :
  (forall v, User.id (f v) = User.id v) -> pk <> uid ->
  get_user (update_user f uid db) pk = get_user db pk.
Proof.
  intros Hf Hpk. unfold get_user, update_user, with_users. cbn [users].
  induction (users db) as [|v vs IH]; [reflexivity|]. cbn.
  destruct (Z.eqb_spec (User.id v) uid) as [E|Hne].
  - rewrite Hf. destruct (Z.eqb_spec (User.id v) pk); [congruence|exact IH].
  - destruct (Z.eqb (User.id v) pk); [reflexivity|exact IH].
Qed.

(** X24. [profile] changes the row of the current user only, and in it
    neither the key, the email, the administrator flag nor
    [email_confirmed]; the password hash changes only when the current
    password passes the check and the new one is strong, and is then the
    hash of the new password. Orders, products and categories stay, and so
    does the session. *)
Theorem profile_changes_own_row (db : Db) (s : Session) (rq : Request)
    (me : User.t) :
  current_user db s = Some me ->
  (forall pk, pk <> User.id me ->
     get_user (out_db (profile db s rq)) pk = get_user db pk)
  /\ (exists me',
        get_user (out_db (profile db s rq)) (User.id me) = Some me'
        /\ User.id me' = User.id me
        /\ User.email me' = User.email me
        /\ User.is_admin me' = User.is_admin me
        /\ User.email_confirmed me' = User.email_confirmed me
        /\ (User.password_hash me' = User.password_hash me
            \/ (check_password me (default "" (md_get "current_password" (form rq)))
                = true
                /\ password_is_strong (default "" (md_get "new_password" (form rq)))
                   = true
                /\ User.password_hash me'
                   = generate_password_hash
                       (default "" (md_get "new_password" (form rq))))))
  /\ orders (out_db (profile db s rq)) = orders db
  /\ products (out_db (profile db s rq)) = products db
  /\ categories (out_db (profile db s rq)) = categories db
  /\ out_session (profile db s rq) = s.
Proof.
  intros Hme. pose proof (current_user_get _ _ _ Hme) as Hget.
  assert (exists me',
             get_user db (User.id me) = Some me'
             /\ User.id me' = User.id me
             /\ User.email me' = User.email me
             /\ User.is_admin me' = User.is_admin me
             /\ User.email_confirmed me' = User.email_confirmed me
             /\ (User.password_hash me' = User.password_hash me
                 \/ (check_password me (default "" (md_get "current_password" (form rq)))
                     = true
                     /\ password_is_strong
                          (default "" (md_get "new_password" (form rq))) = true
                     /\ User.password_hash me'
                        = generate_password_hash
                            (default "" (md_get "new_password" (form rq))))))
    as Hsame by (exists me; repeat split; [exact Hget|now left]).
  unfold profile, login_required. rewrite Hme. cbn [is_authenticated].
  destruct (method rq); [now repeat split|].
  destruct (String.eqb _ "save_profile").
  - unfold Auth.reply, Shop.reply. cbn [out_db out_session]. repeat split.
    + intros pk Hpk. rewrite get_user_update_other by (reflexivity || exact Hpk).
      now destruct (avatar_upload rq).
    + eexists. split.
      * apply (get_user_update _ (match avatar_upload rq with
                                   | Some filename =>
                                       Admin.with_uploads
                                         (uploads db ++ ["avatars/" +:+ filename])%list db
                                   | None => db
                                   end) me); [reflexivity|].
        now destruct (avatar_upload rq).
      * repeat split. now left.
    + now destruct (avatar_upload rq).
    + now destruct (avatar_upload rq).
    + now destruct (avatar_upload rq).
  - destruct (String.eqb _ "change_password"); [|now repeat split].
    destruct (check_password me _) eqn:Hcheck; cbn [negb]; [|now repeat split].
    destruct (password_is_strong _) eqn:Hstrong; cbn [negb]; [|now repeat split].
    destruct (String.eqb _ _); cbn [negb]; [|now repeat split].
    unfold Auth.reply, Shop.reply. cbn [out_db out_session]. repeat split.
    + intros pk Hpk. now rewrite get_user_update_other by (reflexivity || exact Hpk).
    + eexists. split; [apply get_user_update; [reflexivity|exact Hget]|].
      repeat split. now right.
Qed.

End SiteFlow.

(** ** The commands of [cli.py] *)

Section CliFlow.
Context `{Env} `{!Werkzeug}.
Variable literal : string -> float.
Import Utils Auth Account Cli.

Lemma find_app_keeps {A : Type} (p : A -> bool) (l k : list A) :
  is_Some (find p l) -> find p (l ++ k)%list = find p l.
Proof.
  induction l as [|a l IH]; cbn; [intros [? ?]; discriminate|].
  destruct (p a); [reflexivity | exact IH].
Qed.

Lemma ensure_category_found (name : string) (db : Db) :
  is_Some (category_by_name (ensure_category name db).1 name).
Proof.
  unfold ensure_category. destruct (category_by_name db name) as [c|] eqn:Hc; cbn.
  - rewrite Hc. eauto.
  - unfold category_by_name in *. cbn [categories Admin.with_categories].
    rewrite (find_app_new _ _ _ Hc); [eauto|]. cbn. apply String.eqb_refl.
Qed.

Lemma ensure_category_keeps (name n : string) (db : Db) :
  is_Some (category_by_name db n) ->
  category_by_name (ensure_category name db).1 n = category_by_name db n.
Proof.
  intros Hn. unfold ensure_category.
  destruct (category_by_name db name); [reflexivity|]. cbn.
  unfold category_by_name in *. cbn [categories Admin.with_categories].
  now apply find_app_keeps.
Qed.

Lemma ensure_category_fixed (name : string) (db : Db) :
  is_Some (category_by_name db name) -> (ensure_category name db).1 = db.
Proof. intros [c Hc]. unfold ensure_category. now rewrite Hc. Qed.

Lemma ensure_category_appends (name : string) (db : Db) :
  exists cs,
    (ensure_category name db).1
    = Admin.with_categories (categories db ++ cs)%list db.
Proof.
  unfold ensure_category. destruct (category_by_name db name).
  - exists []. cbn. rewrite app_nil_r. now destruct db.
  - eexists. reflexivity.
Qed.

Lemma ensure_product_found (name : string) (price : float)
    (description image : string) (c : Category.t) (db : Db) :
  is_Some (product_by_name (ensure_product name price description image c db) name).
Proof.
  unfold ensure_product. destruct (product_by_name db name) as [p|] eqn:Hp.
  - rewrite Hp. eauto.
  - unfold product_by_name in *. cbn [products Admin.with_products].
    rewrite (find_app_new _ _ _ Hp); [eauto|]. cbn. apply String.eqb_refl.
Qed.

Lemma ensure_product_keeps (name n : string) (price : float)
    (description image : string) (c : Category.t) (db : Db) :
  is_Some (product_by_name db n) ->
  is_Some (product_by_name (ensure_product name price description image c db) n).
Proof.
  intros Hn. unfold ensure_product.
  destruct (product_by_name db name); [exact Hn|].
  unfold product_by_name in *. cbn [products Admin.with_products].
  now rewrite find_app_keeps.
Qed.

Lemma ensure_product_fixed (name : string) (price : float)
    (description image : string) (c : Category.t) (db : Db) :
  is_Some (product_by_name db name) ->
  ensure_product name price description image c db = db.
Proof. intros [p Hp]. unfold ensure_product. now rewrite Hp. Qed.

Lemma ensure_product_appends (name : string) (price : float)
    (description image : string) (c : Category.t) (db : Db) :
  exists ps,
    ensure_product name price description image c db
    = Admin.with_products (products db ++ ps)%list db.
Proof.
  unfold ensure_product. destruct (product_by_name db name).
  - exists []. rewrite app_nil_r. now destruct db.
  - eexists. reflexivity.
Qed.

Lemma ensure_product_categories (name : string) (price : float)
    (description image : string) (c : Category.t) (db : Db) (n : string) :
  category_by_name (ensure_product name price description image c db) n
  = category_by_name db n.
Proof. unfold ensure_product. now destruct (product_by_name db name). Qed.

(** After [seed] the three categories and the three products are there. *)
Lemma seed_has (db : Db) :
  Forall (fun n => is_Some (category_by_name (seed literal db) n))
    ["Одежда"; "Сувениры"; "Стикеры"]
  /\ Forall (fun n => is_Some (product_by_name (seed literal db) n))
       ["Футболка hack_yourself"; "Кружка hack_yourself"; "Наклейки hack_yourself"].
Proof.
  unfold seed.
  destruct (ensure_category "Одежда" db) as [db1 clothes] eqn:E1.
  destruct (ensure_category "Сувениры" db1) as [db2 souvenirs] eqn:E2.
  destruct (ensure_category "Стикеры" db2) as [db3 stickers] eqn:E3.
  pose proof (ensure_category_found "Одежда" db) as H1. rewrite E1 in H1.
  pose proof (ensure_category_found "Сувениры" db1) as H2. rewrite E2 in H2.
  pose proof (ensure_category_found "Стикеры" db2) as H3. rewrite E3 in H3.
  cbn [fst] in H1, H2, H3.
  assert (is_Some (category_by_name db2 "Одежда")) as H12.
  { pose proof (ensure_category_keeps "Сувениры" "Одежда" db1 H1) as K.
    rewrite E2 in K. cbn [fst] in K. now rewrite K. }
  assert (is_Some (category_by_name db3 "Одежда")) as H13.
  { pose proof (ensure_category_keeps "Стикеры" "Одежда" db2 H12) as K.
    rewrite E3 in K. cbn [fst] in K. now rewrite K. }
  assert (is_Some (category_by_name db3 "Сувениры")) as H23.
  { pose proof (ensure_category_keeps "Стикеры" "Сувениры" db2 H2) as K.
    rewrite E3 in K. cbn [fst] in K. now rewrite K. }
  split.
  - repeat constructor; rewrite !ensure_product_categories; assumption.
  - repeat constructor.
    + do 2 apply ensure_product_keeps. apply ensure_product_found.
    + apply ensure_product_keeps. apply ensure_product_found.
    + apply ensure_product_found.
Qed.

(** [seed] changes nothing where the demo data are. *)
Lemma seed_fixed (db : Db) :
  Forall (fun n => is_Some (category_by_name db n))
    ["Одежда"; "Сувениры"; "Стикеры"] ->
  Forall (fun n => is_Some (product_by_name db n))
    ["Футболка hack_yourself"; "Кружка hack_yourself"; "Наклейки hack_yourself"] ->
  seed literal db = db.
Proof.
  intros Hc Hp.
  apply Forall_cons in Hc as [C1 Hc]. apply Forall_cons in Hc as [C2 Hc].
  apply Forall_cons in Hc as [C3 _].
  apply Forall_cons in Hp as [P1 Hp]. apply Forall_cons in Hp as [P2 Hp].
  apply Forall_cons in Hp as [P3 _].
  unfold seed.
  pose proof (ensure_category_fixed _ _ C1) as E1.
  destruct (ensure_category "Одежда" db) as [db1 clothes]. cbn [fst] in E1. subst db1.
  pose proof (ensure_category_fixed _ _ C2) as E2.
  destruct (ensure_category "Сувениры" db) as [db2 souvenirs]. cbn [fst] in E2.
  subst db2.
  pose proof (ensure_category_fixed _ _ C3) as E3.
  destruct (ensure_category "Стикеры" db) as [db3 stickers]. cbn [fst] in E3.
  subst db3.
  rewrite (ensure_product_fixed "Футболка hack_yourself" _ _ _ _ db P1).
  rewrite (ensure_product_fixed "Кружка hack_yourself" _ _ _ _ db P2).
  exact (ensure_product_fixed "Наклейки hack_yourself" _ _ _ _ db P3).
Qed.

(** X25. [flask seed] only appends categories and products (users, orders,
    order items and uploads stay, and every row that was there stays in
    place), and running it a second time changes nothing. *)
Theorem seed_idempotent (db : Db) :
  seed literal (seed literal db) = seed literal db
  /\ (exists cs ps,
        categories (seed literal db) = (categories db ++ cs)%list
        /\ products (seed literal db) = (products db ++ ps)%list)
  /\ users (seed literal db) = users db
  /\ orders (seed literal db) = orders db
  /\ order_items (seed literal db) = order_items db
  /\ uploads (seed literal db) = uploads db.
Proof.
  split; [destruct (seed_has db); now apply seed_fixed|].
  unfold seed.
  destruct (ensure_category_appends "Одежда" db) as [c1 E1].
  destruct (ensure_category "Одежда" db) as [db1 clothes]. cbn [fst] in E1.
  destruct (ensure_category_appends "Сувениры" db1) as [c2 E2].
  destruct (ensure_category "Сувениры" db1) as [db2 souvenirs]. cbn [fst] in E2.
  destruct (ensure_category_appends "Стикеры" db2) as [c3 E3].
  destruct (ensure_category "Стикеры" db2) as [db3 stickers]. cbn [fst] in E3.
  match goal with
  | |- context [ensure_product ?n3 ?x3 ?d3 ?i3 ?k3
                  (ensure_product ?n2 ?x2 ?d2 ?i2 ?k2
                     (ensure_product ?n1 ?x1 ?d1 ?i1 ?k1 db3))] =>
      destruct (ensure_product_appends n1 x1 d1 i1 k1 db3) as [p1 F1];
      rewrite F1;
      destruct (ensure_product_appends n2 x2 d2 i2 k2
                  (Admin.with_products (products db3 ++ p1)%list db3)) as [p2 F2];
      rewrite F2;
      destruct (ensure_product_appends n3 x3 d3 i3 k3
                  (Admin.with_products
                     (products (Admin.with_products (products db3 ++ p1)%list db3)
                      ++ p2)%list
                     (Admin.with_products (products db3 ++ p1)%list db3)))
        as [p3 F3];
      rewrite F3
  end.
  subst db3 db2 db1. cbn. split; [|now repeat split].
  exists ((c1 ++ c2) ++ c3)%list, ((p1 ++ p2) ++ p3)%list.
  now rewrite !app_assoc.
Qed.



End CliFlow.

(** ** Further examples *)

Section CartFlowExamples.
#[local] Existing Instance Demo.env.
Import Utils Shop.

(** A cart with a shirt; three mugs are added. *)
Lemma cart_add_keeps_cart_witness :
  let s := Demo.guest_with {["2" := 1]} in
  let rq := Demo.request POST [("qty", "3")] in
  (canonical (get_cart s) = true /\ positive_cart (get_cart s) = true)
  /\ canonical (get_cart (out_session (cart_add 1 Demo.shop s rq))) = true.
Proof.
  split; [split; reflexivity|].
  exact (proj1 (cart_add_keeps_cart 1 Demo.shop (Demo.guest_with {["2" := 1]})
                  (Demo.request POST [("qty", "3")]) eq_refl eq_refl)).
Defined.


(** A quantity that no float holds: [cart_add] stores it, and [cart_items]
    raises OverflowError on the next request. *)
Example cart_items_quantity_beyond_float :
  let s := out_session (cart_add 1 Demo.shop Demo.guest
                          (Demo.request POST [("qty", "1" +:+ Demo.zeros 400)])) in
  get_cart s = {["1" := 10 ^ 400]}
  /\ cart_items Demo.shop s = inl (Raise Py.OverflowError).
Proof. split; reflexivity. Qed.

(** A key beyond SQLite's 64 bits that names no product: the query cannot
    bind it, and [cart_items] raises OverflowError. *)
Example cart_items_key_beyond_sqlite :
  let s := Demo.guest_with {["9223372036854775808" := 1]} in
  canonical (get_cart s) = true
  /\ cart_items Demo.shop s = inl (Raise Py.OverflowError)
  /\ checkout Demo.shop s (Demo.request POST [])
     = stop Demo.shop s (Raise Py.OverflowError).
Proof. repeat split; reflexivity. Qed.


(** Bob sends his checkout form twice. *)
Lemma checkout_not_repeated_witness :
  let s := Demo.guest_with {["1" := 2]} in
  let rq := Demo.request POST [("name", "Bob"); ("email", "bob@example.org");
                               ("address", "2 Side St")] in
  let first := checkout Demo.shop s rq in
  (fle fzero fzero = true /\ orders (out_db first) <> orders Demo.shop)
  /\ out_db (checkout (out_db first) (out_session first) rq) = out_db first.
Proof.
  cbv zeta.
  assert (orders (out_db (checkout Demo.shop (Demo.guest_with {["1" := 2]})
                            (Demo.request POST
                               [("name", "Bob"); ("email", "bob@example.org");
                                ("address", "2 Side St")])))
          <> orders Demo.shop) as Hnew by discriminate.
  split; [split; [reflexivity | exact Hnew]|].
  exact (proj1 (checkout_not_repeated Demo.shop (Demo.guest_with {["1" := 2]})
                  (Demo.request POST [("name", "Bob"); ("email", "bob@example.org");
                                      ("address", "2 Side St")])
                  (Demo.request POST [("name", "Bob"); ("email", "bob@example.org");
                                      ("address", "2 Side St")])
                  eq_refl Hnew)).
Defined.


(** Bob's order is canceled at the gateway, and then reported as paid. *)
Lemma payment_success_after_cancel_witness :
  let rq := Demo.query GET [("order_id", "1")] 1000 in
  md_get_int "order_id" (args rq) = Some 1
  /\ out_db (payment_success
               (out_db (payment_cancel Demo.shop_with_order Demo.guest rq))
               Demo.guest rq)
     = out_db (payment_success Demo.shop_with_order Demo.guest rq).
Proof.
  split; [reflexivity|].
  exact (payment_success_after_cancel Demo.shop_with_order Demo.guest Demo.guest
           (Demo.query GET [("order_id", "1")] 1000)
           (Demo.query GET [("order_id", "1")] 1000) 1 eq_refl eq_refl).
Defined.

End CartFlowExamples.

Section AdminFlowExamples.
#[local] Existing Instance Demo.env.
Import Utils Admin.

Ltac distinct :=
  cbn;
  repeat (apply NoDup_cons_2;
          [let Hin := fresh in
           intros Hin;
           repeat (apply elem_of_cons in Hin as [Hin|Hin]; [discriminate Hin|]);
           inversion Hin|]);
  apply NoDup_nil_2.

(** The administrator adds the category mugs. *)
Lemma admin_keeps_categories_unique_witness :
  let s := Demo.as_user Demo.root ∅ in
  let rq := Demo.request POST [("name", "mugs")] in
  (NoDup (Category.name <$> categories Demo.shop)
   /\ NoDup (Category.id <$> categories Demo.shop))
  /\ NoDup (Category.name <$> categories (out_db (view RCategoryNew Demo.shop s rq))).
Proof.
  cbv zeta.
  assert (NoDup (Category.name <$> categories Demo.shop)) as Hnames by distinct.
  assert (NoDup (Category.id <$> categories Demo.shop)) as Hids by distinct.
  split; [split; assumption|].
  exact (proj1 (admin_keeps_categories_unique RCategoryNew Demo.shop
                  (Demo.as_user Demo.root ∅) (Demo.request POST [("name", "mugs")])
                  Hnames Hids)).
Defined.

(** The administrator adds a cap. *)
Lemma admin_keeps_product_ids_unique_witness :
  let s := Demo.as_user Demo.root ∅ in
  let rq := Demo.request POST [("name", "cap"); ("price", "10")] in
  NoDup (Product.id <$> products Demo.shop)
  /\ NoDup (Product.id <$> products (out_db (view RProductNew Demo.shop s rq))).
Proof.
  cbv zeta.
  assert (NoDup (Product.id <$> products Demo.shop)) as Hids by distinct.
  split; [exact Hids|].
  exact (admin_keeps_product_ids_unique RProductNew Demo.shop
           (Demo.as_user Demo.root ∅)
           (Demo.request POST [("name", "cap"); ("price", "10")]) Hids).
Defined.

(** The category of the mug is deleted. *)
Lemma category_delete_detaches_witness :
  let s := Demo.as_user Demo.root ∅ in
  let rq := Demo.request POST [] in
  is_Some (get_category Demo.shop 1)
  /\ get_category (out_db (category_delete 1 Demo.shop s rq)) 1 = None.
Proof.
  cbv zeta.
  assert (is_Some (get_category Demo.shop 1)) as Hcat by (eexists; reflexivity).
  split; [exact Hcat|].
  exact (proj1 (category_delete_detaches 1 Demo.shop (Demo.as_user Demo.root ∅)
                  (Demo.request POST []) Hcat)).
Defined.

(** Two mugs and a shirt in a cart; the mug is deleted. *)
Lemma product_delete_drops_line_witness :
  let s0 := Demo.as_user Demo.root ∅ in
  let s := Demo.guest_with (<["1" := 2]> {["2" := 1]}) in
  let rq := Demo.request POST [] in
  exists rows total,
    (is_Some (get_product Demo.shop 1) /\ cart_items Demo.shop s = inr (rows, total))
    /\ exists total',
         cart_items (out_db (product_delete 1 Demo.shop s0 rq)) s
         = inr (filter (fun r => Product.id (product r) ≠ 1) rows, total').
Proof.
  cbv zeta.
  pose (s := Demo.guest_with (<["1" := 2]> {["2" := 1]})).
  pose (rows := line_of (get_cart s) <$> [Demo.mug; Demo.shirt]).
  pose (total := fadd (fadd fzero (fmul_int (Product.price Demo.mug) 2))
                   (fmul_int (Product.price Demo.shirt) 1)).
  assert (is_Some (get_product Demo.shop 1)) as Hp by (eexists; reflexivity).
  assert (cart_items Demo.shop s = inr (rows, total)) as Hrows by reflexivity.
  exists rows, total. split; [split; assumption|]. eexists.
  exact (product_delete_drops_line 1 Demo.shop (Demo.as_user Demo.root ∅) s
           (Demo.request POST []) rows total Hp Hrows).
Defined.

End AdminFlowExamples.

Section SiteFlowExamples.
#[local] Existing Instance Demo.env.
#[local] Existing Instance DemoAuth.werkzeug.
Import Utils Auth Account.

Ltac distinct :=
  cbn;
  repeat (apply NoDup_cons_2;
          [let Hin := fresh in
           intros Hin;
           repeat (apply elem_of_cons in Hin as [Hin|Hin]; [discriminate Hin|]);
           inversion Hin|]);
  apply NoDup_nil_2.

(** Carol registers, and Alice logs in. *)
Lemma site_keeps_users_unique_witness :
  let trace :=
    [(Site.Core App.Register, Demo.guest,
      Demo.request POST [("email", "carol@example.org"); ("password", "Secret1!")]);
     (Site.Login, Demo.guest,
      Demo.request POST [("email", "alice@example.org"); ("password", "Secret1!")])] in
  (NoDup (User.email <$> users Demo.shop) /\ NoDup (User.id <$> users Demo.shop))
  /\ NoDup (User.email <$> users (Site.run trace Demo.shop)).
Proof.
  cbv zeta.
  assert (NoDup (User.email <$> users Demo.shop)) as Hemails by distinct.
  assert (NoDup (User.id <$> users Demo.shop)) as Hids by distinct.
  split; [split; assumption|].
  exact (proj1 (site_keeps_users_unique
                  [(Site.Core App.Register, Demo.guest,
                    Demo.request POST [("email", "carol@example.org");
                                       ("password", "Secret1!")]);
                   (Site.Login, Demo.guest,
                    Demo.request POST [("email", "alice@example.org");
                                       ("password", "Secret1!")])]
                  Demo.shop Hemails Hids)).
Defined.

(** Carol registers and logs in. *)
Lemma register_then_login_witness :
  let rq := Demo.request POST [("email", "  Carol@Example.org ");
                               ("password", "Secret1!")] in
  let rq' := Demo.request POST [("email", "carol@example.org");
                                ("password", "Secret1!")] in
  let db' := out_db (register Demo.shop Demo.guest rq) in
  (method rq = POST /\ registrable Demo.shop rq /\ method rq' = POST
   /\ Py.lower (Py.strip (default "" (md_get "email" (form rq')))) = register_email rq
   /\ default "" (md_get "password" (form rq')) = register_password rq)
  /\ current_user db' (out_session (login db' Demo.guest rq'))
     = Some (new_user Demo.shop "carol@example.org" "Secret1!").
Proof.
  cbv zeta.
  pose (rq := Demo.request POST [("email", "  Carol@Example.org ");
                                 ("password", "Secret1!")]).
  pose (rq' := Demo.request POST [("email", "carol@example.org");
                                  ("password", "Secret1!")]).
  assert (registrable Demo.shop rq) as Hok.
  { split; [discriminate|]. split; [discriminate|].
    split; [now apply password_is_strong_spec | now apply user_by_email_None]. }
  split; [split; [reflexivity|]; split; [exact Hok|]; repeat split|].
  exact (proj1 (register_then_login Demo.shop Demo.guest Demo.guest rq rq'
                  eq_refl Hok eq_refl eq_refl eq_refl)).
Defined.

(** Alice asks for her confirmation link and follows it an hour later. *)
Lemma confirm_link_confirms_witness :
  let s := Demo.as_user Demo.alice ∅ in
  let rq := Demo.query GET [] 1000 in
  let rq' := Demo.query GET [] 4600 in
  let token := sign (User.email Demo.alice) (now rq) in
  (current_user Demo.shop s = Some Demo.alice
   /\ User.email_confirmed Demo.alice = false
   /\ unsign token = Some (User.email Demo.alice, now rq)
   /\ 0 <= now rq' - now rq <= 60 * 60 * 24)
  /\ get_user (out_db (confirm_email token Demo.shop s rq')) (User.id Demo.alice)
     = Some (confirm Demo.alice).
Proof.
  cbv zeta.
  assert (0 <= now (Demo.query GET [] 4600) - now (Demo.query GET [] 1000)
          <= 60 * 60 * 24) as Hage by (cbn; lia).
  split; [do 3 (split; [reflexivity|]); exact Hage|].
  exact (proj2 (proj2 (confirm_link_confirms Demo.shop (Demo.as_user Demo.alice ∅)
                         (Demo.query GET [] 1000) (Demo.query GET [] 4600)
                         Demo.alice eq_refl eq_refl eq_refl Hage))).
Defined.

(** Carol registers; ten minutes later the token of her confirmation link
    is used on the reset view. *)
Lemma confirmation_token_resets_password_witness :
  let rq := Demo.request POST [("email", "carol@example.org");
                               ("password", "Secret1!")] in
  let rq' := {| method := POST;
                form := [("password", "Better2?"); ("password2", "Better2?")];
                args := []; files := []; xhr := None; referrer := None;
                url := "/password/reset/t"; body := None; now := 1600 |} in
  let token := sign (register_email rq) (now rq) in
  let db1 := out_db (register Demo.shop Demo.guest rq) in
  (method rq = POST /\ registrable Demo.shop rq
   /\ unsign token = Some (register_email rq, now rq)
   /\ 0 <= now rq' - now rq <= 60 * 30
   /\ method rq' = POST
   /\ md_get "password" (form rq') = Some "Better2?"
   /\ md_get "password2" (form rq') = Some "Better2?"
   /\ password_is_strong "Better2?" = true)
  /\ User.password_hash
     <$> user_by_email (out_db (password_reset token db1 Demo.guest rq'))
           "carol@example.org"
     = Some (generate_password_hash "Better2?").
Proof.
  cbv zeta.
  pose (rq := Demo.request POST [("email", "carol@example.org");
                                 ("password", "Secret1!")]).
  pose (rq' := {| method := POST;
                  form := [("password", "Better2?"); ("password2", "Better2?")];
                  args := []; files := []; xhr := None; referrer := None;
                  url := "/password/reset/t"; body := None; now := 1600 |}).
  assert (registrable Demo.shop rq) as Hok.
  { split; [discriminate|]. split; [discriminate|].
    split; [now apply password_is_strong_spec | now apply user_by_email_None]. }
  assert (0 <= now rq' - now rq <= 60 * 30) as Hage by (cbn; lia).
  split; [split; [reflexivity|]; split; [exact Hok|]; split; [reflexivity|];
          split; [exact Hage|]; repeat split|].
  exact (f_equal (fmap User.password_hash)
           (proj2 (confirmation_token_resets_password Demo.shop Demo.guest Demo.guest
                     rq rq' "Better2?" eq_refl Hok eq_refl Hage eq_refl eq_refl
                     eq_refl eq_refl))).
Defined.

(** Alice forgot her password: the link, the new password, the login. *)
Lemma forgot_reset_login_witness :
  let rq0 := Demo.request POST [("email", " Alice@Example.org ")] in
  let rq1 := {| method := POST;
                form := [("password", "Better2?"); ("password2", "Better2?")];
                args := []; files := []; xhr := None; referrer := None;
                url := "/password/reset/t"; body := None; now := 1600 |} in
  let rq2 := Demo.request POST [("email", "alice@example.org");
                                ("password", "Better2?")] in
  let email := Py.lower (Py.strip (default "" (md_get "email" (form rq0)))) in
  let token := sign email (now rq0) in
  let db1 := out_db (password_reset token Demo.shop Demo.guest rq1) in
  (method rq0 = POST
   /\ user_by_email Demo.shop email = Some Demo.alice
   /\ unsign token = Some (email, now rq0)
   /\ 0 <= now rq1 - now rq0 <= 60 * 30
   /\ method rq1 = POST
   /\ md_get "password" (form rq1) = Some "Better2?"
   /\ md_get "password2" (form rq1) = Some "Better2?"
   /\ password_is_strong "Better2?" = true
   /\ method rq2 = POST
   /\ Py.lower (Py.strip (default "" (md_get "email" (form rq2)))) = email
   /\ md_get "password" (form rq2) = Some "Better2?")
  /\ out_session (login db1 Demo.guest rq2) = login_user Demo.alice Demo.guest.
Proof.
  cbv zeta.
  pose (rq0 := Demo.request POST [("email", " Alice@Example.org ")]).
  pose (rq1 := {| method := POST;
                  form := [("password", "Better2?"); ("password2", "Better2?")];
                  args := []; files := []; xhr := None; referrer := None;
                  url := "/password/reset/t"; body := None; now := 1600 |}).
  pose (rq2 := Demo.request POST [("email", "alice@example.org");
                                  ("password", "Better2?")]).
  assert (0 <= now rq1 - now rq0 <= 60 * 30) as Hage by (cbn; lia).
  split; [do 3 (split; [reflexivity|]); split; [exact Hage|]; repeat split|].
  exact (proj2 (proj2 (forgot_reset_login Demo.shop Demo.guest Demo.guest Demo.guest
                         rq0 rq1 rq2 Demo.alice "Better2?" eq_refl eq_refl eq_refl
                         Hage eq_refl eq_refl eq_refl eq_refl eq_refl eq_refl
                         eq_refl))).
Defined.

(** Alice saves a new name in her profile. *)
Lemma profile_changes_own_row_witness :
  let s := Demo.as_user Demo.alice ∅ in
  let rq := Demo.request POST [("full_name", "Alice A.")] in
  current_user Demo.shop s = Some Demo.alice
  /\ get_user (out_db (profile Demo.shop s rq)) (User.id Demo.root)
     = get_user Demo.shop (User.id Demo.root).
Proof.
  split; [reflexivity|].
  refine (proj1 (profile_changes_own_row Demo.shop (Demo.as_user Demo.alice ∅)
                   (Demo.request POST [("full_name", "Alice A.")]) Demo.alice
                   eq_refl) (User.id Demo.root) _).
  discriminate.
Defined.


(** The same with a blank before the email: the user is stored under
    [" boss@example.org"], and the login form, read without the blank, finds
    no user. *)
Example create_admin_padded_email :
  let rq := Demo.request POST [("email", " Boss@Example.org");
                               ("password", "Secret9!")] in
  let db' := Cli.create_admin (Some " Boss@Example.org") (Some "Secret9!") Demo.shop in
  User.email <$> users db'
  = ["alice@example.org"; "root@example.org"; " boss@example.org"]
  /\ out_session (login db' Demo.guest rq) = Demo.guest.
Proof. split; reflexivity. Qed.

End SiteFlowExamples.
